(** * ReLib: a shallow embedding of [driftconfig/relib.py]

    The development follows the source file top to bottom: Python values and
    the few built-ins the module relies on, the two name patterns, the
    [Table] and [SingleRowTable] classes, the [TableStore] and its save and
    load cycle over a [Backend]. *)

From Stdlib Require Import List String Ascii ZArith NArith Bool Lia Arith.
From Stdlib Require Import DecimalString DecimalZ DecimalPos Permutation.
Import ListNotations.

Open Scope list_scope.
Open Scope string_scope.

Set Implicit Arguments.

(** ** Python values *)

Module Py.

(** A [dict] is kept as an association list. The position of an item stands
    for its place in the iteration order of the Python object; lookups take
    the first item with the key, and every operation below keeps keys
    unique when they were. *)
Abbreviation dict A := (list (string * A)) (only parsing).

(** The values a row, a schema or a default can hold: what [json] can
    encode, floating point numbers left out. *)
#[warnings="-register-all"]
Inductive value : Type :=
| VNone
| VBool (b : bool)
| VInt (z : Z)
| VStr (s : string)
| VList (l : list value)
| VDict (d : list (string * value)).

(** A row maps field names to values. *)
Abbreviation row := (list (string * value)) (only parsing).

Section Dict.
Context {A : Type}.

(** [d.get(k)] *)
Fixpoint get (k : string) (d : dict A) : option A :=
  match d with
  | [] => None
  | (k', v) :: d' => if String.eqb k k' then Some v else get k d'
  end.

(** [k in d] *)
Definition mem (k : string) (d : dict A) : bool :=
  match get k d with Some _ => true | None => false end.

(** [d[k] = v]: an existing key keeps its place, a new one goes last. *)
Fixpoint set (k : string) (v : A) (d : dict A) : dict A :=
  match d with
  | [] => [(k, v)]
  | (k', v') :: d' =>
      if String.eqb k k' then (k', v) :: d' else (k', v') :: set k v d'
  end.

(** [del d[k]] on a key that is there. *)
Fixpoint del (k : string) (d : dict A) : dict A :=
  match d with
  | [] => []
  | (k', v') :: d' => if String.eqb k k' then d' else (k', v') :: del k d'
  end.

(** [d.update(e)] *)
Definition update (d e : dict A) : dict A :=
  fold_left (fun acc kv => set (fst kv) (snd kv) acc) e d.

Definition keys (d : dict A) : list string := map fst d.
Definition values (d : dict A) : list A := map snd d.
End Dict.

(** No key twice: what makes an association list a dict. *)
Fixpoint uniq (l : list string) : bool :=
  match l with
  | [] => true
  | x :: l' => negb (existsb (String.eqb x) l') && uniq l'
  end.

Definition is_dict {A} (d : dict A) : bool := uniq (keys d).

(** [set(xs).issubset(d)] for a list of names and a dict. *)
Definition issubset {A} (xs : list string) (d : dict A) : bool :=
  forallb (fun k => mem k d) xs.

(** [x in xs] for lists of strings. *)
Definition str_in (x : string) (xs : list string) : bool :=
  existsb (String.eqb x) xs.

(** [a == b] on values. Python compares [bool] and [int] by number, lists item
    by item and dicts by key. *)
Fixpoint eqb (a b : value) {struct a} : bool :=
  match a, b with
  | VNone, VNone => true
  | VBool x, VBool y => Bool.eqb x y
  | VBool x, VInt y => Z.eqb (if x then 1 else 0) y
  | VInt x, VBool y => Z.eqb x (if y then 1 else 0)
  | VInt x, VInt y => Z.eqb x y
  | VStr x, VStr y => String.eqb x y
  | VList xs, VList ys =>
      (fix go (xs ys : list value) {struct xs} : bool :=
         match xs, ys with
         | [], [] => true
         | x :: xs', y :: ys' => eqb x y && go xs' ys'
         | _, _ => false
         end) xs ys
  | VDict d, VDict e =>
      Nat.eqb (List.length d) (List.length e) &&
      (fix go (d : list (string * value)) {struct d} : bool :=
         match d with
         | [] => true
         | (k, v) :: d' =>
             match get k e with
             | Some w => eqb v w && go d'
             | None => false
             end
         end) d
  | _, _ => false
  end.

(** [bool(v)] *)
Definition truthy (v : value) : bool :=
  match v with
  | VNone => false
  | VBool b => b
  | VInt z => negb (Z.eqb z 0)
  | VStr s => negb (String.eqb s "")
  | VList l => match l with [] => false | _ => true end
  | VDict d => match d with [] => false | _ => true end
  end.

(** [str(z)] for an integer. *)
Definition str_of_Z (z : Z) : string := NilZero.string_of_int (Z.to_int z).

(** [str(v)]. For a list or a dict Python prints the [repr] of the items; the
    rendering here keeps the brackets, the separators and the items, and
    writes every string item between single quotes without escapes. *)
Fixpoint repr (v : value) : string :=
  match v with
  | VNone => "None"
  | VBool true => "True"
  | VBool false => "False"
  | VInt z => str_of_Z z
  | VStr s => "'" ++ s ++ "'"
  | VList l => "[" ++ String.concat ", " (map repr l) ++ "]"
  | VDict d =>
      "{" ++ String.concat ", "
               (map (fun kv => "'" ++ fst kv ++ "': " ++ repr (snd kv)) d) ++ "}"
  end.

Definition str (v : value) : string :=
  match v with
  | VStr s => s
  | _ => repr v
  end.

(** [s.split(',')] *)
Fixpoint split_on (sep : ascii) (s : string) : list string :=
  match s with
  | EmptyString => [EmptyString]
  | String c s' =>
      if Ascii.eqb c sep then EmptyString :: split_on sep s'
      else match split_on sep s' with
           | [] => [String c EmptyString]
           | w :: ws => String c w :: ws
           end
  end.

Definition split (s : string) : list string := split_on "," s.

(** [sorted(xs)] on strings: insertion sort by byte order, stable. *)
Fixpoint insert_sorted (x : string) (xs : list string) : list string :=
  match xs with
  | [] => [x]
  | y :: ys => if String.leb x y then x :: y :: ys else y :: insert_sorted x ys
  end.

Definition sorted (xs : list string) : list string :=
  fold_right insert_sorted [] xs.

(** [s.startswith(p)] *)
Definition startswith (p s : string) : bool := String.prefix p s.

End Py.

Import Py.

(** ** The name patterns

    [TABLENAME_REGEX = ^([a-z\d.-]){1,50}$] and
    [PK_FIELDNAME_REGEX = ^([\w\d.-]){1,50}$], matched with [re.match] on
    byte strings and no flag. *)

Module Re.

Definition is_digit (c : ascii) : bool :=
  let n := nat_of_ascii c in Nat.leb 48 n && Nat.leb n 57.
Definition is_lower (c : ascii) : bool :=
  let n := nat_of_ascii c in Nat.leb 97 n && Nat.leb n 122.
Definition is_upper (c : ascii) : bool :=
  let n := nat_of_ascii c in Nat.leb 65 n && Nat.leb n 90.

(** [\w] *)
Definition is_word (c : ascii) : bool :=
  is_lower c || is_upper c || is_digit c || Ascii.eqb c "_".

(** [[a-z\d.-]] *)
Definition tablename_class (c : ascii) : bool :=
  is_lower c || is_digit c || Ascii.eqb c "." || Ascii.eqb c "-".

(** [[\w\d.-]] *)
Definition pk_fieldname_class (c : ascii) : bool :=
  is_word c || is_digit c || Ascii.eqb c "." || Ascii.eqb c "-".

Definition newline : ascii := ascii_of_nat 10.

(** [$] without [re.MULTILINE]: the end of the string, or the position just
    before a newline that ends the string. *)
Definition at_dollar (s : string) : bool :=
  match s with
  | EmptyString => true
  | String c EmptyString => Ascii.eqb c newline
  | _ => false
  end.

(** [(cls){lo,hi}$] from the current position: the repetition is greedy and
    backtracks to a shorter count when what follows is not at [$]. *)
Fixpoint rep_dollar (cls : ascii -> bool) (lo hi : nat) (s : string) : bool :=
  match hi, s with
  | S hi', String c s' =>
      (cls c && rep_dollar cls (Nat.pred lo) hi' s')
      || (Nat.eqb lo 0 && at_dollar s)
  | _, _ => Nat.eqb lo 0 && at_dollar s
  end.

Definition TABLENAME_REGEX (s : string) : bool :=
  rep_dollar tablename_class 1 50 s.

Definition PK_FIELDNAME_REGEX (s : string) : bool :=
  rep_dollar pk_fieldname_class 1 50 s.

(** What the patterns are meant to accept: between [lo] and [hi] characters,
    all of the class. *)
Definition all_in (cls : ascii -> bool) (s : string) : bool :=
  forallb cls (list_ascii_of_string s).

Definition fullmatch (cls : ascii -> bool) (lo hi : nat) (s : string) : bool :=
  Nat.leb lo (String.length s) && Nat.leb (String.length s) hi && all_in cls s.

End Re.

(** ** [json.dumps(obj, indent=4)] and [json.loads] *)

Module Json.

Definition dquote : ascii := ascii_of_nat 34.
Definition backslash : ascii := ascii_of_nat 92.

Definition hex_digit (n : nat) : ascii :=
  if Nat.ltb n 10 then ascii_of_nat (48 + n) else ascii_of_nat (87 + n).

(** One character of a string, as [encode_basestring_ascii] writes it.
    Strings are read as text whose code points are the character codes, so
    that a character outside the printable ASCII range is written [\u00XX]. *)
Definition encode_char (c : ascii) : string :=
  let n := nat_of_ascii c in
  if Ascii.eqb c dquote then String backslash (String dquote "")
  else if Ascii.eqb c backslash then String backslash (String backslash "")
  else if Nat.eqb n 10 then String backslash "n"
  else if Nat.eqb n 13 then String backslash "r"
  else if Nat.eqb n 9 then String backslash "t"
  else if Nat.eqb n 8 then String backslash "b"
  else if Nat.eqb n 12 then String backslash "f"
  else if Nat.leb 32 n && Nat.leb n 126 then String c ""
  else String backslash
         ("u00" ++ String (hex_digit (n / 16)) (String (hex_digit (n mod 16)) "")).

Fixpoint encode_chars (s : string) : string :=
  match s with
  | EmptyString => ""
  | String c s' => encode_char c ++ encode_chars s'
  end.

Definition encode_string (s : string) : string :=
  String dquote (encode_chars s ++ String dquote "").

Fixpoint spaces (n : nat) : string :=
  match n with
  | O => ""
  | S n' => String " " (spaces n')
  end.

(** A line break followed by the indentation of nesting depth [level]. *)
Definition newline_indent (level : nat) : string :=
  String Re.newline (spaces (4 * level)).

(** The pure-Python encoder of Python 2.7, which [indent] selects. The item
    separator stays [", "], so that a line that ends in a comma ends in a
    comma and a blank. *)
Fixpoint encode (level : nat) (v : value) : string :=
  match v with
  | VNone => "null"
  | VBool true => "true"
  | VBool false => "false"
  | VInt z => Py.str_of_Z z
  | VStr s => encode_string s
  | VList [] => "[]"
  | VList l =>
      "[" ++ newline_indent (S level)
          ++ String.concat (", " ++ newline_indent (S level))
                           (map (encode (S level)) l)
          ++ newline_indent level ++ "]"
  | VDict [] => "{}"
  | VDict d =>
      "{" ++ newline_indent (S level)
          ++ String.concat (", " ++ newline_indent (S level))
               (map (fun kv => encode_string (fst kv) ++ ": "
                                 ++ encode (S level) (snd kv)) d)
          ++ newline_indent level ++ "}"
  end.

Definition dumps (v : value) : string := encode 0 v.

(** *** Decoding *)

Definition is_ws (c : ascii) : bool :=
  let n := nat_of_ascii c in
  Nat.eqb n 32 || Nat.eqb n 9 || Nat.eqb n 10 || Nat.eqb n 13.

Fixpoint skip_ws (s : string) : string :=
  match s with
  | String c s' => if is_ws c then skip_ws s' else s
  | EmptyString => s
  end.

Definition hex_value (c : ascii) : option nat :=
  let n := nat_of_ascii c in
  if Nat.leb 48 n && Nat.leb n 57 then Some (n - 48)
  else if Nat.leb 97 n && Nat.leb n 102 then Some (n - 87)
  else if Nat.leb 65 n && Nat.leb n 70 then Some (n - 55)
  else None.

(** The character a one-letter escape stands for. *)
Definition unescape (e : ascii) : option ascii :=
  let n := nat_of_ascii e in
  if Ascii.eqb e dquote then Some dquote
  else if Ascii.eqb e backslash then Some backslash
  else if Ascii.eqb e "/" then Some "/"%char
  else if Ascii.eqb e "b" then Some (ascii_of_nat 8)
  else if Ascii.eqb e "f" then Some (ascii_of_nat 12)
  else if Ascii.eqb e "n" then Some (ascii_of_nat 10)
  else if Ascii.eqb e "r" then Some (ascii_of_nat 13)
  else if Ascii.eqb e "t" then Some (ascii_of_nat 9)
  else None.

Definition cons_char (c : ascii) (r : option (string * string))
    : option (string * string) :=
  match r with
  | Some (str, rest) => Some (String c str, rest)
  | None => None
  end.

(** The text after an opening quote, up to the closing one. A [\u] escape above
    [ÿ] has no character in this model and is refused, as is a raw
    control character (the decoder is strict). *)
Fixpoint parse_string (s : string) : option (string * string) :=
  match s with
  | EmptyString => None
  | String c s1 =>
      if Ascii.eqb c dquote then Some ("", s1)
      else if Ascii.eqb c backslash then
        match s1 with
        | String e s2 =>
            if Ascii.eqb e "u" then
              match s2 with
              | String h1 (String h2 (String h3 (String h4 s3))) =>
                  match hex_value h1, hex_value h2, hex_value h3, hex_value h4 with
                  | Some 0, Some 0, Some x, Some y =>
                      cons_char (ascii_of_nat (16 * x + y)) (parse_string s3)
                  | _, _, _, _ => None
                  end
              | _ => None
              end
            else match unescape e with
                 | Some ch => cons_char ch (parse_string s2)
                 | None => None
                 end
        | EmptyString => None
        end
      else if Nat.ltb (nat_of_ascii c) 32 then None
      else cons_char c (parse_string s1)
  end.

Fixpoint take_digits (s : string) : string * string :=
  match s with
  | String c s' =>
      if Re.is_digit c
      then let (ds, rest) := take_digits s' in (String c ds, rest)
      else ("", s)
  | EmptyString => ("", s)
  end.

Definition Z_of_digits (ds : string) : Z :=
  fold_left (fun acc c => (10 * acc + Z.of_nat (nat_of_ascii c - 48))%Z)
            (list_ascii_of_string ds) 0%Z.

(** An integer literal: an optional minus sign, then [0] alone or digits that
    do not start with [0]. A fraction or an exponent would make it a float,
    a value the model does not have. *)
Definition parse_number (s : string) : option (Z * string) :=
  let (neg, s1) := match s with
                   | String "-" s' => (true, s')
                   | _ => (false, s)
                   end in
  let (ds, rest) :=
    match s1 with
    | String "0" s' => ("0", s')
    | _ => take_digits s1
    end in
  match ds with
  | EmptyString => None
  | _ =>
      match rest with
      | String "." _ | String "e" _ | String "E" _ => None
      | _ => Some (if neg then Z.opp (Z_of_digits ds) else Z_of_digits ds, rest)
      end
  end.

(** Recursive descent; [fuel] bounds the number of nested calls and is never
    exhausted when it exceeds twice the length of the text. *)
Fixpoint parse_value (fuel : nat) (s : string) : option (value * string) :=
  match fuel with
  | O => None
  | S fuel =>
      match skip_ws s with
      | String "n" (String "u" (String "l" (String "l" rest))) => Some (VNone, rest)
      | String "t" (String "r" (String "u" (String "e" rest))) => Some (VBool true, rest)
      | String "f" (String "a" (String "l" (String "s" (String "e" rest)))) =>
          Some (VBool false, rest)
      | String "[" rest =>
          match skip_ws rest with
          | String "]" rest' => Some (VList [], rest')
          | _ => parse_elements fuel rest []
          end
      | String "{" rest =>
          match skip_ws rest with
          | String "}" rest' => Some (VDict [], rest')
          | _ => parse_members fuel rest []
          end
      | String c rest =>
          if Ascii.eqb c dquote then
            match parse_string rest with
            | Some (str, rest') => Some (VStr str, rest')
            | None => None
            end
          else match parse_number (String c rest) with
               | Some (z, rest') => Some (VInt z, rest')
               | None => None
               end
      | EmptyString => None
      end
  end
with parse_elements (fuel : nat) (s : string) (acc : list value)
    : option (value * string) :=
  match fuel with
  | O => None
  | S fuel =>
      match parse_value fuel s with
      | Some (v, rest) =>
          match skip_ws rest with
          | String "," rest' => parse_elements fuel rest' (v :: acc)
          | String "]" rest' => Some (VList (rev (v :: acc)), rest')
          | _ => None
          end
      | None => None
      end
  end
with parse_members (fuel : nat) (s : string) (acc : list (string * value))
    : option (value * string) :=
  match fuel with
  | O => None
  | S fuel =>
      match skip_ws s with
      | String c rest =>
          if Ascii.eqb c dquote then
            match parse_string rest with
            | Some (k, rest1) =>
                match skip_ws rest1 with
                | String ":" rest2 =>
                    match parse_value fuel rest2 with
                    | Some (v, rest3) =>
                        match skip_ws rest3 with
                        | String "," rest4 => parse_members fuel rest4 (Py.set k v acc)
                        | String "}" rest4 => Some (VDict (Py.set k v acc), rest4)
                        | _ => None
                        end
                    | None => None
                    end
                | _ => None
                end
            | None => None
            end
          else None
      | EmptyString => None
      end
  end.

(** [json.loads]; [None] stands for the [ValueError] of a text that does not
    parse. *)
Definition loads (s : string) : option value :=
  match parse_value (2 * String.length s + 2) s with
  | Some (v, rest) =>
      match skip_ws rest with
      | EmptyString => Some v
      | _ => None
      end
  | None => None
  end.

End Json.

(** ** [hashlib.sha256] *)

Module Sha256.

Local Open Scope N_scope.

Definition w32 (x : N) : N := N.land x 0xffffffff.
Definition add32 (x y : N) : N := w32 (x + y).
Definition rotr (n x : N) : N := N.lor (N.shiftr x n) (w32 (N.shiftl x (32 - n))).

Definition Ch (x y z : N) : N :=
  N.lxor (N.land x y) (N.land (N.lxor x 0xffffffff) z).
Definition Maj (x y z : N) : N :=
  N.lxor (N.lxor (N.land x y) (N.land x z)) (N.land y z).
Definition Sigma0 (x : N) : N := N.lxor (N.lxor (rotr 2 x) (rotr 13 x)) (rotr 22 x).
Definition Sigma1 (x : N) : N := N.lxor (N.lxor (rotr 6 x) (rotr 11 x)) (rotr 25 x).
Definition sigma0 (x : N) : N := N.lxor (N.lxor (rotr 7 x) (rotr 18 x)) (N.shiftr x 3).
Definition sigma1 (x : N) : N := N.lxor (N.lxor (rotr 17 x) (rotr 19 x)) (N.shiftr x 10).

(** A word written as eight hexadecimal digits. *)
Definition word_of_hex (s : string) : N :=
  fold_left (fun acc c => match Json.hex_value c with
                          | Some d => 16 * acc + N.of_nat d
                          | None => acc
                          end) (list_ascii_of_string s) 0.

Definition words_of_hex (s : string) : list N :=
  map word_of_hex (Py.split_on " " s).

(** The round constants: the first 32 bits of the fractional parts of the
    cube roots of the first 64 primes. *)
Definition K : list N :=
  words_of_hex
    ("428a2f98 71374491 b5c0fbcf e9b5dba5 3956c25b 59f111f1 923f82a4 ab1c5ed5 "
     ++ "d807aa98 12835b01 243185be 550c7dc3 72be5d74 80deb1fe 9bdc06a7 c19bf174 "
     ++ "e49b69c1 efbe4786 0fc19dc6 240ca1cc 2de92c6f 4a7484aa 5cb0a9dc 76f988da "
     ++ "983e5152 a831c66d b00327c8 bf597fc7 c6e00bf3 d5a79147 06ca6351 14292967 "
     ++ "27b70a85 2e1b2138 4d2c6dfc 53380d13 650a7354 766a0abb 81c2c92e 92722c85 "
     ++ "a2bfe8a1 a81a664b c24b8b70 c76c51a3 d192e819 d6990624 f40e3585 106aa070 "
     ++ "19a4c116 1e376c08 2748774c 34b0bcb5 391c0cb3 4ed8aa4a 5b9cca4f 682e6ff3 "
     ++ "748f82ee 78a5636f 84c87814 8cc70208 90befffa a4506ceb bef9a3f7 c67178f2").

(** The initial hash value: the same for the square roots of the first 8
    primes. *)
Definition H0 : list N :=
  words_of_hex "6a09e667 bb67ae85 3c6ef372 a54ff53a 510e527f 9b05688c 1f83d9ab 5be0cd19".

Definition bytes_of (s : string) : list N :=
  map N_of_ascii (list_ascii_of_string s).

(** The message followed by [0x80], zero bytes and its length in bits on
    eight bytes, a multiple of 64 bytes in all. *)
Definition pad (msg : list N) : list N :=
  let len := List.length msg in
  let zeros := ((64 - (len + 9) mod 64) mod 64)%nat in
  let bits := 8 * N.of_nat len in
  (msg ++ 0x80 :: repeat 0 zeros
       ++ map (fun i => N.land (N.shiftr bits (8 * i)) 0xff) [7; 6; 5; 4; 3; 2; 1; 0])%list.

Fixpoint words (bs : list N) : list N :=
  match bs with
  | (a :: b :: c :: d :: bs')%list =>
      (N.shiftl a 24 + N.shiftl b 16 + N.shiftl c 8 + d) :: words bs'
  | _ => []
  end.

Fixpoint blocks (n : nat) (ws : list N) : list (list N) :=
  match n with
  | O => []
  | S n' => firstn 16 ws :: blocks n' (skipn 16 ws)
  end.

(** The message schedule, most recent word first. *)
Fixpoint schedule (n : nat) (rev_w : list N) : list N :=
  match n with
  | O => rev_w
  | S n' =>
      let w := add32 (add32 (sigma1 (nth 1%nat rev_w 0)) (nth 6%nat rev_w 0))
                     (add32 (sigma0 (nth 14%nat rev_w 0)) (nth 15%nat rev_w 0)) in
      schedule n' (w :: rev_w)
  end.

Definition round (st : list N) (kw : N * N) : list N :=
  match st with
  | [a; b; c; d; e; f; g; h] =>
      let t1 := add32 (add32 (add32 h (Sigma1 e)) (add32 (Ch e f g) (fst kw))) (snd kw) in
      let t2 := add32 (Sigma0 a) (Maj a b c) in
      [add32 t1 t2; a; b; c; add32 d t1; e; f; g]
  | _ => st
  end.

Definition compress (h : list N) (block : list N) : list N :=
  let w := rev (schedule 48 (rev block)) in
  let st := fold_left round (combine K w) h in
  map (fun p => add32 (fst p) (snd p)) (combine h st).

Definition digest (s : string) : list N :=
  let ws := words (pad (bytes_of s)) in
  fold_left compress (blocks (List.length ws / 16)%nat ws) H0.

Definition hex_of_word (w : N) : string :=
  string_of_list_ascii
    (map (fun i => Json.hex_digit (N.to_nat (N.land (N.shiftr w (4 * i)) 0xf)))
         [7; 6; 5; 4; 3; 2; 1; 0]).

(** [hashlib.sha256(s).hexdigest()] *)
Definition hexdigest (s : string) : string :=
  String.concat "" (map hex_of_word (digest s)).

End Sha256.

(** ** Exceptions *)

(** The exception classes the module defines ([RelibError] and below) and the
    built-in ones its code can raise. [ConstraintError] is a subclass of
    [TableError], itself a subclass of [RelibError]. *)
Inductive exn : Type :=
| RuntimeError
| RelibError
| TableError
| ConstraintError
| BackendError
| SchemaError
| KeyError
| AttributeError
| TypeError
| ValueError.

Inductive res (A : Type) : Type :=
| Ok (a : A)
| Raise (e : exn).
Arguments Ok {A} a.
Arguments Raise {A} e.

Definition bind {A B} (m : res A) (k : A -> res B) : res B :=
  match m with
  | Ok a => k a
  | Raise e => Raise e
  end.

Declare Scope res_scope.
Delimit Scope res_scope with res.
Notation "x <- m ;; k" := (bind m (fun x => k))
  (at level 61, m at next level, right associativity) : res_scope.
Notation "'check' b 'else' e ;; k" := (if b then k else Raise e)
  (at level 61, b at next level, e at next level, right associativity) : res_scope.
Open Scope res_scope.

Definition is_Ok {A} (r : res A) : bool :=
  match r with Ok _ => true | Raise _ => false end.

(** [isinstance(e, TableError)] *)
Definition is_TableError (e : exn) : bool :=
  match e with TableError | ConstraintError => true | _ => false end.

(** ** Tables *)

Inductive table_class : Type := ClsTable | ClsSingleRowTable.

(** The entries of [Table._constraints]: dicts tagged by their ['type']. *)
Inductive constraint : Type :=
| primary_key (fields : list string)
| unique (fields : list string)
| foreign_key (foreign_key_fields : list string) (table : string)
              (alias_key_fields : list string).

Definition list_string_eqb (a b : list string) : bool :=
  if list_eq_dec string_dec a b then true else false.

Definition constraint_eqb (a b : constraint) : bool :=
  match a, b with
  | primary_key f, primary_key g => list_string_eqb f g
  | unique f, unique g => list_string_eqb f g
  | foreign_key f t a, foreign_key g u b =>
      list_string_eqb f g && String.eqb t u && list_string_eqb a b
  | _, _ => false
  end.

(** The attributes [Table.__init__] sets. [_table_store] records whether the
    back-reference to the owning store is set ([TableStore.clear] resets it);
    the store itself is passed to the methods that follow the reference. *)
Record Table : Type := mkTable {
  cls : table_class;
  _table_name : string;
  _rows : dict row;
  _schema : value;
  _default_values : row;
  _pk_fields : list string;
  _constraints : list constraint;
  _table_store : bool;
  _group_by_fields : option (list string);
  _subfolder : option string;
  _is_system_table : bool
}.

Definition set_rows (t : Table) (r : dict row) : Table :=
  mkTable (cls t) (_table_name t) r (_schema t) (_default_values t)
          (_pk_fields t) (_constraints t) (_table_store t)
          (_group_by_fields t) (_subfolder t) (_is_system_table t).

Definition set_schema (t : Table) (s : value) : Table :=
  mkTable (cls t) (_table_name t) (_rows t) s (_default_values t)
          (_pk_fields t) (_constraints t) (_table_store t)
          (_group_by_fields t) (_subfolder t) (_is_system_table t).

Definition set_default_values (t : Table) (d : row) : Table :=
  mkTable (cls t) (_table_name t) (_rows t) (_schema t) d
          (_pk_fields t) (_constraints t) (_table_store t)
          (_group_by_fields t) (_subfolder t) (_is_system_table t).

Definition set_pk_fields (t : Table) (f : list string) : Table :=
  mkTable (cls t) (_table_name t) (_rows t) (_schema t) (_default_values t)
          f (_constraints t) (_table_store t)
          (_group_by_fields t) (_subfolder t) (_is_system_table t).

Definition set_constraints (t : Table) (c : list constraint) : Table :=
  mkTable (cls t) (_table_name t) (_rows t) (_schema t) (_default_values t)
          (_pk_fields t) c (_table_store t)
          (_group_by_fields t) (_subfolder t) (_is_system_table t).

Definition set_table_store (t : Table) (b : bool) : Table :=
  mkTable (cls t) (_table_name t) (_rows t) (_schema t) (_default_values t)
          (_pk_fields t) (_constraints t) b
          (_group_by_fields t) (_subfolder t) (_is_system_table t).

Definition set_group_by_fields (t : Table) (g : option (list string)) : Table :=
  mkTable (cls t) (_table_name t) (_rows t) (_schema t) (_default_values t)
          (_pk_fields t) (_constraints t) (_table_store t)
          g (_subfolder t) (_is_system_table t).

Definition set_subfolder (t : Table) (s : option string) : Table :=
  mkTable (cls t) (_table_name t) (_rows t) (_schema t) (_default_values t)
          (_pk_fields t) (_constraints t) (_table_store t)
          (_group_by_fields t) s (_is_system_table t).

Definition set_is_system_table (t : Table) (b : bool) : Table :=
  mkTable (cls t) (_table_name t) (_rows t) (_schema t) (_default_values t)
          (_pk_fields t) (_constraints t) (_table_store t)
          (_group_by_fields t) (_subfolder t) b.

(** [TableStore]: [_tables] is an [OrderedDict], its order is the order in
    which tables are saved and loaded. *)
Record TableStore : Type := mkTableStore {
  _tables : dict Table;
  _tableorder : list string;
  _origin : string
}.

Definition set_tables (ts : TableStore) (tabs : dict Table) : TableStore :=
  mkTableStore tabs (_tableorder ts) (_origin ts).

Definition TS_DEF_FILENAME : string := "#tsdef.json".
Definition TS_META_TABLENAME : string := "#tsmeta".

(** [TableStore.get_table] *)
Definition get_table (ts : TableStore) (table_name : string) : res Table :=
  match Py.get table_name (_tables ts) with
  | Some t => Ok t
  | None => Raise KeyError
  end.

(** [Table.__init__]; [cls] is the class being instantiated. *)
Definition Table__init__ (c : table_class) (table_name : string)
    (table_store : bool) : res Table :=
  if negb (startswith "#" table_name) && negb (Re.TABLENAME_REGEX table_name)
  then Raise TableError
  else Ok (mkTable c table_name [] (VDict []) [] [] [] table_store None None false).

(** [[str(primary_key[k]) for k in fields if k in primary_key]] *)
Definition key_parts (fields : list string) (primary_key : row) : list string :=
  flat_map (fun k => match Py.get k primary_key with
                     | Some v => [Py.str v]
                     | None => []
                     end) fields.

(** [Table._canonicalize_key] *)
Definition Table__canonicalize_key (t : Table) (primary_key : row)
    (use_group_by : bool) : res string :=
  fields <- (if use_group_by
             then match _group_by_fields t with
                  | Some f => Ok f
                  | None => Raise TypeError
                  end
             else Ok (_pk_fields t)) ;;
  check issubset fields primary_key else TableError ;;
  let canonicalized := String.concat "." (key_parts fields primary_key) in
  check Re.PK_FIELDNAME_REGEX canonicalized else ConstraintError ;;
  Ok canonicalized.

(** [SingleRowTable._canonicalize_key] *)
Definition SingleRowTable__canonicalize_key (t : Table) (primary_key : row)
    (use_group_by : bool) : res string :=
  Ok "".

(** [self._canonicalize_key(...)], dispatched on the class of [self]. *)
Definition _canonicalize_key (t : Table) (primary_key : row)
    (use_group_by : bool) : res string :=
  match cls t with
  | ClsTable => Table__canonicalize_key t primary_key use_group_by
  | ClsSingleRowTable => SingleRowTable__canonicalize_key t primary_key use_group_by
  end.

(** The inner loop of [Table.find]: does [row] carry every pair of the
    criteria? *)
Definition row_matches (search_criteria : row) (r : row) : bool :=
  forallb (fun kv => match Py.get (fst kv) r with
                     | Some w => Py.eqb w (snd kv)
                     | None => false
                     end) search_criteria.

(** [Table.find]; [None] asks for all the rows. *)
Definition find (t : Table) (search_criteria : option row) : list row :=
  match search_criteria with
  | None => values (_rows t)
  | Some sc => filter (row_matches sc) (values (_rows t))
  end.

(** [Table.get] *)
Definition Table_get (t : Table) (primary_key : option row) : res (option row) :=
  match primary_key with
  | None => Raise AttributeError
  | Some pk =>
      k <- _canonicalize_key t pk false ;;
      Ok (Py.get k (_rows t))
  end.

(** [SingleRowTable.get] *)
Definition SingleRowTable_get (t : Table) : option row :=
  match values (_rows t) with
  | r :: _ => Some r
  | [] => None
  end.

(** [self.get(primary_key)] with one argument, as [get_foreign_row] calls it:
    [SingleRowTable.get] takes none. *)
Definition get1 (t : Table) (primary_key : option row) : res (option row) :=
  match cls t with
  | ClsTable => Table_get t primary_key
  | ClsSingleRowTable => Raise TypeError
  end.

(** [{k: row[k] for k in fields}] *)
Fixpoint project (fields : list string) (r : row) (acc : row) : res row :=
  match fields with
  | [] => Ok acc
  | k :: fields' =>
      match Py.get k r with
      | Some v => project fields' r (Py.set k v acc)
      | None => Raise KeyError
      end
  end.

(** [{k2: row[k1] for k1, k2 in zip(fk_fields, alias_fields)}]; [row] may be
    [None] when [get] found nothing. *)
Fixpoint translate (pairs : list (string * string)) (r : option row)
    (acc : row) : res row :=
  match pairs with
  | [] => Ok acc
  | (k1, k2) :: pairs' =>
      match r with
      | None => Raise TypeError
      | Some r' =>
          match Py.get k1 r' with
          | Some v => translate pairs' r (Py.set k2 v acc)
          | None => Raise KeyError
          end
      end
  end.

(** The [for ... else] of [get_foreign_row]: the first foreign-key constraint to
    [table_name], with the given fields when fields are given. *)
Fixpoint find_relation (cs : list constraint) (table_name : string)
    (foreign_key_fields : option (list string)) : option (list string * list string) :=
  match cs with
  | [] => None
  | foreign_key f tn a :: cs' =>
      if String.eqb tn table_name
         && match foreign_key_fields with
            | None => true
            | Some g => list_string_eqb g f
            end
      then Some (f, a)
      else find_relation cs' table_name foreign_key_fields
  | _ :: cs' => find_relation cs' table_name foreign_key_fields
  end.

(** [_row or self.get(primary_key)]: the row handed in when it is not empty,
    the row of the key otherwise. *)
Definition row_or_get (t : Table) (primary_key : option row) (_row : option row)
    : res (option row) :=
  match _row with
  | Some (kv :: r') => Ok (Some (kv :: r'))
  | _ => get1 t primary_key
  end.

(** The constraints the loop of [get_foreign_row] stops at: the foreign keys
    to [table_name], on the given fields when fields are given. *)
Definition is_relation (table_name : string)
    (foreign_key_fields : option (list string)) (c : constraint) : bool :=
  match c with
  | foreign_key f tn _ =>
      String.eqb tn table_name
      && match foreign_key_fields with
         | None => true
         | Some g => list_string_eqb g f
         end
  | _ => false
  end.

Definition relations_to (t : Table) (table_name : string)
    (foreign_key_fields : option (list string)) : list constraint :=
  filter (is_relation table_name foreign_key_fields) (_constraints t).

(** [Table.get_foreign_row]; [ts] is the store [self._table_store] points to. *)
Definition get_foreign_row (ts : TableStore) (t : Table)
    (primary_key : option row) (table_name : string)
    (foreign_key_fields : option (list string)) (_row : option row)
    : res (list row) :=
  r <- row_or_get t primary_key _row ;;
  match find_relation (_constraints t) table_name foreign_key_fields with
  | None => Raise TableError
  | Some (fkf, akf) =>
      check _table_store t else AttributeError ;;
      foreign_table <- get_table ts table_name ;;
      search_criteria <- translate (combine fkf akf) r [] ;;
      Ok (find foreign_table (Some search_criteria))
  end.

Section Relib.

(** [schemautil.check_schema(row, schema, title)] is imported, not defined
    in this module; it is taken as a parameter that tells whether the row
    conforms. A row that does not makes the call raise. *)
Variable check_schema : row -> value -> bool.

(** [datetime.utcnow().isoformat() + 'Z']: the text the [n]-th reading of the
    clock gives. Every method that resolves defaults or stamps a change
    threads the number of readings made so far. *)
Variable utcnow : nat -> string.

(** The store as a method of [t] sees it: [t] itself under its name. *)
Definition rebind (ts : TableStore) (t : Table) : TableStore :=
  if Py.mem (_table_name t) (_tables ts)
  then set_tables ts (Py.set (_table_name t) t (_tables ts))
  else ts.

(** The loop of [Table._check_row] over [self._constraints]. *)
Fixpoint check_constraints (ts : TableStore) (t : Table) (cs : list constraint)
    (r : row) : res unit :=
  match cs with
  | [] => Ok tt
  | c :: cs' =>
      _ <- match c with
           | primary_key f =>
               check issubset f r else ConstraintError ;; Ok tt
           | unique f =>
               check issubset f r else ConstraintError ;;
               search_criteria <- project f r [] ;;
               let found := find t (Some search_criteria) in
               check Nat.eqb (List.length found) 0 else ConstraintError ;;
               Ok tt
           | foreign_key f tn a =>
               if issubset f r then
                 foreign_row <- get_foreign_row ts t None tn (Some f) (Some r) ;;
                 check negb (Nat.ltb (List.length foreign_row) 1)
                   else ConstraintError ;;
                 Ok tt
               else Ok tt
           end ;;
      check_constraints ts t cs' r
  end.

(** [Table._check_row] *)
Definition _check_row (ts : TableStore) (t : Table) (r : row) : res string :=
  _ <- check_constraints ts t (_constraints t) r ;;
  check check_schema r (_schema t) else SchemaError ;;
  row_key <- _canonicalize_key t r false ;;
  check negb (Py.mem row_key (_rows t)) else ConstraintError ;;
  Ok row_key.

(** The loop of [Table._get_default_values] over [d.items()]. *)
Fixpoint resolve_defaults (items : list (string * value)) (d : row)
    (tick : nat) : row * nat :=
  match items with
  | [] => (d, tick)
  | (k, VStr v) :: items' =>
      if startswith "@@" v && String.eqb v "@@utcnow"
      then resolve_defaults items' (Py.set k (VStr (utcnow tick)) d) (S tick)
      else resolve_defaults items' d tick
  | _ :: items' => resolve_defaults items' d tick
  end.

(** [Table._get_default_values] *)
Definition _get_default_values (t : Table) (tick : nat) : row * nat :=
  resolve_defaults (_default_values t) (_default_values t) tick.

(** What a method that mutates [self] leaves behind: the table, the clock and
    the value returned or the exception raised. *)
Record outcome (A : Type) : Type := mkOutcome {
  self : Table;
  clock : nat;
  result : res A
}.
Arguments mkOutcome {A} self clock result.

(** [Table.add] *)
Definition Table_add (ts : TableStore) (t : Table) (r : row)
    (check_only : bool) (tick : nat) : outcome row :=
  let (target_row, tick') := _get_default_values t tick in
  let r := Py.update target_row r in
  match _check_row ts t r with
  | Raise e => mkOutcome t tick' (Raise e)
  | Ok row_key =>
      if check_only then mkOutcome t tick' (Ok r)
      else mkOutcome (set_rows t (Py.set row_key r (_rows t))) tick' (Ok r)
  end.

(** [SingleRowTable.add]. The [finally] clause calls [self._rows.add], which a
    dict does not have: under [check_only] the call ends in [AttributeError]
    whatever the [try] block did. *)
Definition SingleRowTable_add (ts : TableStore) (t : Table) (r : row)
    (check_only : bool) (tick : nat) : outcome row :=
  let tmp := SingleRowTable_get t in
  let t := set_rows t [] in
  let o := Table_add (rebind ts t) t r check_only tick in
  if check_only then mkOutcome (self o) (clock o) (Raise AttributeError)
  else o.

(** [self.add(row, check_only)] *)
Definition add (ts : TableStore) (t : Table) (r : row) (check_only : bool)
    (tick : nat) : outcome row :=
  match cls t with
  | ClsTable => Table_add ts t r check_only tick
  | ClsSingleRowTable => SingleRowTable_add ts t r check_only tick
  end.

(** [SingleRowTable.__init__] *)
Definition SingleRowTable__init__ (ts : TableStore) (table_name : string)
    (table_store : bool) (tick : nat) : res Table * nat :=
  match Table__init__ ClsSingleRowTable table_name table_store with
  | Raise e => (Raise e, tick)
  | Ok t =>
      let o := SingleRowTable_add ts t [] false tick in
      match result o with
      | Ok _ => (Ok (self o), clock o)
      | Raise e => (Raise e, clock o)
      end
  end.

(** [Table.remove] *)
Definition remove (t : Table) (primary_key : row) : Table * res unit :=
  match _canonicalize_key t primary_key false with
  | Raise e => (t, Raise e)
  | Ok k =>
      if Py.mem k (_rows t) then (set_rows t (Py.del k (_rows t)), Ok tt)
      else (t, Raise KeyError)
  end.

(** [Table.add_primary_key] *)
Definition add_primary_key (t : Table) (primary_key_fields : string) : Table :=
  let t := set_pk_fields t (Py.split primary_key_fields) in
  let c := primary_key (Py.sorted (_pk_fields t)) in
  if existsb (constraint_eqb c) (_constraints t) then t
  else set_constraints t (_constraints t ++ [c])%list.

(** The [for ... else] of [add_foreign_key]: is some primary-key or unique
    constraint of the target on exactly these fields? *)
Definition has_key_on (cs : list constraint) (fields : list string) : bool :=
  existsb (fun fc => match fc with
                     | primary_key f | unique f => list_string_eqb f fields
                     | foreign_key _ _ _ => false
                     end) cs.

(** [sorted((alias_key_fields or foreign_key_fields).split(','))]: the alias
    fields of a declaration, in normal form. *)
Definition alias_fields (foreign_key_fields : string)
    (alias_key_fields : option string) : list string :=
  Py.sorted (Py.split
    match alias_key_fields with
    | Some a => if String.eqb a "" then foreign_key_fields else a
    | None => foreign_key_fields
    end).

(** [Table.add_foreign_key] *)
Definition add_foreign_key (ts : TableStore) (t : Table)
    (foreign_key_fields : string) (table_name : string)
    (alias_key_fields : option string) : Table * res unit :=
  let c := foreign_key (Py.sorted (Py.split foreign_key_fields)) table_name
                       (alias_fields foreign_key_fields alias_key_fields) in
  if negb (_table_store t) then (t, Raise AttributeError)
  else match get_table ts table_name with
       | Raise e => (t, Raise e)
       | Ok foreign_table =>
           if has_key_on (_constraints foreign_table)
                         (alias_fields foreign_key_fields alias_key_fields)
           then (set_constraints t (_constraints t ++ [c])%list, Ok tt)
           else (t, Raise ConstraintError)
       end.

(** [Table.add_unique_constraint] *)
Definition add_unique_constraint (t : Table) (unique_key_fields : string) : Table :=
  set_constraints t
    (_constraints t ++ [unique (Py.sorted (Py.split unique_key_fields))])%list.

(** [Table.add_schema] *)
Definition add_schema (t : Table) (schema : value) : Table := set_schema t schema.

(** [Table.add_default_values] and its override in [SingleRowTable], which adds
    the default row again. *)
Definition add_default_values (ts : TableStore) (t : Table)
    (default_values : row) (tick : nat) : outcome unit :=
  let t := set_default_values t default_values in
  match cls t with
  | ClsTable => mkOutcome t tick (Ok tt)
  | ClsSingleRowTable =>
      let o := SingleRowTable_add ts t [] false tick in
      mkOutcome (self o) (clock o) (_ <- result o ;; Ok tt)
  end.

(** [Table.set_subfolder_name] *)
Definition set_subfolder_name (t : Table) (subfolder_name : string) : Table :=
  set_subfolder t (Some subfolder_name).

(** [Table.set_row_as_file] and its override in [SingleRowTable], which always
    raises. *)
Definition set_row_as_file (t : Table) (subfolder_name : option string)
    (group_by : option string) : Table * res unit :=
  match cls t with
  | ClsSingleRowTable => (t, Raise TableError)
  | ClsTable =>
      match group_by with
      | Some g =>
          if negb (String.eqb g "") then
            let t := set_group_by_fields t (Some (Py.split g)) in
            if negb (forallb (fun f => str_in f (_pk_fields t)) (Py.split g))
            then (t, Raise TableError)
            else (set_subfolder t subfolder_name, Ok tt)
          else (set_subfolder (set_group_by_fields t (Some (_pk_fields t)))
                              subfolder_name, Ok tt)
      | None =>
          (set_subfolder (set_group_by_fields t (Some (_pk_fields t)))
                         subfolder_name, Ok tt)
      end
  end.

(** Truth value of [self._group_by_fields], [self._subfolder] and of a row
    argument that may be [None]. *)
Definition truthy_fields (g : option (list string)) : bool :=
  match g with Some (_ :: _) => true | _ => false end.
Definition truthy_str (s : option string) : bool :=
  match s with Some s => negb (String.eqb s "") | None => false end.
Definition truthy_row (r : option row) : bool :=
  match r with Some (_ :: _) => true | _ => false end.

(** [Table.get_filename] *)
Definition get_filename (t : Table) (r : option row) (is_index_file : bool)
    : res string :=
  check negb (truthy_fields (_group_by_fields t)
              && (match r with None => true | Some _ => false end
                  && negb is_index_file)) else TableError ;;
  check negb (truthy_row r
              && match _group_by_fields t with None => true | Some _ => false end)
    else TableError ;;
  let file_name :=
    if is_index_file then "#." ++ _table_name t else _table_name t in
  let file_name :=
    match _subfolder t with
    | Some sub => if truthy_str (Some sub) then sub ++ "/" ++ file_name
                  else file_name
    | None => file_name
    end in
  file_name <-
    match r with
    | Some (kv :: r') =>
        k <- _canonicalize_key t (kv :: r') true ;;
        Ok (file_name ++ "." ++ k)
    | _ => Ok file_name
    end ;;
  Ok (file_name ++ ".json").

(** *** Serialization of the rows *)

(** The capability a [Backend] offers. The base class of the module leaves
    every method empty; its subclasses live in other modules. [load_data]
    may fail, [backend_str] is [str(backend)]. *)
Class Backend (B : Type) : Type := {
  start_batch : B -> B;
  commit_batch : B -> B;
  save_data : B -> string -> string -> B;
  load_data : B -> string -> res string;
  backend_str : B -> string
}.

Context {B : Type} {backend_of_B : Backend B}.

(** [orderly_row]: an [OrderedDict] with the primary-key fields first, in
    the order of their declaration, then the other fields. *)
Definition orderly_row (t : Table) (r : row) : res row :=
  d <- project (_pk_fields t) r [] ;;
  Ok (Py.update d r).

Fixpoint orderly_rows (t : Table) (rs : list row) : res (list row) :=
  match rs with
  | [] => Ok []
  | r :: rs' =>
      d <- orderly_row t r ;;
      ds <- orderly_rows t rs' ;;
      Ok (d :: ds)
  end.

(** [[self._rows[k] for k in sorted(self._rows)]] *)
Definition rows_sorted (t : Table) : list row :=
  flat_map (fun k => match Py.get k (_rows t) with
                     | Some r => [r]
                     | None => []
                     end) (Py.sorted (keys (_rows t))).

(** The state of a save in progress: the backend and everything handed to
    [checksum.update] so far. *)
Definition writer : Type := B * string.

(** [save_data_check] *)
Definition save_data_check (w : writer) (filename data : string) : writer :=
  (save_data (fst w) filename data, snd w ++ data).

(** The row-per-file loop. *)
Fixpoint save_rows (t : Table) (rs : list row) (w : writer) : writer * res unit :=
  match rs with
  | [] => (w, Ok tt)
  | r :: rs' =>
      match get_filename t (Some r) false with
      | Raise e => (w, Raise e)
      | Ok fn =>
          match orderly_row t r with
          | Raise e => (w, Raise e)
          | Ok d => save_rows t rs' (save_data_check w fn (Json.dumps (VDict d)))
          end
      end
  end.

(** [group.setdefault(key, []).append(orderly_row(row))] over the rows. *)
Fixpoint group_rows (t : Table) (rs : list row) (group : dict (list row))
    : res (dict (list row)) :=
  match rs with
  | [] => Ok group
  | r :: rs' =>
      key <- _canonicalize_key t r true ;;
      d <- orderly_row t r ;;
      let rowset := match Py.get key group with
                    | Some l => l
                    | None => []
                    end in
      group_rows t rs' (Py.set key (rowset ++ [d])%list group)
  end.

(** The loop over [group.values()]. *)
Fixpoint save_groups (t : Table) (rowsets : list (list row)) (w : writer)
    : writer * res unit :=
  match rowsets with
  | [] => (w, Ok tt)
  | rowset :: rowsets' =>
      match get_filename t (Some (hd [] rowset)) false with
      | Raise e => (w, Raise e)
      | Ok fn =>
          save_groups t rowsets'
            (save_data_check w fn (Json.dumps (VList (map VDict rowset))))
      end
  end.

(** [[{k: row[k] for k in self._pk_fields} for row in rows]] *)
Fixpoint index_of (t : Table) (rs : list row) : res (list row) :=
  match rs with
  | [] => Ok []
  | r :: rs' =>
      d <- project (_pk_fields t) r [] ;;
      ds <- index_of t rs' ;;
      Ok (d :: ds)
  end.

(** [Table._save_table_data] *)
Definition Table__save_table_data (t : Table) (b : B) : B * res string :=
  let rows := rows_sorted t in
  let w : writer := (b, "") in
  let finish (wr : writer * res unit) : B * res string :=
    match snd wr with
    | Raise e => (fst (fst wr), Raise e)
    | Ok _ =>
        match index_of t rows with
        | Raise e => (fst (fst wr), Raise e)
        | Ok index =>
            match get_filename t None true with
            | Raise e => (fst (fst wr), Raise e)
            | Ok fn =>
                let w' := save_data_check (fst wr) fn
                            (Json.dumps (VList (map VDict index))) in
                (fst w', Ok (Sha256.hexdigest (snd w')))
            end
        end
    end in
  if truthy_fields (_group_by_fields t) then
    let row_per_file :=
      match _group_by_fields t with
      | Some g => list_string_eqb g (_pk_fields t)
      | None => false
      end in
    if row_per_file then finish (save_rows t rows w)
    else match group_rows t rows [] with
         | Raise e => (b, Raise e)
         | Ok group => finish (save_groups t (values group) w)
         end
  else
    match orderly_rows t rows with
    | Raise e => (b, Raise e)
    | Ok rows =>
        match get_filename t None false with
        | Raise e => (b, Raise e)
        | Ok fn =>
            let w' := save_data_check w fn (Json.dumps (VList (map VDict rows))) in
            (fst w', Ok (Sha256.hexdigest (snd w')))
        end
    end.

(** [SingleRowTable._save_table_data] *)
Definition SingleRowTable__save_table_data (t : Table) (b : B) : B * res string :=
  let doc := match SingleRowTable_get t with
             | Some r => r
             | None => []
             end in
  let data := Json.dumps (VDict doc) in
  match get_filename t None false with
  | Raise e => (b, Raise e)
  | Ok fn => (save_data b fn data, Ok (Sha256.hexdigest data))
  end.

(** [self._save_table_data(save_data)] *)
Definition _save_table_data (t : Table) (b : B) : B * res string :=
  match cls t with
  | ClsTable => Table__save_table_data t b
  | ClsSingleRowTable => SingleRowTable__save_table_data t b
  end.

(** *** The store, the clock and the backend as one state *)

Record world : Type := mkWorld {
  store : TableStore;
  ticks : nat;
  backend : B
}.

Definition set_store (w : world) (ts : TableStore) : world :=
  mkWorld ts (ticks w) (backend w).
Definition set_ticks (w : world) (n : nat) : world :=
  mkWorld (store w) n (backend w).
Definition set_backend (w : world) (b : B) : world :=
  mkWorld (store w) (ticks w) b.

(** A method of the store: it may change the state and then return or raise.
    What was changed before an exception stays changed. *)
Definition M (A : Type) : Type := world -> world * res A.

Definition ret {A} (a : A) : M A := fun w => (w, Ok a).
Definition raise {A} (e : exn) : M A := fun w => (w, Raise e).
Definition lift {A} (r : res A) : M A := fun w => (w, r).
Definition mbind {A C} (m : M A) (k : A -> M C) : M C :=
  fun w => match m w with
           | (w', Ok a) => k a w'
           | (w', Raise e) => (w', Raise e)
           end.
Definition gets {A} (f : world -> A) : M A := fun w => (w, Ok (f w)).
Definition modify (f : world -> world) : M unit := fun w => (f w, Ok tt).

Declare Scope M_scope.
Delimit Scope M_scope with M.
Notation "x <- m ;; k" := (mbind m (fun x => k))
  (at level 61, m at next level, right associativity) : M_scope.
Notation "m ;;; k" := (mbind m (fun _ => k))
  (at level 61, right associativity) : M_scope.

(** [for x in xs: f(x)] *)
Fixpoint for_each {A} (f : A -> M unit) (xs : list A) : M unit :=
  match xs with
  | [] => ret tt
  | x :: xs' => (f x ;;; for_each f xs')%M
  end.

(** One reading of the clock. *)
Definition tick : M string :=
  fun w => (set_ticks w (S (ticks w)), Ok (utcnow (ticks w))).

(** [self._tables[table_name] = table] *)
Definition put_table (table_name : string) (t : Table) : M unit :=
  modify (fun w => set_store w (set_tables (store w)
                                  (Py.set table_name t (_tables (store w))))).

(** A call [table.add(row, check_only)] on the table registered as [tn]. *)
Definition table_add (tn : string) (r : row) (check_only : bool) : M row :=
  fun w =>
    match get_table (store w) tn with
    | Raise e => (w, Raise e)
    | Ok t =>
        let o := add (store w) t r check_only (ticks w) in
        (mkWorld (set_tables (store w) (Py.set tn (self o) (_tables (store w))))
                 (clock o) (backend w),
         result o)
    end.

(** *** The metadata table *)

(** [self.meta.get()]: the one row of the table, or [None]. *)
Definition meta_get (ts : TableStore) : res (option row) :=
  t <- get_table ts TS_META_TABLENAME ;;
  match cls t with
  | ClsSingleRowTable => Ok (SingleRowTable_get t)
  | ClsTable => Raise TypeError
  end.

(** [self.meta[key]] *)
Definition meta_getitem (ts : TableStore) (key : string) : res value :=
  r <- meta_get ts ;;
  match r with
  | None => Raise TypeError
  | Some r =>
      match Py.get key r with
      | Some v => Ok v
      | None => Raise KeyError
      end
  end.

(** Writing to the row [self.meta.get()] returned: it is the first row of the
    table and is changed in place. *)
Definition set_first_row (t : Table) (r : row) : Table :=
  match _rows t with
  | (k, _) :: rest => set_rows t ((k, r) :: rest)
  | [] => t
  end.

Definition meta_put (ts : TableStore) (r : row) : TableStore :=
  match Py.get TS_META_TABLENAME (_tables ts) with
  | Some t => set_tables ts (Py.set TS_META_TABLENAME (set_first_row t r) (_tables ts))
  | None => ts
  end.

(** [meta[key] = v] on the metadata row. *)
Definition meta_setitem (key : string) (v : value) : M unit :=
  fun w =>
    match meta_get (store w) with
    | Raise e => (w, Raise e)
    | Ok None => (w, Raise TypeError)
    | Ok (Some r) => (set_store w (meta_put (store w) (Py.set key v r)), Ok tt)
    end.

(** The search loop of [get_table_metadata] over [self.meta['tables']]: the
    position of the first record of [table_name]. *)
Fixpoint find_table_meta (entries : list value) (table_name : string) (i : nat)
    : res (option nat) :=
  match entries with
  | [] => Ok None
  | VDict d :: rest =>
      match Py.get "table_name" d with
      | None => Raise KeyError
      | Some v =>
          if Py.eqb v (VStr table_name) then Ok (Some i)
          else find_table_meta rest table_name (S i)
      end
  | _ :: _ => Raise TypeError
  end.

(** The record [get_table_metadata] creates. *)
Definition zeroed_record (table_name : string) : value :=
  VDict [("table_name", VStr table_name); ("md5", VStr ""); ("last_modified", VStr "")].

(** [TableStore.get_table_metadata]. The record returned is part of the
    metadata row; it is named here by its position in [meta['tables']]. *)
Definition get_table_metadata (table_name : string) : M nat :=
  fun w =>
    match meta_getitem (store w) "tables" with
    | Raise e => (w, Raise e)
    | Ok (VList entries) =>
        match find_table_meta entries table_name 0 with
        | Raise e => (w, Raise e)
        | Ok (Some i) => (w, Ok i)
        | Ok None =>
            let table_meta := zeroed_record table_name in
            match meta_get (store w) with
            | Ok (Some r) =>
                (set_store w (meta_put (store w)
                                (Py.set "tables" (VList (entries ++ [table_meta])%list) r)),
                 Ok (List.length entries))
            | Ok None => (w, Raise TypeError)
            | Raise e => (w, Raise e)
            end
        end
    | Ok _ => (w, Raise TypeError)
    end.

(** [table_meta[key]] for the record at position [i]. *)
Definition table_meta_getitem (ts : TableStore) (i : nat) (key : string) : res value :=
  tables <- meta_getitem ts "tables" ;;
  match tables with
  | VList entries =>
      match nth_error entries i with
      | Some (VDict d) =>
          match Py.get key d with
          | Some v => Ok v
          | None => Raise KeyError
          end
      | _ => Raise TypeError
      end
  | _ => Raise TypeError
  end.

Fixpoint list_set {A} (i : nat) (x : A) (l : list A) : list A :=
  match l, i with
  | [], _ => []
  | _ :: l', O => x :: l'
  | y :: l', S i' => y :: list_set i' x l'
  end.

(** [table_meta[key] = v] for the record at position [i]. *)
Definition table_meta_setitem (i : nat) (key : string) (v : value) : M unit :=
  fun w =>
    match meta_get (store w) with
    | Ok (Some r) =>
        match Py.get "tables" r with
        | Some (VList entries) =>
            match nth_error entries i with
            | Some (VDict d) =>
                (set_store w
                   (meta_put (store w)
                      (Py.set "tables"
                         (VList (list_set i (VDict (Py.set key v d)) entries)) r)),
                 Ok tt)
            | _ => (w, Raise TypeError)
            end
        | _ => (w, Raise TypeError)
        end
    | Ok None => (w, Raise TypeError)
    | Raise e => (w, Raise e)
    end.

(** [Table.save]; [tn] is the name the table is registered under. *)
Definition Table_save (tn : string) : M unit :=
  (t <- (fun w => (w, get_table (store w) tn)) ;;
   cs <- (fun w => let (b, r) := _save_table_data t (backend w) in
                   (set_backend w b, r)) ;;
   _ <- (if _table_store t then ret tt else raise AttributeError) ;;
   _ <- (fun w => (w, meta_get (store w))) ;;
   table_meta <- get_table_metadata (_table_name t) ;;
   md5 <- (fun w => (w, table_meta_getitem (store w) table_meta "md5")) ;;
   if negb (Py.eqb md5 (VStr cs)) then
     table_meta_setitem table_meta "md5" (VStr cs) ;;;
     now <- tick ;;
     table_meta_setitem table_meta "last_modified" (VStr now) ;;;
     if negb (_is_system_table t) then
       now <- tick ;;
       meta_setitem "last_modified" (VStr now)
     else ret tt
   else ret tt)%M.

(** *** The definition of the store *)

Definition value_of_strings (l : list string) : value := VList (map VStr l).

Definition value_of_constraint (c : constraint) : value :=
  match c with
  | primary_key f =>
      VDict [("type", VStr "primary_key"); ("fields", value_of_strings f)]
  | unique f =>
      VDict [("type", VStr "unique"); ("fields", value_of_strings f)]
  | foreign_key f tn a =>
      VDict [("type", VStr "foreign_key");
             ("foreign_key_fields", value_of_strings f);
             ("table", VStr tn);
             ("alias_key_fields", value_of_strings a)]
  end.

Definition class_name (c : table_class) : string :=
  match c with
  | ClsTable => "Table"
  | ClsSingleRowTable => "SingleRowTable"
  end.

(** [TableStoreEncoder.default] on a table: its class and its attributes, with
    the rows and the back-reference taken out. *)
Definition value_of_table (t : Table) : value :=
  VDict [("class", VStr (class_name (cls t)));
         ("dict", VDict [
            ("_table_name", VStr (_table_name t));
            ("_rows", VDict []);
            ("_schema", _schema t);
            ("_default_values", VDict (_default_values t));
            ("_pk_fields", value_of_strings (_pk_fields t));
            ("_constraints", VList (map value_of_constraint (_constraints t)));
            ("_table_store", VNone);
            ("_group_by_fields",
               match _group_by_fields t with
               | Some g => value_of_strings g
               | None => VNone
               end);
            ("_subfolder",
               match _subfolder t with
               | Some sub => VStr sub
               | None => VNone
               end);
            ("_is_system_table", VBool (_is_system_table t))])].

(** [TableStoreEncoder.default] on the store: its [__dict__]. *)
Definition value_of_store (ts : TableStore) : value :=
  VDict [("_tables", VDict (map (fun nt => (fst nt, value_of_table (snd nt)))
                                (_tables ts)));
         ("_tableorder", value_of_strings (_tableorder ts));
         ("_origin", VStr (_origin ts))].

(** [TableStore.get_definition] *)
Definition get_definition : M string :=
  fun w =>
    let ts := mkTableStore (_tables (store w)) (keys (_tables (store w)))
                           (_origin (store w)) in
    (set_store w ts, Ok (Json.dumps (value_of_store ts))).

(** Reading the attributes back. An attribute whose value has a shape that no
    method of the module gives it has no counterpart in the records above;
    decoding stops there with [TypeError]. *)
Fixpoint strings_of_values (l : list value) : res (list string) :=
  match l with
  | [] => Ok []
  | VStr x :: l' => xs <- strings_of_values l' ;; Ok (x :: xs)
  | _ :: _ => Raise TypeError
  end.

Definition strings_of_value (v : value) : res (list string) :=
  match v with
  | VList l => strings_of_values l
  | _ => Raise TypeError
  end.

Definition field_strings (d : row) (key : string) : res (list string) :=
  match Py.get key d with
  | Some v => strings_of_value v
  | None => Raise TypeError
  end.

Definition constraint_of_value (v : value) : res constraint :=
  match v with
  | VDict d =>
      match Py.get "type" d with
      | Some (VStr ty) =>
          if String.eqb ty "primary_key" then
            f <- field_strings d "fields" ;; Ok (primary_key f)
          else if String.eqb ty "unique" then
            f <- field_strings d "fields" ;; Ok (unique f)
          else if String.eqb ty "foreign_key" then
            f <- field_strings d "foreign_key_fields" ;;
            a <- field_strings d "alias_key_fields" ;;
            match Py.get "table" d with
            | Some (VStr tn) => Ok (foreign_key f tn a)
            | _ => Raise TypeError
            end
          else Raise TypeError
      | _ => Raise TypeError
      end
  | _ => Raise TypeError
  end.

Fixpoint constraints_of_values (l : list value) : res (list constraint) :=
  match l with
  | [] => Ok []
  | v :: l' =>
      c <- constraint_of_value v ;;
      cs <- constraints_of_values l' ;;
      Ok (c :: cs)
  end.

Fixpoint rows_of_items (d : list (string * value)) : res (dict row) :=
  match d with
  | [] => Ok []
  | (k, VDict r) :: d' => rs <- rows_of_items d' ;; Ok ((k, r) :: rs)
  | _ :: _ => Raise TypeError
  end.

Definition set_table_name (t : Table) (n : string) : Table :=
  mkTable (cls t) n (_rows t) (_schema t) (_default_values t)
          (_pk_fields t) (_constraints t) (_table_store t)
          (_group_by_fields t) (_subfolder t) (_is_system_table t).

(** One attribute of [table.__dict__.update(table_data['dict'])]: set when
    the key is there. *)
Definition with_attr {A} (d : row) (key : string) (decode : value -> res A)
    (setter : Table -> A -> Table) (t : Table) : res Table :=
  match Py.get key d with
  | None => Ok t
  | Some v => a <- decode v ;; Ok (setter t a)
  end.

Definition update_table_dict (t : Table) (d : row) : res Table :=
  t <- with_attr d "_table_name"
         (fun v => match v with VStr n => Ok n | _ => Raise TypeError end)
         set_table_name t ;;
  t <- with_attr d "_rows"
         (fun v => match v with VDict r => rows_of_items r | _ => Raise TypeError end)
         set_rows t ;;
  t <- with_attr d "_schema" (fun v => Ok v) set_schema t ;;
  t <- with_attr d "_default_values"
         (fun v => match v with VDict r => Ok r | _ => Raise TypeError end)
         set_default_values t ;;
  t <- with_attr d "_pk_fields" strings_of_value set_pk_fields t ;;
  t <- with_attr d "_constraints"
         (fun v => match v with
                   | VList l => constraints_of_values l
                   | _ => Raise TypeError
                   end)
         set_constraints t ;;
  t <- with_attr d "_group_by_fields"
         (fun v => match v with
                   | VNone => Ok None
                   | _ => g <- strings_of_value v ;; Ok (Some g)
                   end)
         set_group_by_fields t ;;
  t <- with_attr d "_subfolder"
         (fun v => match v with
                   | VNone => Ok None
                   | VStr sub => Ok (Some sub)
                   | _ => Raise TypeError
                   end)
         set_subfolder t ;;
  with_attr d "_is_system_table"
    (fun v => match v with VBool b => Ok b | _ => Raise TypeError end)
    set_is_system_table t.

(** The body of the second loop of [init_from_definition] for one table. *)
Definition table_of_value (ts : TableStore) (table_name : string)
    (table_data : value) (n : nat) : res Table * nat :=
  match table_data with
  | VDict td =>
      match Py.get "class" td with
      | None => (Raise KeyError, n)
      | Some c =>
          let made :=
            if Py.eqb c (VStr "Table")
            then (Table__init__ ClsTable table_name true, n)
            else if Py.eqb c (VStr "SingleRowTable")
            then SingleRowTable__init__ ts table_name true n
            else (Raise RuntimeError, n) in
          match fst made with
          | Raise e => (Raise e, snd made)
          | Ok t =>
              match Py.get "dict" td with
              | None => (Raise KeyError, snd made)
              | Some (VDict d) =>
                  (t <- update_table_dict t d ;; Ok (set_table_store t true),
                   snd made)
              | Some _ => (Raise TypeError, snd made)
              end
          end
      end
  | _ => (Raise TypeError, n)
  end.

Fixpoint tables_of_values (ts : TableStore) (order : list string)
    (tables : row) (acc : dict Table) (n : nat) : res (dict Table) * nat :=
  match order with
  | [] => (Ok acc, n)
  | table_name :: order' =>
      match Py.get table_name tables with
      | None => (Raise KeyError, n)
      | Some table_data =>
          let made := table_of_value ts table_name table_data n in
          match fst made with
          | Raise e => (Raise e, snd made)
          | Ok t => tables_of_values ts order' tables
                      (Py.set table_name t acc) (snd made)
          end
      end
  end.

(** [TableStore.init_from_definition]. When decoding fails, the Python object
    is left with undecoded data among its tables; the model keeps the store
    it had. *)
Definition init_from_definition (definition : string) : M unit :=
  fun w =>
    match Json.loads definition with
    | Some (VDict data) =>
        let order := match Py.get "_tableorder" data with
                     | Some v => strings_of_value v
                     | None => Ok (_tableorder (store w))
                     end in
        let origin := match Py.get "_origin" data with
                      | Some (VStr o) => Ok o
                      | Some _ => Raise TypeError
                      | None => Ok (_origin (store w))
                      end in
        match order, origin, Py.get "_tables" data with
        | Ok order, Ok origin, Some (VDict tables) =>
            let made := tables_of_values (store w) order tables [] (ticks w) in
            match fst made with
            | Ok tabs => (mkWorld (mkTableStore tabs order origin) (snd made) (backend w),
                          Ok tt)
            | Raise e => (set_ticks w (snd made), Raise e)
            end
        | Raise e, _, _ => (w, Raise e)
        | _, Raise e, _ => (w, Raise e)
        | _, _, _ => (w, Raise TypeError)
        end
    | Some _ => (w, Raise TypeError)
    | None => (w, Raise ValueError)
    end.

(** *** Loading the rows *)

(** [backend.load_data(file_name)] *)
Definition fetch_from_storage (file_name : string) : M string :=
  fun w => (w, load_data (backend w) file_name).

(** [json.loads(data)] *)
Definition json_loads (data : string) : M value :=
  lift (match Json.loads data with
        | Some v => Ok v
        | None => Raise ValueError
        end).

(** What [for row in rows] goes through. Iterating a non-empty object or
    text yields strings, which [add] cannot take. *)
Definition iterate (v : value) : res (list value) :=
  match v with
  | VList l => Ok l
  | VDict [] => Ok []
  | VStr "" => Ok []
  | VDict _ => Raise ValueError
  | VStr _ => Raise ValueError
  | _ => Raise TypeError
  end.

(** [self.add(row)] on a decoded item; an item that is not an object makes
    [dict.update] raise. *)
Definition add_item (tn : string) (v : value) : M unit :=
  match v with
  | VDict r => (_ <- table_add tn r false ;; ret tt)%M
  | _ => raise TypeError
  end.

(** The body of the row-per-file loop over the index. *)
Definition load_row_file (tn : string) (primary_key : value) : M unit :=
  match primary_key with
  | VDict pk =>
      (t <- (fun w => (w, get_table (store w) tn)) ;;
       file_name <- lift (get_filename t (Some pk) false) ;;
       data <- fetch_from_storage file_name ;;
       r <- json_loads data ;;
       add_item tn r)%M
  | _ => raise AttributeError
  end.

(** [key_groups[key] = primary_key] over the index. *)
Fixpoint key_groups_of (t : Table) (index : list value) (key_groups : dict row)
    : res (dict row) :=
  match index with
  | [] => Ok key_groups
  | VDict pk :: index' =>
      key <- _canonicalize_key t pk true ;;
      key_groups_of t index' (Py.set key pk key_groups)
  | _ :: _ => Raise AttributeError
  end.

(** The body of the loop over [key_groups.values()]. *)
Definition load_group_file (tn : string) (group_key : row) : M unit :=
  (t <- (fun w => (w, get_table (store w) tn)) ;;
   file_name <- lift (get_filename t (Some group_key) false) ;;
   data <- fetch_from_storage file_name ;;
   rows <- json_loads data ;;
   rows <- lift (iterate rows) ;;
   for_each (add_item tn) rows)%M.

(** [Table._load_table_data] *)
Definition Table__load_table_data (tn : string) : M unit :=
  (t <- (fun w => (w, get_table (store w) tn)) ;;
   if negb (truthy_fields (_group_by_fields t)) then
     file_name <- lift (get_filename t None false) ;;
     data <- fetch_from_storage file_name ;;
     rows <- json_loads data ;;
     rows <- lift (iterate rows) ;;
     for_each (add_item tn) rows
   else
     let row_per_file :=
       match _group_by_fields t with
       | Some g => list_string_eqb g (_pk_fields t)
       | None => false
       end in
     index_file_name <- lift (get_filename t None true) ;;
     index <- fetch_from_storage index_file_name ;;
     index <- json_loads index ;;
     index <- lift (iterate index) ;;
     if row_per_file then for_each (load_row_file tn) index
     else
       key_groups <- lift (key_groups_of t index []) ;;
       for_each (load_group_file tn) (values key_groups))%M.

(** [SingleRowTable._load_table_data] *)
Definition SingleRowTable__load_table_data (tn : string) : M unit :=
  (t <- (fun w => (w, get_table (store w) tn)) ;;
   file_name <- lift (get_filename t None false) ;;
   data <- fetch_from_storage file_name ;;
   doc <- json_loads data ;;
   add_item tn doc)%M.

(** [Table.load] *)
Definition Table_load (tn : string) : M unit :=
  (t <- (fun w => (w, get_table (store w) tn)) ;;
   match cls t with
   | ClsTable => Table__load_table_data tn
   | ClsSingleRowTable => SingleRowTable__load_table_data tn
   end)%M.

(** *** The store *)

(** [TableStore.add_table] *)
Definition add_table (table_name : string) (single_row : bool) : M Table :=
  fun w =>
    let made :=
      if single_row
      then SingleRowTable__init__ (store w) table_name true (ticks w)
      else (Table__init__ ClsTable table_name true, ticks w) in
    match fst made with
    | Raise e => (set_ticks w (snd made), Raise e)
    | Ok t =>
        (mkWorld (set_tables (store w) (Py.set table_name t (_tables (store w))))
                 (snd made) (backend w),
         Ok t)
    end.

(** [TableStore.clear] *)
Definition clear : M unit :=
  modify (fun w =>
    set_store w (set_tables (store w)
      (map (fun nt => (fst nt, set_table_store (snd nt) false))
           (_tables (store w))))).

(** The schema and the defaults [_add_metatable] declares. *)
Definition meta_schema : value :=
  VDict [("type", VStr "object");
         ("properties", VDict [
            ("created_on", VDict [("format", VStr "date-time")]);
            ("last_modified", VDict [("format", VStr "date-time")]);
            ("origin", VDict [("type", VStr "string")]);
            ("version", VDict [("type", VStr "integer")]);
            ("tables", VDict [
               ("type", VStr "array");
               ("items", VDict [
                  ("type", VStr "object");
                  ("properties", VDict [
                     ("table_name", VDict [("type", VStr "string")]);
                     ("md5", VDict [("type", VStr "string")]);
                     ("last_modified", VDict [("format", VStr "date-time")])])])])])].

Definition meta_defaults : row :=
  [("created_on", VStr "@@utcnow");
   ("last_modified", VStr "@@utcnow");
   ("version", VInt 1);
   ("tables", VList [])].

(** [TableStore._add_metatable] *)
Definition _add_metatable : M unit :=
  (meta <- add_table TS_META_TABLENAME true ;;
   let meta := set_is_system_table meta true in
   let meta := add_schema meta meta_schema in
   put_table TS_META_TABLENAME meta ;;;
   fun w =>
     let o := add_default_values (store w) meta meta_defaults (ticks w) in
     (mkWorld (set_tables (store w)
                 (Py.set TS_META_TABLENAME (self o) (_tables (store w))))
              (clock o) (backend w),
      result o))%M.

(** [self.meta.get()['version'] += 1] *)
Definition bump_version : M unit :=
  fun w =>
    match meta_get (store w) with
    | Raise e => (w, Raise e)
    | Ok None => (w, Raise TypeError)
    | Ok (Some r) =>
        match Py.get "version" r with
        | None => (w, Raise KeyError)
        | Some (VInt z) =>
            (set_store w (meta_put (store w) (Py.set "version" (VInt (z + 1)) r)),
             Ok tt)
        | Some (VBool b) =>
            (set_store w (meta_put (store w)
                            (Py.set "version" (VInt ((if b then 1 else 0) + 1)) r)),
             Ok tt)
        | Some _ => (w, Raise TypeError)
        end
    end.

(** The names of the tables whose [_is_system_table] is [flag], in the order
    of [self._tables]. *)
Definition tables_where (ts : TableStore) (flag : bool) : list string :=
  keys (filter (fun nt => Bool.eqb (_is_system_table (snd nt)) flag) (_tables ts)).

(** [TableStore.save_to_backend] *)
Definition save_to_backend : M unit :=
  (modify (fun w => set_backend w (start_batch (backend w))) ;;;
   definition <- get_definition ;;
   modify (fun w => set_backend w (save_data (backend w) TS_DEF_FILENAME definition)) ;;;
   last_modified <- (fun w => (w, meta_getitem (store w) "last_modified")) ;;
   user_tables <- gets (fun w => tables_where (store w) false) ;;
   system_tables <- gets (fun w => tables_where (store w) true) ;;
   for_each Table_save user_tables ;;;
   last_modified' <- (fun w => (w, meta_getitem (store w) "last_modified")) ;;
   (if negb (Py.eqb last_modified last_modified') then bump_version else ret tt) ;;;
   for_each Table_save system_tables ;;;
   modify (fun w => set_backend w (commit_batch (backend w))))%M.

(** [TableStore.load_from_backend] *)
Definition load_from_backend (skip_definition : bool) : M unit :=
  (definition <- fetch_from_storage TS_DEF_FILENAME ;;
   (if negb skip_definition then init_from_definition definition else ret tt) ;;;
   modify (fun w => set_store w (mkTableStore (_tables (store w))
                                              (_tableorder (store w))
                                              (backend_str (backend w)))) ;;;
   names <- gets (fun w => keys (_tables (store w))) ;;
   for_each Table_load names)%M.

(** [TableStore.__init__]: a new store in place of the one in the state,
    loaded from the backend when one is given. *)
Definition TableStore__init__ (with_backend : bool) : M unit :=
  (modify (fun w => set_store w (mkTableStore [] [] "clean")) ;;;
   _add_metatable ;;;
   if with_backend then load_from_backend false else ret tt)%M.

End Relib.

Arguments world : clear implicits.
Arguments M : clear implicits.
Arguments writer : clear implicits.

Declare Scope store_scope.
Delimit Scope store_scope with store.
Notation "x <- m ;; k" := (mbind m (fun x => k))
  (at level 61, m at next level, right associativity) : store_scope.
Notation "m ;;; k" := (mbind m (fun _ => k))
  (at level 61, right associativity) : store_scope.

(** [table.method(...)] on the table registered as [tn], for the methods that
    change nothing but the table and cannot fail. *)
Definition on_table {B : Type} (tn : string) (method : Table -> Table) : M B unit :=
  fun w =>
    match get_table (store w) tn with
    | Ok t => put_table tn (method t) w
    | Raise e => (w, Raise e)
    end.

(** A backend that keeps the blobs in memory.

    Modelled from the spec: the backends themselves are not part of this
    module; [persist] writes a named blob, [retrieve] reads the blob last
    persisted under a name and fails when there is none, and the batch
    operations do not touch what is stored. *)
#[export] Instance MemoryBackend : Backend (dict string) := {
  start_batch := fun b => b;
  commit_batch := fun b => b;
  save_data := fun b file_name data => Py.set file_name data b;
  load_data := fun b file_name =>
    match Py.get file_name b with
    | Some data => Ok data
    | None => Raise BackendError
    end;
  backend_str := fun _ => "memory"
}.

(** ** What the metadata records *)

(** The files a save of the table writes, in the order of the writes: names
    and contents. They depend on the table only. *)
Fixpoint row_files (t : Table) (rs : list row) : res (list (string * string)) :=
  match rs with
  | [] => Ok []
  | r :: rs' =>
      fn <- get_filename t (Some r) false ;;
      d <- orderly_row t r ;;
      rest <- row_files t rs' ;;
      Ok ((fn, Json.dumps (VDict d)) :: rest)
  end.

Fixpoint group_files (t : Table) (rowsets : list (list row))
    : res (list (string * string)) :=
  match rowsets with
  | [] => Ok []
  | rowset :: rowsets' =>
      fn <- get_filename t (Some (hd [] rowset)) false ;;
      rest <- group_files t rowsets' ;;
      Ok ((fn, Json.dumps (VList (map VDict rowset))) :: rest)
  end.

Definition table_files (t : Table) : res (list (string * string)) :=
  match cls t with
  | ClsSingleRowTable =>
      let doc := match SingleRowTable_get t with
                 | Some r => r
                 | None => []
                 end in
      fn <- get_filename t None false ;;
      Ok [(fn, Json.dumps (VDict doc))]
  | ClsTable =>
      let rows := rows_sorted t in
      if truthy_fields (_group_by_fields t) then
        body <- (if match _group_by_fields t with
                    | Some g => list_string_eqb g (_pk_fields t)
                    | None => false
                    end
                 then row_files t rows
                 else group <- group_rows t rows [] ;;
                      group_files t (values group)) ;;
        index <- index_of t rows ;;
        fn <- get_filename t None true ;;
        Ok (body ++ [(fn, Json.dumps (VList (map VDict index)))])%list
      else
        rows <- orderly_rows t rows ;;
        fn <- get_filename t None false ;;
        Ok [(fn, Json.dumps (VList (map VDict rows)))]
  end.

(** Writing files to a backend, one after the other. *)
Definition write_all {B : Type} {backend_of_B : Backend B}
    (files : list (string * string)) (b : B) : B :=
  fold_left (fun b f => save_data b (fst f) (snd f)) files b.

(** The contents of the files, one after the other. *)
Definition contents (files : list (string * string)) : string :=
  fold_right (fun f acc => snd f ++ acc) "" files.

(** The checksum of the table: the hash of everything written for it. *)
Definition content_checksum (t : Table) : res string :=
  files <- table_files t ;;
  Ok (Sha256.hexdigest (contents files)).

(** The checksum recorded for [name] in the metadata row [r]: the ['md5'] of
    the first record of that name, and the empty text of a zeroed record
    when there is none. *)
Definition row_md5 (r : row) (name : string) : value :=
  match Py.get "tables" r with
  | Some (VList entries) =>
      match find_table_meta entries name 0 with
      | Ok (Some i) =>
          match nth_error entries i with
          | Some (VDict d) =>
              match Py.get "md5" d with
              | Some v => v
              | None => VStr ""
              end
          | _ => VStr ""
          end
      | _ => VStr ""
      end
  | _ => VStr ""
  end.

Definition recorded_md5 (ts : TableStore) (name : string) : value :=
  match meta_get ts with
  | Ok (Some r) => row_md5 r name
  | _ => VStr ""
  end.

(** Does the content of [t] differ from what the metadata records for it? *)
Definition table_changed (ts : TableStore) (t : Table) : bool :=
  match content_checksum t with
  | Ok cs => negb (Py.eqb (recorded_md5 ts (_table_name t)) (VStr cs))
  | Raise _ => false
  end.

(** Is there a table that is not a system table and whose content differs
    from what the metadata records? *)
Definition user_table_changed (ts : TableStore) : bool :=
  existsb (fun nt => negb (_is_system_table (snd nt)) && table_changed ts (snd nt))
          (_tables ts).

(** The version of the store and the time of its last change. *)
Definition version_of (ts : TableStore) : res value := meta_getitem ts "version".
Definition last_modified_of (ts : TableStore) : res value :=
  meta_getitem ts "last_modified".

(** A store as [add_table] and [_add_metatable] build it: every table is
    registered once and under its own name, and the metadata table is a
    system table. *)
Definition store_wf (ts : TableStore) : bool :=
  is_dict (_tables ts)
  && forallb (fun nt => String.eqb (_table_name (snd nt)) (fst nt)) (_tables ts)
  && match Py.get TS_META_TABLENAME (_tables ts) with
     | Some m => _is_system_table m
     | None => false
     end.

(** [table_meta[key] = v] as a change of the metadata row [r], for the record
    at position [i]. *)
Definition set_entry (r : row) (i : nat) (key : string) (v : value) : option row :=
  match Py.get "tables" r with
  | Some (VList entries) =>
      match nth_error entries i with
      | Some (VDict d) =>
          Some (Py.set "tables" (VList (list_set i (VDict (Py.set key v d)) entries)) r)
      | _ => None
      end
  | _ => None
  end.

(** Two stores that differ at most in the rows of the metadata table: the
    same names in the same order, and under each name the same table, up to
    the rows when the name is that of the metadata table. *)
Definition same_but_rows (nt nt1 : string * Table) : Prop :=
  fst nt1 = fst nt
  /\ exists rows1, snd nt1 = set_rows (snd nt) rows1
                   /\ (fst nt <> TS_META_TABLENAME -> rows1 = _rows (snd nt)).

Definition meta_only (ts ts1 : TableStore) : Prop :=
  Forall2 same_but_rows (_tables ts) (_tables ts1).

(** The position of the record of [name] in the metadata row [r]. *)
Definition tracked (r : row) (name : string) (i : nat) : Prop :=
  exists entries, Py.get "tables" r = Some (VList entries)
                  /\ find_table_meta entries name 0 = Ok (Some i).

(** A loop of writes that raises nowhere leaves the files of [files] in the
    backend and their contents in the running checksum; a loop that raises
    raises what computing [files] raises. *)
Definition writes_as {B : Type} {backend_of_B : Backend B}
    (r : writer B * res unit) (w : writer B)
    (files : res (list (string * string))) : Prop :=
  match files with
  | Ok fs => r = ((write_all fs (fst w), snd w ++ contents fs), Ok tt)
  | Raise e => snd r = Raise e
  end.

(** A table the store holds under its own name; the metadata table is a
    system table. *)
Definition registered (ts : TableStore) (n : string) : Prop :=
  exists t, get_table ts n = Ok t
            /\ _table_name t = n
            /\ (n = TS_META_TABLENAME -> _is_system_table t = true).

(** Would a save of the table [n] stamp the store, the metadata row being
    [r]? It does for a table that is not a system table and whose checksum
    is not the recorded one. *)
Definition stamps (ts : TableStore) (r : row) (n : string) : bool :=
  match get_table ts n with
  | Ok t =>
      negb (_is_system_table t)
      && match content_checksum t with
         | Ok cs => negb (Py.eqb (row_md5 r n) (VStr cs))
         | Raise _ => false
         end
  | Raise _ => false
  end.

(** [v += 1] on the version: what [bump_version] stores. *)
Definition bumped (v : option value) : option value :=
  match v with
  | Some (VInt z) => Some (VInt (z + 1))
  | Some (VBool b) => Some (VInt ((if b then 1 else 0) + 1))
  | _ => None
  end.

(** ** What a round trip needs *)

(** A backend that gives back the blob saved last under a name, as the
    specification asks of [persist] and [retrieve]. *)
Class BackendLaws (B : Type) {backend_of_B : Backend B} : Prop := {
  load_save_same : forall (b : B) (f d : string),
    load_data (save_data b f d) f = Ok d;
  load_save_other : forall (b : B) (f g d : string),
    g <> f -> load_data (save_data b f d) g = load_data b g;
  load_commit : forall (b : B) (f : string),
    load_data (commit_batch b) f = load_data b f
}.
Arguments BackendLaws B {backend_of_B}.

(** Two rows that are the same mapping, whatever the order of their fields;
    two lists of rows that hold the same rows in that sense. *)
Definition same_row (r r' : row) : Prop := forall k, Py.get k r = Py.get k r'.

Definition same_rows (rs rs' : list row) : Prop :=
  (forall r, In r rs -> exists r', In r' rs' /\ same_row r r')
  /\ (forall r', In r' rs' -> exists r, In r rs /\ same_row r r').

(** The documents a save of the table writes, before they are encoded. *)
Fixpoint row_docs (t : Table) (rs : list row) : res (list (string * value)) :=
  match rs with
  | [] => Ok []
  | r :: rs' =>
      fn <- get_filename t (Some r) false ;;
      d <- orderly_row t r ;;
      rest <- row_docs t rs' ;;
      Ok ((fn, VDict d) :: rest)
  end.

Fixpoint group_docs (t : Table) (rowsets : list (list row))
    : res (list (string * value)) :=
  match rowsets with
  | [] => Ok []
  | rowset :: rowsets' =>
      fn <- get_filename t (Some (hd [] rowset)) false ;;
      rest <- group_docs t rowsets' ;;
      Ok ((fn, VList (map VDict rowset)) :: rest)
  end.

Definition table_docs (t : Table) : res (list (string * value)) :=
  match cls t with
  | ClsSingleRowTable =>
      let doc := match SingleRowTable_get t with
                 | Some r => r
                 | None => []
                 end in
      fn <- get_filename t None false ;;
      Ok [(fn, VDict doc)]
  | ClsTable =>
      let rows := rows_sorted t in
      if truthy_fields (_group_by_fields t) then
        body <- (if match _group_by_fields t with
                    | Some g => list_string_eqb g (_pk_fields t)
                    | None => false
                    end
                 then row_docs t rows
                 else group <- group_rows t rows [] ;;
                      group_docs t (values group)) ;;
        index <- index_of t rows ;;
        fn <- get_filename t None true ;;
        Ok (body ++ [(fn, VList (map VDict index))])%list
      else
        rows <- orderly_rows t rows ;;
        fn <- get_filename t None false ;;
        Ok [(fn, VList (map VDict rows))]
  end.

Definition encode_doc (fv : string * value) : string * string :=
  (fst fv, Json.dumps (snd fv)).

(** The rows of the table as its files hold them, in the order in which a
    load adds them. *)
Definition stored_rows (t : Table) : res (list row) :=
  match cls t with
  | ClsSingleRowTable =>
      Ok [match SingleRowTable_get t with
          | Some r => r
          | None => []
          end]
  | ClsTable =>
      if truthy_fields (_group_by_fields t)
         && negb match _group_by_fields t with
                 | Some g => list_string_eqb g (_pk_fields t)
                 | None => false
                 end
      then group <- group_rows t (rows_sorted t) [] ;;
           Ok (List.concat (values group))
      else orderly_rows t (rows_sorted t)
  end.

(** The names of the files of a table, and of all the files of a save: the
    definition, then the files of the tables in the order of the save. *)
Definition file_names (t : Table) : list string :=
  match table_files t with
  | Ok files => map fst files
  | Raise _ => []
  end.

Definition names_of (ts : TableStore) (ns : list string) : list string :=
  flat_map (fun n => match get_table ts n with
                     | Ok t => file_names t
                     | Raise _ => []
                     end) ns.

Definition store_file_names (ts : TableStore) : list string :=
  (TS_DEF_FILENAME
     :: names_of ts (tables_where ts false) ++ names_of ts (tables_where ts true))%list.

(** No two files of a save have the same name. *)
Definition files_distinct (ts : TableStore) : bool := uniq (store_file_names ts).

(** The table as the definition of the store describes it: without rows,
    and attached to the store that decodes it. *)
Definition as_defined (t : Table) : Table := set_table_store (set_rows t []) true.

(** [r'] is what [add] stores for [r]: the defaults of the table, resolved,
    with the fields of [r] over them. *)
Definition filled (t : Table) (r r' : row) : Prop :=
  exists d, keys d = keys (_default_values t) /\ r' = Py.update d r.

(** Nothing but the table [n] differs between the two states: the same
    backend, and the same table under every other name. *)
Definition only_table {B : Type} (n : string) (w w' : world B) : Prop :=
  backend w' = backend w
  /\ forall n', n' <> n -> get_table (store w') n' = get_table (store w) n'.

(** The backend holds the documents, and the coder gives them back. *)
Definition readable {B : Type} {backend_of_B : Backend B}
    (b : B) (docs : list (string * value)) : Prop :=
  forall f v, In (f, v) docs ->
    load_data b f = Ok (Json.dumps v) /\ Json.loads (Json.dumps v) = Some v.

(** An entry of the groups a load rebuilds from the index, next to the entry
    of the groups the save wrote: the same group key, which is the key of
    the indexed row and of every row of the group; no group is empty. *)
Definition group_entry (t : Table) (kq : string * row) (kl : string * list row)
    : Prop :=
  fst kq = fst kl
  /\ _canonicalize_key t (snd kq) true = Ok (fst kl)
  /\ snd kl <> []
  /\ forall o, In o (snd kl) -> _canonicalize_key t o true = Ok (fst kl).

(** The store as [get_definition] leaves it. *)
Definition with_tableorder (ts : TableStore) : TableStore :=
  mkTableStore (_tables ts) (keys (_tables ts)) (_origin ts).

(** The documents of a save that a load reads back to rebuild the user
    tables: the definition and the documents of the user tables. *)
Definition store_docs (ts : TableStore) : list value :=
  (value_of_store (with_tableorder ts)
     :: flat_map (fun n => match get_table ts n with
                           | Ok t => match table_docs t with
                                     | Ok docs => map snd docs
                                     | Raise _ => []
                                     end
                           | Raise _ => []
                           end) (tables_where ts false))%list.

(** The coder gives back the documents of the save. *)
Definition codec_ok (ts : TableStore) : Prop :=
  Forall (fun v => Json.loads (Json.dumps v) = Some v) (store_docs ts).

(** A table whose rows are dicts that hold every field with a default, stored
    under distinct keys; a document table holds one row. *)
Definition table_wf (t : Table) : bool :=
  is_dict (_rows t)
  && forallb (fun kr => is_dict (snd kr)
                        && issubset (keys (_default_values t)) (snd kr))
             (_rows t)
  && match cls t with
     | ClsSingleRowTable => Nat.eqb (List.length (_rows t)) 1
     | ClsTable => true
     end.

(** The foreign keys of [t] can be followed: [t] still refers to its store,
    and each of them names at least one field and a table of the store. This
    holds of every table declared through [add_table] and [add_foreign_key]
    until [clear] is called. *)
Definition foreign_keys_resolve (ts : TableStore) (t : Table) : bool :=
  forallb (fun c => match c with
                    | foreign_key f tn _ =>
                        _table_store t
                        && match f with [] => false | _ => true end
                        && is_Ok (get_table ts tn)
                    | _ => true
                    end) (_constraints t).

(** ** The rest of the module *)

(** [Table.__str__] and the property [Table.name] *)
Definition Table__str__ (t : Table) : string := "Table('" ++ _table_name t ++ "')".
Definition Table_name (t : Table) : string := _table_name t.

(** [SingleRowTable.__getitem__]: [self.get()[key]]. Without a row [get]
    gives [None], and indexing [None] is a [TypeError]. *)
Definition SingleRowTable__getitem__ (t : Table) (key : string) : res value :=
  match SingleRowTable_get t with
  | None => Raise TypeError
  | Some r =>
      match Py.get key r with
      | Some v => Ok v
      | None => Raise KeyError
      end
  end.

(** [TableStore.__str__] *)
Definition TableStore__str__ (ts : TableStore) : string :=
  "TableStore(Origin: " ++ _origin ts ++ ". Tables: "
    ++ Py.str_of_Z (Z.of_nat (List.length (_tables ts))) ++ ")".

(** The property [TableStore.tables]: the tables that are not system
    tables, by name. *)
Definition tables (ts : TableStore) : dict Table :=
  filter (fun nt => negb (_is_system_table (snd nt))) (_tables ts).

(** [TableStore.refresh_metadata]: a save to a backend made for the
    occasion. [create_backend] looks the scheme of its url up in a registry
    that other modules fill; what it returns is taken as given. The state
    keeps the backend it had. *)
Definition refresh_metadata {B : Type} {backend_of_B : Backend B}
    (utcnow : nat -> string) (created : res B) : M B unit :=
  fun w =>
    match created with
    | Raise e => (w, Raise e)
    | Ok b =>
        let saved := save_to_backend utcnow (set_backend w b) in
        (set_backend (fst saved) (backend w), snd saved)
    end.

(** [copy_table_store]: the store of the state is saved to a backend made
    for the occasion, and a new store is loaded from it and returned. The
    state keeps the store that was saved and the backend it had. *)
Definition copy_table_store {B : Type} {backend_of_B : Backend B}
    (check_schema : row -> value -> bool) (utcnow : nat -> string)
    (created : res B) : M B TableStore :=
  fun w =>
    match created with
    | Raise e => (w, Raise e)
    | Ok b =>
        let saved := save_to_backend utcnow (set_backend w b) in
        match snd saved with
        | Raise e => (set_backend (fst saved) (backend w), Raise e)
        | Ok _ =>
            let loaded := TableStore__init__ check_schema utcnow true (fst saved) in
            (mkWorld (store (fst saved)) (ticks (fst loaded)) (backend w),
             _ <- snd loaded ;; Ok (store (fst loaded)))
        end
    end.

(** Every row of the table is stored under its own canonical key, and under
    no other. *)
Definition rows_keyed (t : Table) : Prop :=
  is_dict (_rows t) = true
  /\ forall k r, In (k, r) (_rows t) -> _canonicalize_key t r false = Ok k.

(** The row [add] builds from [r] at the reading [tick] of the clock: the
    defaults of the table, resolved, with the fields of [r] over them. *)
Definition candidate (utcnow : nat -> string) (t : Table) (r : row) (tick : nat)
    : row :=
  Py.update (fst (_get_default_values utcnow t tick)) r.

(** ** The wording of the specification *)

Module Spec.

(** "alphanumeric, dot, or dash" *)
Definition alnum_dot_dash (c : ascii) : bool :=
  Re.is_lower c || Re.is_upper c || Re.is_digit c
  || Ascii.eqb c "." || Ascii.eqb c "-".

(** Table names the specification accepts: a reserved name that starts with
    [#], or 1 to 50 alphanumeric, dot or dash characters. *)
Definition table_name_ok (name : string) : bool :=
  startswith "#" name || Re.fullmatch alnum_dot_dash 1 50 name.

(** The file-name-safe pattern of the specification,
    [[A-Za-z0-9_.\-]{1,50}], on the whole key. *)
Definition key_ok (key : string) : bool :=
  Re.fullmatch Re.pk_fieldname_class 1 50 key.

End Spec.

(** Does the text end in a line break? *)
Fixpoint ends_with_newline (s : string) : bool :=
  match s with
  | EmptyString => false
  | String c EmptyString => Ascii.eqb c Re.newline
  | String _ s' => ends_with_newline s'
  end.

(** ** Worked stores

    [accept_all] is a validator that accepts every row and [seconds] a clock
    that gives a new text at every reading. *)

Module Examples.

Definition accept_all (r : row) (schema : value) : bool := true.

Definition seconds (n : nat) : string :=
  "2020-01-01T00:00:" ++ Py.str_of_Z (Z.of_nat n) ++ "Z".

Definition frozen (n : nat) : string := "2020-01-01T00:00:00Z".

Definition empty_store : TableStore := mkTableStore [] [] "clean".

(** A table [users] with primary key [id]. *)
Definition users : Table :=
  match Table__init__ ClsTable "users" true with
  | Ok t => add_primary_key t "id"
  | Raise _ => mkTable ClsTable "" [] VNone [] [] [] false None None false
  end.

(** A table [orders] with primary key [id], and a store with both. *)
Definition orders : Table :=
  match Table__init__ ClsTable "orders" true with
  | Ok t => add_primary_key t "id"
  | Raise _ => mkTable ClsTable "" [] VNone [] [] [] false None None false
  end.

Definition shop : TableStore :=
  mkTableStore [("users", users); ("orders", orders)] [] "clean".

(** [users] with a unique [email] and one row. *)
Definition users_with_ann : Table :=
  set_rows (add_unique_constraint users "email")
           [("u1", [("id", VStr "u1"); ("email", VStr "ann@example.org")])].

(** A document table, as its constructor leaves it. *)
Definition document : Table :=
  match fst (SingleRowTable__init__ accept_all seconds empty_store "doc" true 0) with
  | Ok t => t
  | Raise _ => mkTable ClsSingleRowTable "" [] VNone [] [] [] false None None false
  end.

(** Two users, and orders that refer to them twice: as buyer and as seller. *)
Definition two_users : Table :=
  set_rows users [("u1", [("id", VStr "u1")]); ("u2", [("id", VStr "u2")])].

Definition market_before : TableStore :=
  mkTableStore [("users", two_users); ("orders", orders)] [] "clean".

Definition orders_two_keys : Table :=
  let t := fst (add_foreign_key market_before orders "buyer" "users" (Some "id")) in
  let t := fst (add_foreign_key market_before t "seller" "users" (Some "id")) in
  set_rows t [("o1", [("id", VStr "o1"); ("buyer", VStr "u1"); ("seller", VStr "u2")])].

Definition market : TableStore :=
  mkTableStore [("users", two_users); ("orders", orders_two_keys)] [] "clean".

(** A store with one table [users], primary key [id], and one row, built
    through the methods of the store on the clock [clk]; then saved to a
    memory backend once and twice. *)
Definition start : world (list (string * string)) := mkWorld empty_store 0 [].

Definition populate (clk : nat -> string) : M (list (string * string)) unit :=
  (TableStore__init__ accept_all clk false ;;;
   _ <- add_table accept_all clk "users" false ;;
   on_table "users" (fun t => add_primary_key t "id") ;;;
   _ <- table_add accept_all clk "users" [("id", VStr "u1"); ("name", VStr "Ann")] false ;;
   ret tt)%store.

Definition populated (clk : nat -> string) : world (list (string * string)) :=
  fst (populate clk start).

Definition saved_once (clk : nat -> string) : world (list (string * string)) :=
  fst (save_to_backend clk (populated clk)).

Definition saved_twice (clk : nat -> string) : world (list (string * string)) :=
  fst (save_to_backend clk (saved_once clk)).

(** [table.add_default_values(d)] on the table registered as [tn]. *)
Definition declare_defaults (clk : nat -> string) (tn : string) (d : row)
    : M (list (string * string)) unit :=
  fun w =>
    match get_table (store w) tn with
    | Raise e => (w, Raise e)
    | Ok t =>
        let o := add_default_values accept_all clk (store w) t d (ticks w) in
        (mkWorld (set_tables (store w) (Py.set tn (self o) (_tables (store w))))
                 (clock o) (backend w),
         result o)
    end.

(** The store of [populated], whose table [users] is given a default for
    [role] after its row was added; that store saved; and a new store loaded
    from the backend of the save. *)
Definition late_default (clk : nat -> string) : world (list (string * string)) :=
  fst (declare_defaults clk "users" [("role", VStr "guest")] (populated clk)).

Definition late_default_saved (clk : nat -> string)
    : world (list (string * string)) :=
  fst (save_to_backend clk (late_default clk)).

Definition late_default_loaded (clk : nat -> string)
    : world (list (string * string)) :=
  fst (TableStore__init__ accept_all clk true (late_default_saved clk)).

(** The rows of the table [tn] of a store. *)
Definition rows_of (ts : TableStore) (tn : string) : list row :=
  match get_table ts tn with
  | Ok t => values (_rows t)
  | Raise _ => []
  end.

(** The table [users] of [populated], and the store of [populated] saved
    and loaded into a new store from the backend of the save. *)
Definition populated_users (clk : nat -> string) : Table :=
  match get_table (store (populated clk)) "users" with
  | Ok t => t
  | Raise _ => users
  end.

Definition reloaded (clk : nat -> string) : world (list (string * string)) :=
  fst (TableStore__init__ accept_all clk true (saved_once clk)).


Definition users_by_row : Table := fst (set_row_as_file users None None).

(** The backend of [saved_once], with a store whose table [users] is
    declared and not loaded yet. *)
Definition unloaded (clk : nat -> string) : world (list (string * string)) :=
  set_backend
    (fst ((TableStore__init__ accept_all clk false ;;;
           _ <- add_table accept_all clk "users" false ;;
           on_table "users" (fun t => add_primary_key t "id"))%store start))
    (backend (saved_once clk)).

(** A key that ends in a line break. *)
Definition key_with_newline : string := String "a" (String Re.newline "").

End Examples.

(** * Properties *)

(** ** The patterns *)

Lemma rep_dollar_empty cls lo hi :
  Re.rep_dollar cls lo hi "" = Nat.eqb lo 0.
Proof.
  destruct hi; simpl; now rewrite andb_true_r.
Qed.

Lemma at_dollar_no_newline c s :
  ends_with_newline (String c s) = false -> Re.at_dollar (String c s) = false.
Proof.
  destruct s as [|d s]; simpl; auto.
Qed.

(** On a text that does not end in a line break, [^(cls){lo,hi}$] accepts
    exactly the texts of [lo] to [hi] characters of the class. *)
Lemma rep_dollar_fullmatch cls s :
  ends_with_newline s = false ->
  forall lo hi, Re.rep_dollar cls lo hi s = Re.fullmatch cls lo hi s.
Proof.
  induction s as [|c s IH]; intros Hnl lo hi.
  - rewrite rep_dollar_empty. unfold Re.fullmatch, Re.all_in. simpl.
    destruct lo; simpl; now rewrite ?andb_true_r.
  - pose proof (at_dollar_no_newline _ _ Hnl) as Hd.
    assert (Hs : s = "" \/ ends_with_newline s = false).
    { destruct s as [|d s]; [now left|right]. exact Hnl. }
    unfold Re.fullmatch, Re.all_in. cbn [String.length list_ascii_of_string forallb].
    destruct hi as [|hi].
    + cbn [Re.rep_dollar]. rewrite Hd, andb_false_r.
      cbn [Nat.leb]. now rewrite andb_false_r.
    + cbn [Re.rep_dollar]. rewrite Hd, andb_false_r, orb_false_r.
      destruct Hs as [-> | Hs].
      * rewrite rep_dollar_empty. cbn.
        destruct lo as [|[|lo]]; cbn; now rewrite ?andb_true_r, ?andb_false_r.
      * rewrite (IH Hs). unfold Re.fullmatch, Re.all_in.
        destruct (cls c); cbn [andb]; [|now rewrite andb_false_r].
        destruct lo as [|lo]; cbn [Nat.pred Nat.leb]; reflexivity.
Qed.

(** With the line break that [$] lets through: the pattern accepts a text
    when the text, or the text without a final line break, is made of [lo] to
    [hi] characters of a class that has no line break. *)
Lemma rep_dollar_newline cls lo hi s :
  cls Re.newline = false ->
  Re.fullmatch cls lo hi s = true ->
  Re.rep_dollar cls lo hi (s ++ String Re.newline "") = true.
Proof.
  intros Hcls. revert lo hi.
  induction s as [|c s IH]; intros lo hi Hm.
  - unfold Re.fullmatch in Hm. cbn in Hm.
    destruct lo; [|discriminate].
    destruct hi; cbn [append Re.rep_dollar]; [reflexivity|].
    now rewrite Hcls.
  - unfold Re.fullmatch, Re.all_in in Hm.
    cbn [String.length list_ascii_of_string forallb] in Hm.
    apply andb_prop in Hm as [Hm Hall]. apply andb_prop in Hall as [Hc Hall].
    apply andb_prop in Hm as [Hlo Hhi].
    destruct hi as [|hi]; [discriminate|].
    cbn [append Re.rep_dollar]. rewrite Hc. cbn [andb].
    rewrite IH; [reflexivity|].
    unfold Re.fullmatch, Re.all_in. rewrite Hall, andb_true_r.
    apply andb_true_intro; split.
    + destruct lo; [reflexivity|exact Hlo].
    + exact Hhi.
Qed.

(** ** Table names *)

(** C9, as the specification words it, fails on a name with a capital
    letter: [Users] is alphanumeric and [Table.__init__] refuses it. *)
Lemma table_name_capital_refused :
  Spec.table_name_ok "Users" = true /\
  Table__init__ ClsTable "Users" true = Raise TableError.
Proof. split; reflexivity. Qed.

(** C9, amended: for a name that does not end in a line break,
    [Table.__init__] succeeds exactly when the name starts with [#] or is
    made of 1 to 50 characters among the lower-case letters, the digits, the
    dot and the dash; it fails at once with [TableError] otherwise. *)
Theorem table_name_acceptance (c : table_class) (name : string) (attached : bool) :
  ends_with_newline name = false ->
  (is_Ok (Table__init__ c name attached) = true <->
   startswith "#" name = true \/ Re.fullmatch Re.tablename_class 1 50 name = true)
  /\ (is_Ok (Table__init__ c name attached) = false ->
      Table__init__ c name attached = Raise TableError).
Proof.
  intros Hnl. unfold Table__init__, Re.TABLENAME_REGEX.
  rewrite (rep_dollar_fullmatch _ _ Hnl).
  destruct (startswith "#" name); destruct (Re.fullmatch Re.tablename_class 1 50 name);
    cbn; split; try tauto; try discriminate; intuition discriminate.
Qed.

Lemma table_name_acceptance_witness :
  ends_with_newline "users" = false /\
  ((is_Ok (Table__init__ ClsTable "users" true) = true <->
    startswith "#" "users" = true \/ Re.fullmatch Re.tablename_class 1 50 "users" = true)
   /\ (is_Ok (Table__init__ ClsTable "users" true) = false ->
       Table__init__ ClsTable "users" true = Raise TableError)).
Proof.
  split; [reflexivity|].
  apply (table_name_acceptance ClsTable "users" true). reflexivity.
Defined.

(** ** Canonical keys *)

Lemma forallb_ext_in_strings (f g : string -> bool) (l : list string) :
  (forall k, In k l -> f k = g k) -> forallb f l = forallb g l.
Proof.
  induction l as [|x l IH]; intros Hfg; [reflexivity|].
  simpl. rewrite (Hfg x (or_introl eq_refl)), IH; [reflexivity|].
  intros k Hk. apply Hfg. now right.
Qed.

Lemma issubset_agree (fields : list string) (pk1 pk2 : row) :
  (forall k, In k fields -> Py.get k pk1 = Py.get k pk2) ->
  issubset fields pk1 = issubset fields pk2.
Proof.
  intros Hagree. unfold issubset. apply forallb_ext_in_strings.
  intros k Hk. unfold Py.mem. now rewrite (Hagree k Hk).
Qed.

Lemma key_parts_agree (fields : list string) (pk1 pk2 : row) :
  (forall k, In k fields -> Py.get k pk1 = Py.get k pk2) ->
  key_parts fields pk1 = key_parts fields pk2.
Proof.
  intros Hagree. unfold key_parts.
  induction fields as [|f fields IH]; [reflexivity|].
  simpl. rewrite (Hagree f (or_introl eq_refl)), IH; [reflexivity|].
  intros k Hk. apply Hagree. now right.
Qed.

(** Every field present: the parts are the values of all the fields. *)
Lemma key_parts_all (fields : list string) (primary_key : row) :
  issubset fields primary_key = true ->
  map Some (key_parts fields primary_key)
  = map (fun k => option_map Py.str (Py.get k primary_key)) fields.
Proof.
  unfold issubset, key_parts.
  induction fields as [|f fields IH]; intros Hsub; [reflexivity|].
  simpl in Hsub. apply andb_prop in Hsub as [Hf Hsub].
  unfold Py.mem in Hf. simpl.
  destruct (Py.get f primary_key); [|discriminate].
  simpl. now rewrite IH.
Qed.

(** What [Table._canonicalize_key] returns, case by case. *)
Lemma Table__canonicalize_key_cases (t : Table) (primary_key : row) :
  let joined := String.concat "." (key_parts (_pk_fields t) primary_key) in
  Table__canonicalize_key t primary_key false =
    if negb (issubset (_pk_fields t) primary_key) then Raise TableError
    else if Re.PK_FIELDNAME_REGEX joined then Ok joined
    else Raise ConstraintError.
Proof.
  unfold Table__canonicalize_key, key_parts. cbn [bind].
  destruct (issubset (_pk_fields t) primary_key); cbn [negb]; [|reflexivity].
  destruct (Re.PK_FIELDNAME_REGEX _); reflexivity.
Qed.

(** The canonical key depends on the mapping only through the key fields:
    two mappings that agree on them get the same answer, whatever the order
    of their items and whatever else they hold. *)
Lemma Table__canonicalize_key_agree (t : Table) (pk1 pk2 : row) :
  (forall k, In k (_pk_fields t) -> Py.get k pk1 = Py.get k pk2) ->
  Table__canonicalize_key t pk1 false = Table__canonicalize_key t pk2 false.
Proof.
  intros Hagree. rewrite !Table__canonicalize_key_cases.
  now rewrite (issubset_agree _ _ _ Hagree), (key_parts_agree _ _ _ Hagree).
Qed.

(** A field of the key that is absent makes the call fail. *)
Lemma Table__canonicalize_key_missing (t : Table) (primary_key : row) (k : string) :
  In k (_pk_fields t) -> Py.get k primary_key = None ->
  Table__canonicalize_key t primary_key false = Raise TableError.
Proof.
  intros Hin Hget. rewrite Table__canonicalize_key_cases.
  assert (Hsub : issubset (_pk_fields t) primary_key = false).
  { unfold issubset. apply not_true_is_false. intros Hall.
    rewrite forallb_forall in Hall. specialize (Hall k Hin).
    unfold Py.mem in Hall. rewrite Hget in Hall. discriminate. }
  now rewrite Hsub.
Qed.

(** A joined key that is not file-name safe makes the call fail, when it
    does not end in a line break. *)
Lemma Table__canonicalize_key_unsafe (t : Table) (primary_key : row) :
  let joined := String.concat "." (key_parts (_pk_fields t) primary_key) in
  issubset (_pk_fields t) primary_key = true ->
  ends_with_newline joined = false ->
  Spec.key_ok joined = false ->
  Table__canonicalize_key t primary_key false = Raise ConstraintError.
Proof.
  intros joined Hsub Hnl Hbad. rewrite Table__canonicalize_key_cases.
  rewrite Hsub. cbn [negb]. fold joined.
  unfold Re.PK_FIELDNAME_REGEX. rewrite (rep_dollar_fullmatch _ _ Hnl).
  unfold Spec.key_ok in Hbad. now rewrite Hbad.
Qed.

(** A joined key that is file-name safe is returned as it is. *)
Lemma Table__canonicalize_key_safe (t : Table) (primary_key : row) :
  let joined := String.concat "." (key_parts (_pk_fields t) primary_key) in
  issubset (_pk_fields t) primary_key = true ->
  Spec.key_ok joined = true ->
  Table__canonicalize_key t primary_key false = Ok joined.
Proof.
  intros joined Hsub Hok. rewrite Table__canonicalize_key_cases.
  rewrite Hsub. cbn [negb]. fold joined.
  assert (Hnl : ends_with_newline joined = false).
  { unfold Spec.key_ok, Re.fullmatch in Hok.
    apply andb_prop in Hok as [_ Hall]. clear -Hall.
    unfold Re.all_in in Hall.
    induction joined as [|c s IH]; [reflexivity|].
    cbn in Hall. apply andb_prop in Hall as [Hc Hall].
    destruct s as [|d s].
    - cbn [ends_with_newline].
      destruct (Ascii.eqb_spec c Re.newline) as [->|]; [discriminate|reflexivity].
    - apply IH. exact Hall. }
  unfold Re.PK_FIELDNAME_REGEX. rewrite (rep_dollar_fullmatch _ _ Hnl).
  unfold Spec.key_ok in Hok. now rewrite Hok.
Qed.

(** C4, at the input where the code departs from it: the key [a] followed
    by a line break is not file-name safe, and [Table._canonicalize_key]
    returns it instead of failing, because [$] also matches before a final
    line break. *)
Theorem canonical_key_accepts_final_newline :
  Spec.key_ok Examples.key_with_newline = false /\
  Table__canonicalize_key Examples.users
    [("id", VStr Examples.key_with_newline)] false
  = Ok Examples.key_with_newline.
Proof. split; reflexivity. Qed.

(** ** [get] *)

(** [Table.get] raises [ConstraintError] on a key that has all the fields
    and whose joined text the pattern refuses. *)
Lemma Table_get_refused_key (t : Table) (primary_key : row) :
  cls t = ClsTable ->
  issubset (_pk_fields t) primary_key = true ->
  Re.PK_FIELDNAME_REGEX
    (String.concat "." (key_parts (_pk_fields t) primary_key)) = false ->
  Table_get t (Some primary_key) = Raise ConstraintError.
Proof.
  intros Hcls Hsub Hre. unfold Table_get, _canonicalize_key. rewrite Hcls.
  rewrite Table__canonicalize_key_cases, Hsub. cbn [negb]. now rewrite Hre.
Qed.

(** The same in the words of the pattern, for a joined text that does not
    end in a line break. *)
Lemma Table_get_unsafe_key (t : Table) (primary_key : row) :
  let joined := String.concat "." (key_parts (_pk_fields t) primary_key) in
  cls t = ClsTable ->
  issubset (_pk_fields t) primary_key = true ->
  ends_with_newline joined = false ->
  Spec.key_ok joined = false ->
  Table_get t (Some primary_key) = Raise ConstraintError.
Proof.
  intros joined Hcls Hsub Hnl Hbad. apply Table_get_refused_key; auto.
  fold joined. unfold Re.PK_FIELDNAME_REGEX.
  rewrite (rep_dollar_fullmatch _ _ Hnl). exact Hbad.
Qed.

(** C10, at the input where the code departs from it: the key [a] followed
    by a line break holds the primary-key field and is not file-name safe,
    and [Table.get] answers that there is no such row instead of raising. *)
Theorem get_accepts_final_newline :
  issubset (_pk_fields Examples.users) [("id", VStr Examples.key_with_newline)] = true /\
  Spec.key_ok Examples.key_with_newline = false /\
  Table_get Examples.users (Some [("id", VStr Examples.key_with_newline)]) = Ok None.
Proof. repeat split; reflexivity. Qed.

(** ** Facts about dicts *)

Section DictFacts.
Context {A : Type}.
Implicit Types (d e : dict A) (k : string) (v : A).

Lemma get_set_same k v d : Py.get k (Py.set k v d) = Some v.
Proof.
  induction d as [|[k' v'] d IH]; simpl.
  - now rewrite String.eqb_refl.
  - destruct (String.eqb_spec k k') as [->|Hne]; simpl.
    + now rewrite String.eqb_refl.
    + destruct (String.eqb_spec k k'); [contradiction|exact IH].
Qed.

Lemma get_set_other k k' v d : k <> k' -> Py.get k (Py.set k' v d) = Py.get k d.
Proof.
  intros Hne. induction d as [|[k2 v2] d IH]; simpl.
  - destruct (String.eqb_spec k k'); [contradiction|reflexivity].
  - destruct (String.eqb_spec k' k2) as [->|Hne2]; simpl.
    + destruct (String.eqb_spec k k2); [contradiction|reflexivity].
    + destruct (String.eqb_spec k k2); [reflexivity|exact IH].
Qed.

Lemma get_None_not_in k d : Py.get k d = None <-> ~ In k (keys d).
Proof.
  induction d as [|[k' v'] d IH]; simpl.
  - tauto.
  - destruct (String.eqb_spec k k') as [->|Hne].
    + split; [discriminate|]. intros Hn. exfalso. apply Hn. now left.
    + rewrite IH. split; intros Hn; [intros [Heq|Hin]|]; auto.
Qed.

Lemma get_Some_in k v d : Py.get k d = Some v -> In (k, v) d.
Proof.
  induction d as [|[k' v'] d IH]; simpl; [discriminate|].
  destruct (String.eqb_spec k k') as [->|Hne].
  - intros [= ->]. now left.
  - intros Hget. right. auto.
Qed.

Lemma in_set k v k' v' d :
  In (k, v) (Py.set k' v' d) -> (k = k' /\ v = v') \/ In (k, v) d.
Proof.
  induction d as [|[k2 v2] d IH]; simpl.
  - intros [[= <- <-]|[]]. now left.
  - destruct (String.eqb_spec k' k2) as [->|Hne]; simpl.
    + intros [[= <- <-]|Hin]; [now left|right; now right].
    + intros [Heq|Hin]; [right; now left|].
      destruct (IH Hin) as [Hl|Hr]; [now left|right; now right].
Qed.

Lemma keys_set_in k v d : In k (keys d) -> keys (Py.set k v d) = keys d.
Proof.
  induction d as [|[k' v'] d IH]; simpl; [tauto|].
  destruct (String.eqb_spec k k') as [->|Hne]; simpl; [reflexivity|].
  intros [Heq|Hin]; [congruence|]. now rewrite IH.
Qed.

Lemma keys_set_new k v d : ~ In k (keys d) -> keys (Py.set k v d) = (keys d ++ [k])%list.
Proof.
  induction d as [|[k' v'] d IH]; simpl; [reflexivity|].
  destruct (String.eqb_spec k k') as [->|Hne]; simpl.
  - intros Hn. exfalso. apply Hn. now left.
  - intros Hn. rewrite IH; auto.
Qed.

Lemma uniq_NoDup (l : list string) : uniq l = true <-> NoDup l.
Proof.
  induction l as [|x l IH]; simpl.
  - split; [constructor|reflexivity].
  - rewrite andb_true_iff, negb_true_iff, IH. split.
    + intros [Hx Hl]. constructor; [|exact Hl].
      intros Hin. apply not_true_iff_false in Hx. apply Hx.
      apply existsb_exists. exists x. split; [exact Hin|apply String.eqb_refl].
    + intros Hnd. inversion Hnd as [|? ? Hx Hl]; subst. split; [|exact Hl].
      apply not_true_iff_false. intros Hex. apply existsb_exists in Hex as [y [Hin Heq]].
      apply String.eqb_eq in Heq. subst. contradiction.
Qed.

(** [d.update(e)] gives every key of [e] the value [e] has for it and leaves
    the other keys of [d] as they are. *)
Lemma get_update k d e :
  is_dict e = true ->
  Py.get k (Py.update d e) = match Py.get k e with
                             | Some v => Some v
                             | None => Py.get k d
                             end.
Proof.
  unfold is_dict. rewrite uniq_NoDup. unfold Py.update. revert d.
  induction e as [|[k' v'] e IH]; intros d Hnd; [reflexivity|].
  simpl in Hnd. inversion Hnd as [|? ? Hk He]; subst.
  cbn [fold_left fst snd Py.get]. rewrite (IH _ He).
  destruct (String.eqb_spec k k') as [->|Hne].
  - apply get_None_not_in in Hk. rewrite Hk. apply get_set_same.
  - now rewrite get_set_other.
Qed.

End DictFacts.

Lemma mem_true_get {A} (k : string) (d : dict A) :
  Py.mem k d = true <-> exists v, Py.get k d = Some v.
Proof.
  unfold Py.mem. destruct (Py.get k d) as [v|].
  - split; [eauto|reflexivity].
  - split; [discriminate|intros [v [=]]].
Qed.

Lemma issubset_forall {A} (fields : list string) (d : dict A) :
  issubset fields d = true <-> forall k, In k fields -> exists v, Py.get k d = Some v.
Proof.
  unfold issubset. rewrite forallb_forall.
  split; intros Hall k Hk; apply mem_true_get; auto.
Qed.

Lemma list_string_eqb_eq (a b : list string) : list_string_eqb a b = true <-> a = b.
Proof.
  unfold list_string_eqb. destruct (list_eq_dec string_dec a b); split; auto; discriminate.
Qed.

(** ** Foreign keys are checked when they are declared *)

Lemma has_key_on_false (cs : list constraint) (fields : list string) :
  (forall c, In c cs -> c <> primary_key fields /\ c <> unique fields) ->
  has_key_on cs fields = false.
Proof.
  intros Hno. unfold has_key_on. apply not_true_is_false. intros Hex.
  apply existsb_exists in Hex as [c [Hin Hc]].
  destruct (Hno c Hin) as [Hpk Hun].
  destruct c as [f|f|f tn a]; try discriminate;
    apply list_string_eqb_eq in Hc; subst; congruence.
Qed.

Lemma has_key_on_true (cs : list constraint) (fields : list string) :
  In (primary_key fields) cs \/ In (unique fields) cs ->
  has_key_on cs fields = true.
Proof.
  intros Hin. unfold has_key_on. apply existsb_exists.
  destruct Hin as [Hin|Hin]; eexists; (split; [exact Hin|]);
    now apply list_string_eqb_eq.
Qed.

(** C6: when the target table holds no primary-key or unique constraint on
    exactly the alias fields of the declaration (in normal form), and also
    when there is no such table, [add_foreign_key] itself fails and leaves
    the table without the constraint; for a table that refers to its store
    and an existing target the failure is a [ConstraintError]. *)
Theorem foreign_key_checked_at_declaration (ts : TableStore) (t : Table)
    (foreign_key_fields table_name : string) (alias_key_fields : option string) :
  (forall ft c, get_table ts table_name = Ok ft -> In c (_constraints ft) ->
     c <> primary_key (alias_fields foreign_key_fields alias_key_fields) /\
     c <> unique (alias_fields foreign_key_fields alias_key_fields)) ->
  exists e,
    add_foreign_key ts t foreign_key_fields table_name alias_key_fields = (t, Raise e)
    /\ (_table_store t = true -> is_Ok (get_table ts table_name) = true ->
        e = ConstraintError).
Proof.
  intros Hno. unfold add_foreign_key.
  destruct (_table_store t); cbn [negb].
  - destruct (get_table ts table_name) as [ft|e] eqn:Hft.
    + rewrite has_key_on_false by (intros c Hc; exact (Hno ft c eq_refl Hc)).
      exists ConstraintError. split; auto.
    + exists e. split; [reflexivity|]. intros _ Hok. discriminate.
  - exists AttributeError. split; [reflexivity|]. intros Hts. discriminate.
Qed.

(** The other direction: with such a constraint on the target, the
    declaration succeeds and the foreign key is the last constraint. *)
Lemma foreign_key_declared (ts : TableStore) (t ft : Table)
    (foreign_key_fields table_name : string) (alias_key_fields : option string) :
  _table_store t = true ->
  get_table ts table_name = Ok ft ->
  In (primary_key (alias_fields foreign_key_fields alias_key_fields)) (_constraints ft)
  \/ In (unique (alias_fields foreign_key_fields alias_key_fields)) (_constraints ft) ->
  add_foreign_key ts t foreign_key_fields table_name alias_key_fields
  = (set_constraints t
       (_constraints t ++
        [foreign_key (Py.sorted (Py.split foreign_key_fields)) table_name
                     (alias_fields foreign_key_fields alias_key_fields)])%list,
     Ok tt).
Proof.
  intros Hts Hft Hkey. unfold add_foreign_key. rewrite Hts, Hft. cbn [negb].
  now rewrite (has_key_on_true _ _ Hkey).
Qed.

Lemma foreign_key_checked_at_declaration_witness :
  exists e,
    add_foreign_key Examples.shop Examples.orders "user_id" "users" (Some "name")
    = (Examples.orders, Raise e)
    /\ (_table_store Examples.orders = true ->
        is_Ok (get_table Examples.shop "users") = true -> e = ConstraintError).
Proof.
  apply foreign_key_checked_at_declaration.
  intros ft c Hft Hin. injection Hft as <-.
  destruct Hin as [<-|[]]. split; discriminate.
Defined.

(** ** Unique constraints *)

Lemma find_relation_in (cs : list constraint) (f : list string) (tn : string)
    (a : list string) :
  In (foreign_key f tn a) cs ->
  exists a', find_relation cs tn (Some f) = Some (f, a').
Proof.
  induction cs as [|c cs IH]; intros Hin; [contradiction|].
  destruct Hin as [->|Hin].
  - exists a. simpl. rewrite String.eqb_refl.
    now rewrite (proj2 (list_string_eqb_eq f f) eq_refl).
  - destruct c as [g|g|g tn' a0]; simpl; auto.
    destruct (String.eqb tn' tn && list_string_eqb f g) eqn:Hm; auto.
    apply andb_prop in Hm as [_ Hfg]. apply list_string_eqb_eq in Hfg. subst g.
    now exists a0.
Qed.

Lemma translate_ok (pairs : list (string * string)) (r acc : row) :
  (forall k1 k2, In (k1, k2) pairs -> exists v, Py.get k1 r = Some v) ->
  exists sc, translate pairs (Some r) acc = Ok sc.
Proof.
  revert acc. induction pairs as [|[k1 k2] pairs IH]; intros acc Hall.
  - now exists acc.
  - simpl. destruct (Hall k1 k2 (or_introl eq_refl)) as [v ->].
    apply IH. intros k1' k2' Hin. apply (Hall k1' k2'). now right.
Qed.

Lemma project_ok (fields : list string) (r acc : row) :
  issubset fields r = true ->
  exists sc, project fields r acc = Ok sc /\
    forall k v, In (k, v) sc -> In (k, v) acc \/ (In k fields /\ Py.get k r = Some v).
Proof.
  revert acc. induction fields as [|f fields IH]; intros acc Hsub.
  - exists acc. split; [reflexivity|]. intros k v Hin. now left.
  - unfold issubset in Hsub. simpl in Hsub. apply andb_prop in Hsub as [Hf Hsub].
    apply mem_true_get in Hf as [w Hw]. simpl. rewrite Hw.
    destruct (IH (Py.set f w acc) Hsub) as [sc [Hsc Hin]].
    exists sc. split; [exact Hsc|].
    intros k v Hkv. destruct (Hin k v Hkv) as [Hacc|[Hk Hget]].
    + apply in_set in Hacc as [[-> ->]|Hacc]; [right|now left].
      split; [now left|exact Hw].
    + right. split; [now right|exact Hget].
Qed.

Section ConstraintFacts.
Variable check_schema : row -> value -> bool.
Variable utcnow : nat -> string.

(** Following a foreign key of a table whose foreign keys resolve, from a row
    that holds its fields, gives rows of the target and does not raise. *)
Lemma get_foreign_row_resolves (ts : TableStore) (t : Table) (f : list string)
    (tn : string) (a : list string) (r : row) :
  foreign_keys_resolve ts t = true ->
  In (foreign_key f tn a) (_constraints t) ->
  issubset f r = true ->
  exists rows, get_foreign_row ts t None tn (Some f) (Some r) = Ok rows.
Proof.
  intros Hres Hin Hsub.
  unfold foreign_keys_resolve in Hres. rewrite forallb_forall in Hres.
  specialize (Hres _ Hin). cbn in Hres.
  apply andb_prop in Hres as [Hres Hft]. apply andb_prop in Hres as [Hts Hf].
  destruct (find_relation_in _ _ _ _ Hin) as [a' Hrel].
  unfold get_foreign_row, row_or_get.
  destruct r as [|kv r].
  - destruct f as [|k f]; [discriminate|].
    unfold issubset in Hsub. cbn in Hsub. discriminate.
  - cbn [bind]. rewrite Hrel, Hts.
    destruct (get_table ts tn) as [ft|e]; [|discriminate]. cbn [bind].
    destruct (translate_ok (combine f a') (kv :: r) []) as [sc Hsc].
    { intros k1 k2 Hk. apply in_combine_l in Hk.
      rewrite issubset_forall in Hsub. auto. }
    eexists. rewrite Hsc. reflexivity.
Qed.

(** A row that repeats the values of an admitted row on the fields of a
    unique constraint does not get through the constraints. *)
Lemma check_constraints_unique (ts : TableStore) (t : Table) (F : list string)
    (r r1 : row) (cs : list constraint) :
  foreign_keys_resolve ts t = true ->
  incl cs (_constraints t) ->
  In (unique F) cs ->
  In r1 (values (_rows t)) ->
  (forall k, In k F -> exists v1 v, Py.get k r1 = Some v1 /\ Py.get k r = Some v
                                    /\ Py.eqb v1 v = true) ->
  check_constraints ts t cs r = Raise ConstraintError.
Proof.
  intros Hres Hincl Huniq Hr1 Hagree.
  induction cs as [|c cs IH]; [contradiction|].
  assert (Hincl' : incl cs (_constraints t)).
  { intros x Hx. apply Hincl. now right. }
  destruct Huniq as [->|Huniq].
  - (* the constraint that is violated *)
    cbn [check_constraints].
    assert (Hsub : issubset F r = true).
    { apply issubset_forall. intros k Hk.
      destruct (Hagree k Hk) as [v1 [v [_ [Hv _]]]]. eauto. }
    rewrite Hsub.
    destruct (project_ok F r [] Hsub) as [sc [Hsc Hin]]. rewrite Hsc. cbn [bind].
    assert (Hfound : In r1 (find t (Some sc))).
    { unfold find. apply filter_In. split; [exact Hr1|].
      unfold row_matches. apply forallb_forall. intros [k v] Hkv.
      destruct (Hin k v Hkv) as [[]|[Hk Hget]]. cbn [fst snd].
      destruct (Hagree k Hk) as [v1 [v' [Hv1 [Hv' Heq]]]].
      rewrite Hv1. congruence. }
    destruct (find t (Some sc)); [contradiction|reflexivity].
  - specialize (IH Hincl' Huniq).
    cbn [check_constraints].
    destruct c as [f|f|f tn a].
    + destruct (issubset f r); cbn [bind]; [exact IH|reflexivity].
    + destruct (issubset f r) eqn:Hsub; cbn [bind]; [|reflexivity].
      destruct (project_ok f r [] Hsub) as [sc [-> _]]. cbn [bind].
      destruct (Nat.eqb _ 0); cbn [bind]; [exact IH|reflexivity].
    + destruct (issubset f r) eqn:Hsub; cbn [bind]; [|exact IH].
      destruct (get_foreign_row_resolves ts t f tn a r Hres
                  (Hincl _ (or_introl eq_refl)) Hsub) as [rows ->].
      cbn [bind]. destruct (negb _); cbn [bind]; [exact IH|reflexivity].
Qed.

(** C5: on a table with a unique constraint on the fields [F] that holds a
    row [r1], adding a row [r2] that has the values of [r1] on every field of
    [F] fails with [ConstraintError], and the rows of the table are what
    they were. The table is a [Table] whose foreign keys can be followed,
    and [r2] is a dict. *)
Theorem unique_violation_rejected (ts : TableStore) (t : Table) (F : list string)
    (r1 r2 : row) (check_only : bool) (tick : nat) :
  cls t = ClsTable ->
  foreign_keys_resolve ts t = true ->
  is_dict r2 = true ->
  In (unique F) (_constraints t) ->
  In r1 (values (_rows t)) ->
  (forall k, In k F -> exists v1 v2, Py.get k r1 = Some v1 /\ Py.get k r2 = Some v2
                                     /\ Py.eqb v1 v2 = true) ->
  result (add check_schema utcnow ts t r2 check_only tick) = Raise ConstraintError
  /\ _rows (self (add check_schema utcnow ts t r2 check_only tick)) = _rows t.
Proof.
  intros Hcls Hres Hdict Huniq Hr1 Hagree.
  unfold add. rewrite Hcls. unfold Table_add.
  destruct (_get_default_values utcnow t tick) as [target_row tick'].
  assert (Hcheck : _check_row check_schema ts t (Py.update target_row r2)
                   = Raise ConstraintError).
  { unfold _check_row.
    rewrite check_constraints_unique with (F := F) (r1 := r1);
      auto using incl_refl.
    intros k Hk. destruct (Hagree k Hk) as [v1 [v2 [Hv1 [Hv2 Heq]]]].
    exists v1, v2. repeat split; auto.
    rewrite get_update by exact Hdict. now rewrite Hv2. }
  rewrite Hcheck. split; reflexivity.
Qed.

End ConstraintFacts.

Lemma unique_violation_rejected_witness :
  result (add Examples.accept_all Examples.seconds Examples.shop
              Examples.users_with_ann
              [("id", VStr "u2"); ("email", VStr "ann@example.org")] false 0)
  = Raise ConstraintError
  /\ _rows (self (add Examples.accept_all Examples.seconds Examples.shop
                      Examples.users_with_ann
                      [("id", VStr "u2"); ("email", VStr "ann@example.org")] false 0))
     = _rows Examples.users_with_ann.
Proof.
  apply (unique_violation_rejected Examples.accept_all Examples.seconds
           Examples.shop Examples.users_with_ann ["email"]
           [("id", VStr "u1"); ("email", VStr "ann@example.org")]).
  - reflexivity.
  - reflexivity.
  - reflexivity.
  - simpl. auto.
  - simpl. auto.
  - intros k [<-|[]]. exists (VStr "ann@example.org"), (VStr "ann@example.org").
    repeat split; reflexivity.
Defined.

(** ** Document tables *)

Section DocumentFacts.
Variable check_schema : row -> value -> bool.
Variable utcnow : nat -> string.

(** Under [check_only] the [finally] clause of [SingleRowTable.add] raises
    after the rows were cleared: the table is left without a row. *)
Lemma SingleRowTable_add_check_only (ts : TableStore) (t : Table) (r : row)
    (tick : nat) :
  cls t = ClsSingleRowTable ->
  result (add check_schema utcnow ts t r true tick) = Raise AttributeError
  /\ _rows (self (add check_schema utcnow ts t r true tick)) = [].
Proof.
  intros Hcls. unfold add. rewrite Hcls. unfold SingleRowTable_add.
  cbn [result self]. split; [reflexivity|].
  unfold Table_add. destruct (_get_default_values _ _ _) as [d n].
  destruct (_check_row _ _ _ _); reflexivity.
Qed.

(** An [add] that fails leaves the table without a row as well. *)
Lemma SingleRowTable_add_failed (ts : TableStore) (t : Table) (r : row)
    (tick : nat) (e : exn) :
  cls t = ClsSingleRowTable ->
  result (add check_schema utcnow ts t r false tick) = Raise e ->
  _rows (self (add check_schema utcnow ts t r false tick)) = [].
Proof.
  intros Hcls. unfold add. rewrite Hcls. unfold SingleRowTable_add, Table_add.
  destruct (_get_default_values _ _ _) as [d n].
  destruct (_check_row _ _ _ _); cbn; [discriminate|reflexivity].
Qed.

(** An [add] that succeeds replaces whatever row there was: the table holds
    the new row and nothing else. *)
Lemma SingleRowTable_add_replaces (ts : TableStore) (t : Table) (r r' : row)
    (tick : nat) :
  cls t = ClsSingleRowTable ->
  result (add check_schema utcnow ts t r false tick) = Ok r' ->
  _rows (self (add check_schema utcnow ts t r false tick)) = [("", r')].
Proof.
  intros Hcls. unfold add. rewrite Hcls. unfold SingleRowTable_add, Table_add.
  destruct (_get_default_values _ _ _) as [d n].
  destruct (_check_row _ _ _ _) as [k|e'] eqn:Hcheck; cbn; [|discriminate].
  intros [= <-]. unfold _check_row in Hcheck.
  destruct (check_constraints _ _ _ _); [|discriminate]. cbn [bind] in Hcheck.
  destruct (check_schema _ _); [|discriminate].
  unfold _canonicalize_key in Hcheck. cbn [cls set_rows] in Hcheck.
  rewrite Hcls in Hcheck. cbn in Hcheck. injection Hcheck as <-. reflexivity.
Qed.

(** The constructor seeds one empty row when the validator accepts it. *)
Lemma SingleRowTable__init__one_row (ts : TableStore) (name : string)
    (attached : bool) (tick : nat) (t : Table) :
  fst (SingleRowTable__init__ check_schema utcnow ts name attached tick) = Ok t ->
  _rows t = [("", [])].
Proof.
  unfold SingleRowTable__init__.
  destruct (Table__init__ ClsSingleRowTable name attached) as [t0|e] eqn:Hinit;
    [|discriminate].
  assert (Hcls : cls t0 = ClsSingleRowTable).
  { unfold Table__init__ in Hinit. destruct (_ && _); [discriminate|].
    now injection Hinit as <-. }
  assert (Hdef : _default_values t0 = []).
  { unfold Table__init__ in Hinit. destruct (_ && _); [discriminate|].
    now injection Hinit as <-. }
  pose proof (fun r' => @SingleRowTable_add_replaces ts t0 [] r' tick Hcls) as Hrep.
  unfold add in Hrep. rewrite Hcls in Hrep.
  destruct (result (SingleRowTable_add _ _ _ _ _ _ _)) as [r'|e] eqn:Hres;
    cbn [fst]; [|discriminate].
  intros Heq.
  assert (Ht : t = self (SingleRowTable_add check_schema utcnow ts t0 [] false tick))
    by congruence.
  rewrite Ht, (Hrep r' eq_refl). f_equal. f_equal.
  unfold SingleRowTable_add, Table_add, _get_default_values in Hres.
  cbn [_default_values set_rows] in Hres. rewrite Hdef in Hres. cbn in Hres.
  destruct (_check_row _ _ _ _); cbn in Hres; congruence.
Qed.

End DocumentFacts.

(** C7, at an input where the code departs from it: a document table holds
    one row after construction; a call of [add] with [check_only] ends in
    [AttributeError] and leaves it without any row. *)
Theorem document_check_only_loses_row :
  List.length (_rows Examples.document) = 1 /\
  result (add Examples.accept_all Examples.seconds Examples.empty_store
              Examples.document [] true 0) = Raise AttributeError /\
  _rows (self (add Examples.accept_all Examples.seconds Examples.empty_store
                   Examples.document [] true 0)) = [].
Proof. repeat split; reflexivity. Qed.

(** ** Foreign rows *)

(** The loop of [get_foreign_row] stops at the first of the relations. *)
Lemma find_relation_first (cs : list constraint) (tn : string)
    (fkf : option (list string)) :
  find_relation cs tn fkf =
  match filter (is_relation tn fkf) cs with
  | foreign_key f _ a :: _ => Some (f, a)
  | _ => None
  end.
Proof.
  induction cs as [|c cs IH]; [reflexivity|].
  destruct c as [g|g|g tn' a]; cbn [find_relation filter is_relation]; auto.
  destruct (String.eqb tn' tn && _); auto.
Qed.

(** C8, as the specification words it, fails on a table with two foreign
    keys to the target: called without a field set, [get_foreign_row] does
    not fail, it follows the foreign key declared first. *)
Lemma two_relations_not_ambiguous :
  List.length (relations_to Examples.orders_two_keys "users" None) = 2 /\
  get_foreign_row Examples.market Examples.orders_two_keys
                  (Some [("id", VStr "o1")]) "users" None None
  = Ok [[("id", VStr "u1")]].
Proof. split; reflexivity. Qed.

(** C8, amended: [get_foreign_row] follows the first foreign-key constraint
    to the named table (the first one on the given fields when a field set
    is given), however many there are. With no such constraint the call
    fails, with [TableError] when the row itself was fetched. With one, when
    the row was found and holds the local fields and the target table is
    there, the call translates the local fields through the alias mapping
    and returns what [find] gives on the target table. *)
Theorem get_foreign_row_resolution (ts : TableStore) (t : Table)
    (primary_key : option row) (table_name : string)
    (foreign_key_fields : option (list string)) (_row : option row) :
  (relations_to t table_name foreign_key_fields = [] ->
   exists e,
     get_foreign_row ts t primary_key table_name foreign_key_fields _row = Raise e
     /\ (is_Ok (row_or_get t primary_key _row) = true -> e = TableError))
  /\
  (forall f tn a rest r ft,
     relations_to t table_name foreign_key_fields = foreign_key f tn a :: rest ->
     row_or_get t primary_key _row = Ok (Some r) ->
     _table_store t = true ->
     get_table ts table_name = Ok ft ->
     issubset f r = true ->
     exists search_criteria,
       translate (combine f a) (Some r) [] = Ok search_criteria
       /\ get_foreign_row ts t primary_key table_name foreign_key_fields _row
          = Ok (find ft (Some search_criteria))).
Proof.
  unfold relations_to, get_foreign_row. rewrite find_relation_first. split.
  - intros ->. destruct (row_or_get t primary_key _row) as [r|e]; cbn [bind].
    + exists TableError. split; reflexivity.
    + exists e. split; [reflexivity|discriminate].
  - intros f tn a rest r ft -> -> -> -> Hsub. cbn [bind].
    destruct (translate_ok (combine f a) r []) as [sc Hsc].
    { intros k1 k2 Hk. apply in_combine_l in Hk.
      rewrite issubset_forall in Hsub. auto. }
    exists sc. split; [exact Hsc|]. now rewrite Hsc.
Qed.

Lemma get_foreign_row_resolution_witness :
  exists search_criteria,
    translate (combine ["buyer"] ["id"])
              (Some [("id", VStr "o1"); ("buyer", VStr "u1"); ("seller", VStr "u2")]) []
    = Ok search_criteria
    /\ get_foreign_row Examples.market Examples.orders_two_keys
                       (Some [("id", VStr "o1")]) "users" None None
       = Ok (find Examples.two_users (Some search_criteria)).
Proof.
  apply (proj2 (get_foreign_row_resolution Examples.market Examples.orders_two_keys
                  (Some [("id", VStr "o1")]) "users" None None)
          ["buyer"] "users" ["id"] [foreign_key ["seller"] "users" ["id"]]);
    reflexivity.
Defined.

(** ** The metadata row *)

Lemma eqb_VStr (v : value) (s : string) : Py.eqb v (VStr s) = true -> v = VStr s.
Proof.
  destruct v; simpl; try discriminate.
  intros Heq. apply String.eqb_eq in Heq. now subst.
Qed.

Lemma nth_error_list_set_same {A} (l : list A) (i : nat) (x : A) :
  i < List.length l -> nth_error (list_set i x l) i = Some x.
Proof.
  revert i. induction l as [|y l IH]; intros [|i] Hlt; simpl in *; try lia; auto.
  apply IH. lia.
Qed.

Lemma nth_error_list_set_other {A} (l : list A) (i j : nat) (x : A) :
  i <> j -> nth_error (list_set i x l) j = nth_error l j.
Proof.
  revert i j. induction l as [|y l IH]; intros [|i] [|j] Hne; simpl; auto; try lia.
Qed.

Lemma find_table_meta_app (entries : list value) (e : value) (name : string) (k : nat) :
  find_table_meta (entries ++ [e]) name k =
  match find_table_meta entries name k with
  | Ok None => find_table_meta [e] name (k + List.length entries)
  | x => x
  end.
Proof.
  revert k. induction entries as [|x entries IH]; intros k.
  - cbn [app List.length find_table_meta]. now rewrite Nat.add_0_r.
  - cbn [app List.length]. destruct x; try reflexivity.
    cbn [find_table_meta]. destruct (Py.get "table_name" d) as [v|]; [|reflexivity].
    destruct (Py.eqb v (VStr name)); [reflexivity|].
    rewrite IH. now replace (S k + List.length entries) with (k + S (List.length entries)) by lia.
Qed.

Lemma find_table_meta_found (entries : list value) (name : string) (k i : nat) :
  find_table_meta entries name k = Ok (Some i) ->
  k <= i /\ exists d v, nth_error entries (i - k) = Some (VDict d)
                        /\ Py.get "table_name" d = Some v
                        /\ Py.eqb v (VStr name) = true.
Proof.
  revert k. induction entries as [|x entries IH]; intros k Hfind; [discriminate|].
  destruct x; try discriminate. cbn [find_table_meta] in Hfind.
  destruct (Py.get "table_name" d) as [v|] eqn:Hv; [|discriminate].
  destruct (Py.eqb v (VStr name)) eqn:Heq.
  - injection Hfind as <-. split; [lia|]. rewrite Nat.sub_diag. exists d, v. auto.
  - destruct (IH _ Hfind) as [Hle [d' [v' [Hnth Hrest]]]]. split; [lia|].
    exists d', v'. split; [|exact Hrest].
    replace (i - k) with (S (i - S k)) by lia. exact Hnth.
Qed.

Lemma find_table_meta_list_set (entries : list value) (i : nat) (d d' : row)
    (name : string) (k : nat) :
  nth_error entries i = Some (VDict d) ->
  Py.get "table_name" d' = Py.get "table_name" d ->
  find_table_meta (list_set i (VDict d') entries) name k
  = find_table_meta entries name k.
Proof.
  revert i k. induction entries as [|x entries IH]; intros [|i] k Hnth Hname;
    try discriminate.
  - cbn in Hnth. injection Hnth as ->. cbn [list_set find_table_meta]. now rewrite Hname.
  - cbn in Hnth. cbn [list_set]. destruct x; try reflexivity.
    cbn [find_table_meta]. destruct (Py.get "table_name" d0); [|reflexivity].
    destruct (Py.eqb v (VStr name)); [reflexivity|]. now apply IH.
Qed.

Lemma row_md5_set_other (r : row) (key : string) (v : value) (name : string) :
  key <> "tables" -> row_md5 (Py.set key v r) name = row_md5 r name.
Proof.
  intros Hne. unfold row_md5. rewrite get_set_other; auto.
Qed.

Lemma tracked_set_other (r : row) (key : string) (v : value) (name : string) (i : nat) :
  key <> "tables" -> tracked r name i -> tracked (Py.set key v r) name i.
Proof.
  intros Hne [entries [Hget Hfind]]. exists entries.
  rewrite get_set_other; auto.
Qed.

(** Appending a zeroed record changes no recorded checksum. *)
Lemma row_md5_append (r : row) (entries : list value) (name n' : string) :
  Py.get "tables" r = Some (VList entries) ->
  row_md5 (Py.set "tables" (VList (entries ++ [zeroed_record name])) r) n'
  = row_md5 r n'.
Proof.
  intros Hget. unfold row_md5. rewrite get_set_same, Hget, find_table_meta_app.
  destruct (find_table_meta entries n' 0) as [[j|]|e] eqn:Hfind; try reflexivity.
  - destruct (find_table_meta_found _ _ _ Hfind) as [_ [d [v [Hnth _]]]].
    rewrite Nat.sub_0_r in Hnth.
    rewrite nth_error_app1 by (apply nth_error_Some; congruence). reflexivity.
  - cbn [find_table_meta zeroed_record Py.get]. cbn.
    destruct (String.eqb name n'); [|reflexivity].
    rewrite nth_error_app2 by lia. rewrite Nat.sub_diag. reflexivity.
Qed.

Lemma tracked_append (r : row) (entries : list value) (name : string) :
  Py.get "tables" r = Some (VList entries) ->
  find_table_meta entries name 0 = Ok None ->
  tracked (Py.set "tables" (VList (entries ++ [zeroed_record name])) r) name
          (List.length entries).
Proof.
  intros Hget Hfind. eexists. split; [apply get_set_same|].
  rewrite find_table_meta_app, Hfind. cbn. now rewrite String.eqb_refl.
Qed.

(** Writing a field other than the name into the record of [name] keeps the
    records where they are; it changes the recorded checksum of [name] when
    the field is ['md5'], and no other. *)
Lemma set_entry_tracked (r r1 : row) (i : nat) (key : string) (v : value)
    (name : string) :
  key <> "table_name" ->
  tracked r name i ->
  set_entry r i key v = Some r1 ->
  tracked r1 name i
  /\ (forall k, k <> "tables" -> Py.get k r1 = Py.get k r)
  /\ (forall n', n' <> name -> row_md5 r1 n' = row_md5 r n')
  /\ row_md5 r1 name = (if String.eqb key "md5" then v else row_md5 r name).
Proof.
  intros Hkey [entries [Hget Hfind]] Hset. unfold set_entry in Hset.
  rewrite Hget in Hset.
  destruct (nth_error entries i) as [[ | | | |l|d]|] eqn:Hnth; try discriminate.
  injection Hset as <-.
  assert (Hname : Py.get "table_name" (Py.set key v d) = Py.get "table_name" d).
  { apply get_set_other. congruence. }
  assert (Hlt : i < List.length entries) by (apply nth_error_Some; congruence).
  split; [|split; [|split]].
  - eexists. split; [apply get_set_same|].
    erewrite find_table_meta_list_set by eassumption. exact Hfind.
  - intros k Hk. now apply get_set_other.
  - intros n' Hn'. unfold row_md5. rewrite get_set_same, Hget.
    erewrite find_table_meta_list_set by eassumption.
    destruct (find_table_meta entries n' 0) as [[j|]|e] eqn:Hfind'; try reflexivity.
    assert (Hij : i <> j).
    { intros <-.
      destruct (find_table_meta_found _ _ _ Hfind) as [_ [d1 [v1 [Hn1 [Hv1 He1]]]]].
      destruct (find_table_meta_found _ _ _ Hfind') as [_ [d2 [v2 [Hn2 [Hv2 He2]]]]].
      rewrite Nat.sub_0_r in Hn1, Hn2.
      assert (d1 = d2) by congruence. subst d2.
      assert (v1 = v2) by congruence. subst v2.
      apply eqb_VStr in He1, He2. congruence. }
    now rewrite nth_error_list_set_other.
  - unfold row_md5. rewrite get_set_same, Hget.
    erewrite find_table_meta_list_set by eassumption. rewrite Hfind.
    rewrite nth_error_list_set_same by exact Hlt. rewrite Hnth.
    destruct (String.eqb_spec key "md5") as [->|Hne].
    + now rewrite get_set_same.
    + rewrite get_set_other by congruence. reflexivity.
Qed.

(** ** The metadata table in the store *)

Lemma set_rows_same (t : Table) : set_rows t (_rows t) = t.
Proof. now destruct t. Qed.

Lemma meta_get_inv (ts : TableStore) (r : row) :
  meta_get ts = Ok (Some r) ->
  exists mt k rest,
    Py.get TS_META_TABLENAME (_tables ts) = Some mt
    /\ cls mt = ClsSingleRowTable
    /\ _rows mt = (k, r) :: rest.
Proof.
  unfold meta_get, get_table.
  destruct (Py.get TS_META_TABLENAME (_tables ts)) as [mt|] eqn:Hmt; [|discriminate].
  cbn [bind]. destruct (cls mt) eqn:Hcls; [discriminate|].
  unfold SingleRowTable_get, values.
  destruct (_rows mt) as [|[k r0] rest] eqn:Hrows; [discriminate|].
  cbn. intros [= <-]. now exists mt, k, rest.
Qed.

Lemma meta_get_put (ts : TableStore) (r r' : row) :
  meta_get ts = Ok (Some r) -> meta_get (meta_put ts r') = Ok (Some r').
Proof.
  intros Hget. destruct (meta_get_inv _ Hget) as [mt [k [rest [Hmt [Hcls Hrows]]]]].
  unfold meta_put. rewrite Hmt. unfold meta_get, get_table. cbn [_tables set_tables].
  rewrite get_set_same. cbn [bind]. unfold set_first_row. rewrite Hrows.
  cbn [cls set_rows]. rewrite Hcls. reflexivity.
Qed.

Lemma same_but_rows_refl (nt : string * Table) : same_but_rows nt nt.
Proof.
  split; [reflexivity|]. exists (_rows (snd nt)). now rewrite set_rows_same.
Qed.

Lemma same_but_rows_trans (a b c : string * Table) :
  same_but_rows a b -> same_but_rows b c -> same_but_rows a c.
Proof.
  intros [Hk1 [rows1 [H1 Hr1]]] [Hk2 [rows2 [H2 Hr2]]].
  split; [congruence|]. exists rows2. split.
  - rewrite H2, H1. reflexivity.
  - intros Hne. rewrite Hr2 by congruence. rewrite H1. cbn. now apply Hr1.
Qed.

Lemma meta_only_refl (ts : TableStore) : meta_only ts ts.
Proof.
  unfold meta_only. generalize (_tables ts). intros l.
  induction l; constructor; auto using same_but_rows_refl.
Qed.

Lemma meta_only_trans (ts ts1 ts2 : TableStore) :
  meta_only ts ts1 -> meta_only ts1 ts2 -> meta_only ts ts2.
Proof.
  unfold meta_only. generalize (_tables ts) (_tables ts1) (_tables ts2).
  intros l l1 l2 H1. revert l2.
  induction H1 as [|x y l l1 Hxy H1 IH]; intros l2 H2; inversion H2; subst;
    constructor; eauto using same_but_rows_trans.
Qed.

(** What [meta_only] keeps: the names, the tables other than the metadata
    table, and every attribute of the metadata table but its rows. *)
Lemma meta_only_facts (ts ts1 : TableStore) :
  meta_only ts ts1 ->
  keys (_tables ts1) = keys (_tables ts)
  /\ (forall n, n <> TS_META_TABLENAME ->
                Py.get n (_tables ts1) = Py.get n (_tables ts))
  /\ (forall mt, Py.get TS_META_TABLENAME (_tables ts) = Some mt ->
                 exists rows1, Py.get TS_META_TABLENAME (_tables ts1)
                               = Some (set_rows mt rows1)).
Proof.
  unfold meta_only. generalize (_tables ts) (_tables ts1). intros l l1 H.
  induction H as [|[k t] [k1 t1] l l1 [Hk [rows1 [Ht Hr]]] H [IHk [IHo IHm]]].
  - split; [reflexivity|]. split; [reflexivity|]. intros mt [=].
  - cbn [fst snd] in *. subst k1. split; [|split].
    + unfold keys in *. cbn. f_equal. exact IHk.
    + intros n Hn. cbn [Py.get]. destruct (String.eqb_spec n k) as [->|Hne].
      * rewrite Ht, (Hr Hn). now rewrite set_rows_same.
      * now apply IHo.
    + intros mt. cbn [Py.get].
      destruct (String.eqb_spec TS_META_TABLENAME k) as [<-|Hne].
      * intros [= ->]. exists rows1. now rewrite Ht.
      * apply IHm.
Qed.

Lemma meta_only_set (l : list (string * Table)) (mt : Table) (rows1 : dict row) :
  Py.get TS_META_TABLENAME l = Some mt ->
  Forall2 same_but_rows l (Py.set TS_META_TABLENAME (set_rows mt rows1) l).
Proof.
  induction l as [|[k t] l IH]; [discriminate|].
  cbn [Py.get Py.set]. destruct (String.eqb_spec TS_META_TABLENAME k) as [<-|Hne].
  - intros [= ->]. constructor.
    + split; [reflexivity|]. exists rows1. cbn. split; [reflexivity|congruence].
    + clear IH. induction l; constructor; auto using same_but_rows_refl.
  - intros Hget. constructor; [apply same_but_rows_refl|auto].
Qed.

Lemma meta_only_put (ts : TableStore) (r' : row) : meta_only ts (meta_put ts r').
Proof.
  unfold meta_put.
  destruct (Py.get TS_META_TABLENAME (_tables ts)) as [mt|] eqn:Hmt;
    [|apply meta_only_refl].
  unfold meta_only. cbn [_tables set_tables]. unfold set_first_row.
  destruct (_rows mt) as [|[k r0] rest] eqn:Hrows.
  - pose proof (meta_only_set (_tables ts) (_rows mt) Hmt) as Hset.
    rewrite set_rows_same in Hset. exact Hset.
  - now apply meta_only_set.
Qed.

Lemma meta_only_get_table (ts ts1 : TableStore) (n : string) :
  meta_only ts ts1 -> n <> TS_META_TABLENAME ->
  get_table ts1 n = get_table ts n.
Proof.
  intros Hmo Hn. destruct (meta_only_facts Hmo) as [_ [Ho _]].
  unfold get_table. now rewrite Ho.
Qed.

Lemma meta_getitem_get (ts : TableStore) (r : row) (key : string) :
  meta_get ts = Ok (Some r) ->
  meta_getitem ts key = match Py.get key r with
                        | Some v => Ok v
                        | None => Raise KeyError
                        end.
Proof.
  intros Hget. unfold meta_getitem. now rewrite Hget.
Qed.

Lemma meta_getitem_inv (ts : TableStore) (key : string) (v : value) :
  meta_getitem ts key = Ok v ->
  exists r, meta_get ts = Ok (Some r) /\ Py.get key r = Some v.
Proof.
  unfold meta_getitem. destruct (meta_get ts) as [[r|]|e]; try discriminate.
  cbn [bind]. destruct (Py.get key r) as [v'|] eqn:Hv; [|discriminate].
  intros [= <-]. now exists r.
Qed.

Section SaveFacts.
Variable utcnow : nat -> string.
Context {B : Type} {backend_of_B : Backend B}.

Lemma mbind_inv {A C} (m : M B A) (k : A -> M B C) (w w' : world B) (c : C) :
  mbind m k w = (w', Ok c) ->
  exists w1 a, m w = (w1, Ok a) /\ k a w1 = (w', Ok c).
Proof.
  unfold mbind. destruct (m w) as [w1 [a|e]]; [|discriminate].
  intros Hk. now exists w1, a.
Qed.

Lemma meta_setitem_inv (key : string) (v : value) (w w1 : world B) :
  meta_setitem key v w = (w1, Ok tt) ->
  exists r, meta_get (store w) = Ok (Some r)
            /\ w1 = set_store w (meta_put (store w) (Py.set key v r)).
Proof.
  unfold meta_setitem. destruct (meta_get (store w)) as [[r|]|e]; try discriminate.
  intros [= <-]. now exists r.
Qed.

Lemma get_table_metadata_inv (name : string) (w w1 : world B) (i : nat) :
  get_table_metadata name w = (w1, Ok i) ->
  exists r entries,
    meta_get (store w) = Ok (Some r)
    /\ Py.get "tables" r = Some (VList entries)
    /\ ((find_table_meta entries name 0 = Ok (Some i) /\ w1 = w)
        \/ (find_table_meta entries name 0 = Ok None
            /\ i = List.length entries
            /\ w1 = set_store w
                      (meta_put (store w)
                         (Py.set "tables"
                            (VList (entries ++ [zeroed_record name])) r)))).
Proof.
  unfold get_table_metadata.
  destruct (meta_getitem (store w) "tables") as [v|e] eqn:Hitem; [|discriminate].
  destruct (meta_getitem_inv _ _ Hitem) as [r [Hget Hv]].
  destruct v; try discriminate.
  destruct (find_table_meta l name 0) as [[j|]|e] eqn:Hfind; try discriminate.
  - intros [= <- <-]. exists r, l. auto.
  - rewrite Hget. intros [= <- <-]. exists r, l. auto 6.
Qed.

Lemma table_meta_getitem_inv (ts : TableStore) (i : nat) (key : string) (v : value) :
  table_meta_getitem ts i key = Ok v ->
  exists r entries d,
    meta_get ts = Ok (Some r)
    /\ Py.get "tables" r = Some (VList entries)
    /\ nth_error entries i = Some (VDict d)
    /\ Py.get key d = Some v.
Proof.
  unfold table_meta_getitem.
  destruct (meta_getitem ts "tables") as [tabs|e] eqn:Hitem; [|discriminate].
  destruct (meta_getitem_inv _ _ Hitem) as [r [Hget Hv]]. cbn [bind].
  destruct tabs; try discriminate.
  destruct (nth_error l i) as [[ | | | |l'|d]|] eqn:Hnth; try discriminate.
  destruct (Py.get key d) as [v'|] eqn:Hkey; [|discriminate].
  intros [= <-]. now exists r, l, d.
Qed.

Lemma table_meta_setitem_inv (i : nat) (key : string) (v : value) (w w1 : world B) :
  table_meta_setitem i key v w = (w1, Ok tt) ->
  exists r r1,
    meta_get (store w) = Ok (Some r)
    /\ set_entry r i key v = Some r1
    /\ w1 = set_store w (meta_put (store w) r1).
Proof.
  unfold table_meta_setitem, set_entry.
  destruct (meta_get (store w)) as [[r|]|e]; try discriminate.
  destruct (Py.get "tables" r) as [[ | | | |entries|]|] eqn:Ht; try discriminate.
  destruct (nth_error entries i) as [[ | | | |l'|d]|] eqn:Hn; try discriminate.
  intros [= <-]. eexists r, _. rewrite Ht, Hn. repeat split; reflexivity.
Qed.

End SaveFacts.

(** ** What one [Table.save] does to the metadata *)

Ltac split_and := repeat match goal with |- _ /\ _ => split end.

Section TableSaveFacts.
Variable utcnow : nat -> string.
Context {B : Type} {backend_of_B : Backend B}.

Lemma meta_step (w : world B) (r r' : row) :
  meta_get (store w) = Ok (Some r) ->
  let w' := set_store w (meta_put (store w) r') in
  meta_get (store w') = Ok (Some r')
  /\ meta_only (store w) (store w')
  /\ ticks w' = ticks w /\ backend w' = backend w.
Proof.
  intros Hget. cbn.
  split; [exact (meta_get_put _ r' Hget)|].
  split; [apply meta_only_put|]. split; reflexivity.
Qed.

(** A [Table.save] that returns: it wrote the files of the table, and in the
    metadata row it left the version alone, recorded the checksum of the
    table, touched the record of no other name, and stamped the store when
    the checksum was new and the table is not a system table. *)
Lemma Table_save_inv (tn : string) (w w1 : world B) :
  Table_save utcnow tn w = (w1, Ok tt) ->
  exists t cs r r1,
    get_table (store w) tn = Ok t
    /\ _save_table_data t (backend w) = (backend w1, Ok cs)
    /\ meta_get (store w) = Ok (Some r)
    /\ meta_get (store w1) = Ok (Some r1)
    /\ meta_only (store w) (store w1)
    /\ ticks w <= ticks w1
    /\ Py.get "version" r1 = Py.get "version" r
    /\ (forall n', n' <> _table_name t -> row_md5 r1 n' = row_md5 r n')
    /\ row_md5 r1 (_table_name t) = VStr cs
    /\ Py.get "last_modified" r1 =
         (if Py.eqb (row_md5 r (_table_name t)) (VStr cs)
          then Py.get "last_modified" r
          else if _is_system_table t then Py.get "last_modified" r
          else Some (VStr (utcnow (S (ticks w))))).
Proof.
  unfold Table_save. intros Hsave.
  apply mbind_inv in Hsave as [w0 [t [Ht Hsave]]].
  injection Ht as <- Ht.
  apply mbind_inv in Hsave as [wa [cs [Hdata Hsave]]].
  destruct (_save_table_data t (backend w)) as [b rcs] eqn:Hsd.
  injection Hdata as <- ->.
  apply mbind_inv in Hsave as [w0 [[] [Hts Hsave]]].
  destruct (_table_store t); [|discriminate]. injection Hts as <-.
  apply mbind_inv in Hsave as [w0 [m0 [Hm0 Hsave]]].
  injection Hm0 as <- _.
  apply mbind_inv in Hsave as [wb [i [Hmeta Hsave]]].
  apply mbind_inv in Hsave as [w0 [md5 [Hmd5 Hsave]]].
  injection Hmd5 as <- Hmd5.
  apply get_table_metadata_inv in Hmeta as [r [entries [Hr [Htabs Hcase]]]].
  cbn [store set_backend] in Hr.
  (* the metadata row once the record is there *)
  assert (Hra : exists ra,
             meta_get (store wb) = Ok (Some ra)
             /\ meta_only (store w) (store wb)
             /\ ticks wb = ticks w /\ backend wb = b
             /\ tracked ra (_table_name t) i
             /\ (forall k, k <> "tables" -> Py.get k ra = Py.get k r)
             /\ (forall n', row_md5 ra n' = row_md5 r n')).
  { destruct Hcase as [[Hfind ->]|[Hfind [-> ->]]].
    - exists r. cbn [store set_backend ticks backend].
      split_and; auto using meta_only_refl. now exists entries.
    - eexists.
      destruct (meta_step (set_backend w b)
                  (Py.set "tables" (VList (entries ++ [zeroed_record (_table_name t)])) r)
                  Hr) as [Hg [Ho [Htk Hbk]]].
      split; [exact Hg|]. split; [exact Ho|]. split; [exact Htk|]. split; [exact Hbk|].
      split; [now apply tracked_append|]. split.
      + intros k Hk. now apply get_set_other.
      + intros n'. now apply row_md5_append. }
  destruct Hra as [ra [Hga [Hoa [Htka [Hbka [Htr [Hka Hma]]]]]]].
  (* the checksum that is read is the recorded one *)
  apply table_meta_getitem_inv in Hmd5 as [ra' [entries' [d [Hga' [Htabs' [Hnth Hd]]]]]].
  assert (ra' = ra) by congruence. subst ra'.
  assert (Hrec : row_md5 ra (_table_name t) = md5).
  { destruct Htr as [entries2 [Hget2 Hfind2]].
    assert (entries2 = entries') by congruence. subst entries2.
    unfold row_md5. now rewrite Htabs', Hfind2, Hnth, Hd. }
  exists t, cs, r.
  destruct (Py.eqb md5 (VStr cs)) eqn:Heq; cbn [negb] in Hsave.
  - (* nothing new *)
    injection Hsave as <-. exists ra.
    rewrite <- (Hma (_table_name t)), Hrec, Heq.
    split_and; auto; try lia.
    + rewrite Hbka. exact Hsd.
    + apply Hka. discriminate.
    + now apply eqb_VStr.
    + apply Hka. discriminate.
  - (* a new checksum *)
    apply mbind_inv in Hsave as [wc [[] [Hset1 Hsave]]].
    apply table_meta_setitem_inv in Hset1 as [r0 [rb [Hg0 [Hsb ->]]]].
    assert (r0 = ra) by congruence. subst r0.
    assert (Hk1 : "md5" <> "table_name") by discriminate.
    assert (Hk2 : "last_modified" <> "table_name") by discriminate.
    destruct (@set_entry_tracked _ _ _ _ _ _ Hk1 Htr Hsb) as [Htrb [Hkb [Hob Hnb]]].
    destruct (meta_step wb rb Hga) as [Hgb [Hmob [Htkb Hbkb]]].
    apply mbind_inv in Hsave as [wd [now1 [Htick1 Hsave]]].
    unfold tick in Htick1. injection Htick1 as <- <-.
    apply mbind_inv in Hsave as [we [[] [Hset2 Hsave]]].
    apply table_meta_setitem_inv in Hset2 as [r0 [rc [Hg0' [Hsc ->]]]].
    cbn [store set_ticks] in Hg0'.
    assert (r0 = rb) by congruence. subst r0.
    destruct (@set_entry_tracked _ _ _ _ _ _ Hk2 Htrb Hsc) as [Htrc [Hkc [Hoc Hnc]]].
    cbn [String.eqb Ascii.eqb Bool.eqb] in Hnb, Hnc.
    set (wd := set_ticks (set_store wb (meta_put (store wb) rb)) (S (ticks wb))) in *.
    assert (Hgd : meta_get (store wd) = Ok (Some rb)) by exact Hgb.
    destruct (meta_step wd rc Hgd) as [Hgc [Hmoc [Htkc Hbkc]]].
    assert (Hmo_c : meta_only (store w) (store (set_store wd (meta_put (store wd) rc)))).
    { eapply meta_only_trans; [exact Hoa|].
      eapply meta_only_trans; [exact Hmob|exact Hmoc]. }
    rewrite <- (Hma (_table_name t)), Hrec, Heq.
    destruct (_is_system_table t) eqn:Hsys; cbn [negb] in Hsave.
    + injection Hsave as <-. exists rc.
      split_and; auto.
      * cbn [backend set_store set_ticks wd]. rewrite Hbka. exact Hsd.
      * cbn [ticks set_store set_ticks wd]. lia.
      * rewrite Hkc, Hkb, Hka; auto; discriminate.
      * intros n' Hn'. rewrite Hoc, Hob, Hma; auto.
      * now rewrite Hnc, Hnb.
      * rewrite Hkc, Hkb, Hka; auto; discriminate.
    + apply mbind_inv in Hsave as [wf [now2 [Htick2 Hsave]]].
      unfold tick in Htick2. injection Htick2 as <- <-.
      apply meta_setitem_inv in Hsave as [r0 [Hg0'' ->]].
      change (meta_get (store (set_store wd (meta_put (store wd) rc))) = Ok (Some r0))
        in Hg0''.
      assert (r0 = rc) by congruence. subst r0.
      set (we := set_ticks (set_store wd (meta_put (store wd) rc))
                           (S (ticks (set_store wd (meta_put (store wd) rc))))) in *.
      assert (Hge : meta_get (store we) = Ok (Some rc)) by exact Hgc.
      destruct (meta_step we (Py.set "last_modified"
                   (VStr (utcnow (ticks (set_store wd (meta_put (store wd) rc))))) rc) Hge)
        as [Hgf [Hmof [Htkf Hbkf]]].
      eexists. split; [exact Ht|]. split.
      { cbn [backend set_store set_ticks wd we]. rewrite Hbka. exact Hsd. }
      split; [exact Hr|]. split; [exact Hgf|].
      split. { eapply meta_only_trans; [exact Hmo_c|exact Hmof]. }
      split. { cbn [ticks set_store set_ticks wd we]. lia. }
      split. { rewrite get_set_other by discriminate.
               rewrite Hkc, Hkb, Hka; auto; discriminate. }
      split. { intros n' Hn'. rewrite row_md5_set_other by discriminate.
               rewrite Hoc, Hob, Hma; auto. }
      split. { rewrite row_md5_set_other by discriminate. now rewrite Hnc, Hnb. }
      rewrite get_set_same. cbn [ticks set_store set_ticks wd]. now rewrite Htka.
Qed.

End TableSaveFacts.

(** ** The files of a table *)

Lemma append_assoc (a b c : string) : (a ++ b) ++ c = a ++ (b ++ c).
Proof. induction a as [|x a IH]; simpl; [reflexivity|now rewrite IH]. Qed.

Lemma append_empty (a : string) : a ++ "" = a.
Proof. induction a as [|x a IH]; simpl; [reflexivity|now rewrite IH]. Qed.

Lemma contents_app (f g : list (string * string)) :
  contents (f ++ g) = contents f ++ contents g.
Proof.
  induction f as [|x f IH]; simpl; [reflexivity|].
  now rewrite IH, append_assoc.
Qed.

Section FileFacts.
Context {B : Type} {backend_of_B : Backend B}.

Lemma write_all_app (f g : list (string * string)) (b : B) :
  write_all (f ++ g) b = write_all g (write_all f b).
Proof. unfold write_all. apply fold_left_app. Qed.

Lemma save_rows_files (t : Table) (rs : list row) (w : writer B) :
  writes_as (save_rows t rs w) w (row_files t rs).
Proof.
  revert w. induction rs as [|r rs IH]; intros w.
  - cbn. rewrite append_empty. now destruct w.
  - cbn [save_rows row_files].
    destruct (get_filename t (Some r) false) as [fn|e]; [|reflexivity].
    cbn [bind]. destruct (orderly_row t r) as [d|e]; [|reflexivity].
    cbn [bind]. specialize (IH (save_data_check w fn (Json.dumps (VDict d)))).
    unfold writes_as in *. destruct (row_files t rs) as [fs|e]; cbn [bind].
    + rewrite IH. cbn. now rewrite append_assoc.
    + exact IH.
Qed.

Lemma save_groups_files (t : Table) (rowsets : list (list row)) (w : writer B) :
  writes_as (save_groups t rowsets w) w (group_files t rowsets).
Proof.
  revert w. induction rowsets as [|rowset rowsets IH]; intros w.
  - cbn. rewrite append_empty. now destruct w.
  - cbn [save_groups group_files].
    destruct (get_filename t (Some (hd [] rowset)) false) as [fn|e]; [|reflexivity].
    cbn [bind].
    specialize (IH (save_data_check w fn (Json.dumps (VList (map VDict rowset))))).
    unfold writes_as in *. destruct (group_files t rowsets) as [fs|e]; cbn [bind].
    + rewrite IH. cbn. now rewrite append_assoc.
    + exact IH.
Qed.

(** [_save_table_data] writes the files of the table and returns the hash of
    their contents; when it raises, it raises what computing the files
    raises. *)
Lemma save_table_data_files (t : Table) (b : B) :
  snd (_save_table_data t b) = content_checksum t
  /\ forall files, table_files t = Ok files ->
                   fst (_save_table_data t b) = write_all files b.
Proof.
  unfold _save_table_data, content_checksum, table_files.
  destruct (cls t).
  - unfold Table__save_table_data.
    destruct (truthy_fields (_group_by_fields t)).
    + set (rpf := match _group_by_fields t with
                  | Some g => list_string_eqb g (_pk_fields t)
                  | None => false
                  end).
      assert (Hbody : forall r body,
                 writes_as r (b, "") body ->
                 snd (match snd r with
                      | Raise e => (fst (fst r), Raise e)
                      | Ok _ =>
                          match index_of t (rows_sorted t) with
                          | Raise e => (fst (fst r), Raise e)
                          | Ok index =>
                              match get_filename t None true with
                              | Raise e => (fst (fst r), Raise e)
                              | Ok fn =>
                                  (fst (save_data_check (fst r) fn
                                          (Json.dumps (VList (map VDict index)))),
                                   Ok (Sha256.hexdigest
                                         (snd (save_data_check (fst r) fn
                                                (Json.dumps (VList (map VDict index)))))))
                              end
                          end
                      end)
                 = (files <- (body <- body ;;
                              index <- index_of t (rows_sorted t) ;;
                              fn <- get_filename t None true ;;
                              Ok (body ++ [(fn, Json.dumps (VList (map VDict index)))])%list) ;;
                    Ok (Sha256.hexdigest (contents files)))
                 /\ forall files,
                      (body <- body ;;
                       index <- index_of t (rows_sorted t) ;;
                       fn <- get_filename t None true ;;
                       Ok (body ++ [(fn, Json.dumps (VList (map VDict index)))])%list)
                      = Ok files ->
                      fst (match snd r with
                           | Raise e => (fst (fst r), Raise e)
                           | Ok _ =>
                               match index_of t (rows_sorted t) with
                               | Raise e => (fst (fst r), Raise e)
                               | Ok index =>
                                   match get_filename t None true with
                                   | Raise e => (fst (fst r), Raise e)
                                   | Ok fn =>
                                       (fst (save_data_check (fst r) fn
                                               (Json.dumps (VList (map VDict index)))),
                                        Ok (Sha256.hexdigest
                                              (snd (save_data_check (fst r) fn
                                                     (Json.dumps (VList (map VDict index)))))))
                                   end
                               end
                           end)
                      = write_all files b).
      { intros r body Hw. unfold writes_as in Hw.
        destruct body as [fs|e]; cbn [bind].
        - rewrite Hw. cbn [fst snd].
          destruct (index_of t (rows_sorted t)) as [index|e]; cbn [bind].
          + destruct (get_filename t None true) as [fn|e]; cbn [bind].
            * split.
              -- cbn. rewrite contents_app. cbn. now rewrite append_empty.
              -- intros files [= <-]. cbn. now rewrite write_all_app.
            * split; [reflexivity|discriminate].
          + split; [reflexivity|discriminate].
        - rewrite Hw. split; [reflexivity|discriminate]. }
      destruct rpf.
      * apply Hbody. apply save_rows_files.
      * destruct (group_rows t (rows_sorted t) []) as [group|e]; cbn [bind].
        -- apply Hbody. apply save_groups_files.
        -- split; [reflexivity|discriminate].
    + destruct (orderly_rows t (rows_sorted t)) as [rows|e]; cbn [bind].
      * destruct (get_filename t None false) as [fn|e]; cbn [bind].
        -- split; [cbn; now rewrite append_empty|]. now intros files [= <-].
        -- split; [reflexivity|discriminate].
      * split; [reflexivity|discriminate].
  - unfold SingleRowTable__save_table_data.
    destruct (get_filename t None false) as [fn|e]; cbn [bind].
    + split; [cbn; now rewrite append_empty|]. now intros files [= <-].
    + split; [reflexivity|discriminate].
Qed.

Lemma save_table_data_ok (t : Table) (b b' : B) (cs : string) :
  _save_table_data t b = (b', Ok cs) ->
  content_checksum t = Ok cs
  /\ exists files, table_files t = Ok files /\ b' = write_all files b.
Proof.
  intros Hsave. destruct (save_table_data_files t b) as [Hcs Hfiles].
  rewrite Hsave in Hcs, Hfiles. cbn [fst snd] in *. split; [now symmetry|].
  unfold content_checksum in Hcs. destruct (table_files t) as [files|e]; [|discriminate].
  exists files. split; [reflexivity|]. now apply Hfiles.
Qed.

End FileFacts.

(** ** A loop of saves *)

Lemma registered_meta_only (ts ts1 : TableStore) (n : string) :
  meta_only ts ts1 -> registered ts n -> registered ts1 n.
Proof.
  intros Hmo [t [Ht [Hname Hsys]]].
  destruct (string_dec n TS_META_TABLENAME) as [->|Hne].
  - destruct (meta_only_facts Hmo) as [_ [_ Hm]]. unfold get_table in Ht.
    destruct (Py.get TS_META_TABLENAME (_tables ts)) as [mt|] eqn:Hmt; [|discriminate].
    injection Ht as ->. destruct (Hm _ eq_refl) as [rows1 H1].
    exists (set_rows t rows1). unfold get_table. rewrite H1. auto.
  - exists t. rewrite (meta_only_get_table Hmo Hne). auto.
Qed.

Lemma stamps_meta_only (ts ts1 : TableStore) (r r1 : row) (n : string) :
  meta_only ts ts1 -> registered ts n -> row_md5 r1 n = row_md5 r n ->
  stamps ts1 r1 n = stamps ts r n.
Proof.
  intros Hmo Hreg Hmd5. unfold stamps.
  destruct (string_dec n TS_META_TABLENAME) as [->|Hne].
  - destruct (registered_meta_only Hmo Hreg) as [t1 [Ht1 [_ Hs1]]].
    destruct Hreg as [t [Ht [_ Hs]]].
    rewrite Ht, Ht1, (Hs eq_refl), (Hs1 eq_refl). reflexivity.
  - now rewrite (meta_only_get_table Hmo Hne), Hmd5.
Qed.

Lemma existsb_ext_in {A} (f g : A -> bool) (l : list A) :
  (forall x, In x l -> f x = g x) -> existsb f l = existsb g l.
Proof.
  induction l as [|x l IH]; intros Hfg; [reflexivity|].
  simpl. rewrite (Hfg x (or_introl eq_refl)), IH; [reflexivity|].
  intros y Hy. apply Hfg. now right.
Qed.

Section SaveLoop.
Variable utcnow : nat -> string.
Context {B : Type} {backend_of_B : Backend B}.

(** Saving the tables [ns] one after the other, when every save returns:
    the version is left alone; each table of the list other than the
    metadata table has its checksum recorded; the records of the other names
    are untouched; the store is stamped exactly when one of the saves
    stamps it, and then with a reading of the clock made during the loop. *)
Lemma for_each_Table_save (ns : list string) :
  forall (w w1 : world B) (r : row),
    for_each (Table_save utcnow) ns w = (w1, Ok tt) ->
    NoDup ns ->
    (forall n, In n ns -> registered (store w) n) ->
    meta_get (store w) = Ok (Some r) ->
    exists r1,
      meta_get (store w1) = Ok (Some r1)
      /\ meta_only (store w) (store w1)
      /\ ticks w <= ticks w1
      /\ Py.get "version" r1 = Py.get "version" r
      /\ (forall n', ~ In n' ns -> row_md5 r1 n' = row_md5 r n')
      /\ (forall n, In n ns -> n <> TS_META_TABLENAME ->
            exists t cs, get_table (store w) n = Ok t
                         /\ content_checksum t = Ok cs
                         /\ row_md5 r1 n = VStr cs)
      /\ (if existsb (stamps (store w) r) ns
          then exists k, ticks w < k
                         /\ Py.get "last_modified" r1 = Some (VStr (utcnow k))
          else Py.get "last_modified" r1 = Py.get "last_modified" r).
Proof.
  induction ns as [|n ns IH]; intros w w1 r Hloop Hnd Hreg Hmeta.
  - cbn in Hloop. injection Hloop as <-. exists r.
    cbn [existsb]. split_and; auto using meta_only_refl. intros n [].
  - cbn [for_each] in Hloop.
    apply mbind_inv in Hloop as [wa [[] [Hsave Hloop]]].
    apply Table_save_inv in Hsave
      as [t [cs [r0 [ra [Ht [Hsd [Hg0 [Hga [Hmo [Htk [Hver [Hoth [Hrec Hlm]]]]]]]]]]]]].
    assert (r0 = r) by congruence. subst r0.
    inversion Hnd as [|? ? Hnotin Hnd']; subst.
    destruct (Hreg n (or_introl eq_refl)) as [t' [Ht' [Hname Hsys]]].
    assert (t' = t) by congruence. subst t'.
    rewrite Hname in *.
    assert (Hreg' : forall n', In n' ns -> registered (store wa) n').
    { intros n' Hn'. apply (registered_meta_only Hmo). apply Hreg. now right. }
    destruct (IH wa w1 ra Hloop Hnd' Hreg' Hga)
      as [r1 [Hg1 [Hmo1 [Htk1 [Hver1 [Hoth1 [Hrec1 Hlm1]]]]]]].
    destruct (save_table_data_ok _ _ Hsd) as [Hcs _].
    exists r1. split; [exact Hg1|].
    split; [eapply meta_only_trans; eassumption|].
    split; [lia|]. split; [congruence|]. split; [|split].
    + intros n' Hn'. rewrite Hoth1 by (intros Hin; apply Hn'; now right).
      apply Hoth. intros ->. apply Hn'. now left.
    + intros n' [<-|Hin] Hne.
      * exists t, cs. split; [exact Ht|]. split; [exact Hcs|].
        now rewrite Hoth1.
      * destruct (Hrec1 n' Hin Hne) as [t1 [cs1 [Ht1 [Hcs1 Hr1]]]].
        exists t1, cs1. split; [|auto].
        now rewrite <- (meta_only_get_table Hmo Hne).
    + assert (Hsame : existsb (stamps (store wa) ra) ns = existsb (stamps (store w) r) ns).
      { apply existsb_ext_in. intros n' Hn'.
        apply stamps_meta_only; auto. { apply Hreg. now right. }
        apply Hoth. intros ->. contradiction. }
      cbn [existsb]. rewrite <- Hsame.
      destruct (existsb (stamps (store wa) ra) ns).
      * rewrite orb_true_r. destruct Hlm1 as [k [Hk Hlmk]]. exists k. split; [lia|exact Hlmk].
      * rewrite orb_false_r. rewrite Hlm1, Hlm. unfold stamps. rewrite Ht, Hcs.
        destruct (Py.eqb (row_md5 r n) (VStr cs)); cbn [negb];
          [now rewrite andb_false_r|].
        rewrite andb_true_r. destruct (_is_system_table t); cbn [negb]; [reflexivity|].
        exists (S (ticks w)). split; [lia|reflexivity].
Qed.

End SaveLoop.

(** ** Stores that are well formed *)

Lemma in_get_nodup {A} (l : list (string * A)) (k : string) (v : A) :
  NoDup (keys l) -> In (k, v) l -> Py.get k l = Some v.
Proof.
  induction l as [|[k' v'] l IH]; intros Hnd Hin; [contradiction|].
  cbn in Hnd. inversion Hnd as [|? ? Hk Hl]; subst. cbn [Py.get].
  destruct Hin as [[= -> ->]|Hin].
  - now rewrite String.eqb_refl.
  - destruct (String.eqb_spec k k') as [->|Hne]; [|auto].
    exfalso. apply Hk. change k' with (fst (k', v)). now apply in_map.
Qed.

Lemma store_wf_inv (ts : TableStore) :
  store_wf ts = true ->
  NoDup (keys (_tables ts))
  /\ (forall n t, In (n, t) (_tables ts) -> _table_name t = n)
  /\ exists m, Py.get TS_META_TABLENAME (_tables ts) = Some m
               /\ _is_system_table m = true.
Proof.
  unfold store_wf. intros Hwf.
  apply andb_prop in Hwf as [Hwf Hmeta]. apply andb_prop in Hwf as [Hdict Hnames].
  split; [now apply uniq_NoDup|]. split.
  - intros n t Hin. rewrite forallb_forall in Hnames.
    specialize (Hnames _ Hin). cbn in Hnames. now apply String.eqb_eq.
  - destruct (Py.get TS_META_TABLENAME (_tables ts)) as [m|]; [|discriminate].
    now exists m.
Qed.

Lemma wf_registered (ts : TableStore) (n : string) (t : Table) :
  store_wf ts = true -> In (n, t) (_tables ts) ->
  get_table ts n = Ok t /\ _table_name t = n
  /\ (n = TS_META_TABLENAME -> _is_system_table t = true).
Proof.
  intros Hwf Hin. destruct (store_wf_inv _ Hwf) as [Hnd [Hnames [m [Hm Hsys]]]].
  pose proof (in_get_nodup _ _ _ Hnd Hin) as Hget.
  split; [unfold get_table; now rewrite Hget|]. split; [eauto|].
  intros ->. congruence.
Qed.

Lemma tables_where_in (ts : TableStore) (flag : bool) (n : string) :
  In n (tables_where ts flag) <->
  exists t, In (n, t) (_tables ts) /\ _is_system_table t = flag.
Proof.
  unfold tables_where, keys. rewrite in_map_iff. split.
  - intros [[n' t] [<- Hin]]. apply filter_In in Hin as [Hin Hflag].
    exists t. split; [exact Hin|]. now apply Bool.eqb_prop.
  - intros [t [Hin Hflag]]. exists (n, t). split; [reflexivity|].
    apply filter_In. split; [exact Hin|]. cbn. rewrite Hflag. apply Bool.eqb_reflx.
Qed.

Lemma NoDup_keys_filter {A} (f : string * A -> bool) (l : list (string * A)) :
  NoDup (keys l) -> NoDup (keys (filter f l)).
Proof.
  unfold keys. induction l as [|x l IH]; intros Hnd; [constructor|].
  cbn in Hnd. inversion Hnd as [|? ? Hx Hl]; subst. cbn [filter].
  destruct (f x); auto. cbn. constructor; auto.
  intros Hin. apply Hx. apply in_map_iff in Hin as [y [Hy Hin]].
  apply filter_In in Hin as [Hin _]. rewrite <- Hy. now apply in_map.
Qed.

Lemma tables_where_wf (ts : TableStore) (flag : bool) :
  store_wf ts = true ->
  NoDup (tables_where ts flag)
  /\ forall n, In n (tables_where ts flag) -> registered ts n.
Proof.
  intros Hwf. destruct (store_wf_inv _ Hwf) as [Hnd _]. split.
  - now apply NoDup_keys_filter.
  - intros n Hn. apply tables_where_in in Hn as [t [Hin _]].
    exists t. now apply wf_registered.
Qed.

Lemma user_table_inv (ts : TableStore) (n : string) :
  store_wf ts = true -> In n (tables_where ts false) ->
  n <> TS_META_TABLENAME /\ ~ In n (tables_where ts true).
Proof.
  intros Hwf Hn. apply tables_where_in in Hn as [t [Hin Hflag]].
  destruct (wf_registered _ _ _ Hwf Hin) as [Hget [_ Hsys]]. split.
  - intros ->. rewrite (Hsys eq_refl) in Hflag. discriminate.
  - intros Hn'. apply tables_where_in in Hn' as [t' [Hin' Hflag']].
    destruct (wf_registered _ _ _ Hwf Hin') as [Hget' _]. congruence.
Qed.

Lemma meta_only_tables_where (ts ts1 : TableStore) (flag : bool) :
  meta_only ts ts1 -> tables_where ts1 flag = tables_where ts flag.
Proof.
  unfold meta_only, tables_where, keys.
  generalize (_tables ts) (_tables ts1). intros l l1 H.
  induction H as [|[k t] [k1 t1] l l1 [Hk [rows1 [Ht _]]] H IH]; [reflexivity|].
  cbn [fst snd] in *. subst k1 t1. cbn [filter snd _is_system_table set_rows].
  destruct (Bool.eqb (_is_system_table t) flag); cbn; now rewrite IH.
Qed.

Lemma meta_only_store_wf (ts ts1 : TableStore) :
  meta_only ts ts1 -> store_wf ts = true -> store_wf ts1 = true.
Proof.
  intros Hmo Hwf. destruct (meta_only_facts Hmo) as [Hkeys [_ Hmeta]].
  unfold store_wf in *. apply andb_prop in Hwf as [Hwf Hm].
  apply andb_prop in Hwf as [Hdict Hnames].
  apply andb_true_intro. split; [apply andb_true_intro; split|].
  - unfold is_dict in *. now rewrite Hkeys.
  - clear -Hmo Hnames. unfold meta_only in Hmo.
    revert Hnames. generalize (_tables ts) (_tables ts1) Hmo. clear.
    intros l l1 H.
    induction H as [|[k t] [k1 t1] l l1 [Hk [rows1 [Ht _]]] H IH]; [reflexivity|].
    cbn [fst snd] in *. subst k1 t1. cbn [forallb fst snd _table_name set_rows].
    intros Hn. apply andb_prop in Hn as [Hk Hl]. now rewrite Hk, IH.
  - destruct (Py.get TS_META_TABLENAME (_tables ts)) as [m|]; [|discriminate].
    destruct (Hmeta m eq_refl) as [rows1 ->]. exact Hm.
Qed.

(** With a well-formed store, a user table stamps the store exactly when
    its content is not the recorded one. *)
Lemma stamps_user_table_changed (ts : TableStore) (r : row) :
  store_wf ts = true -> meta_get ts = Ok (Some r) ->
  existsb (stamps ts r) (tables_where ts false) = user_table_changed ts.
Proof.
  intros Hwf Hmeta. unfold user_table_changed, tables_where, keys.
  assert (Hall : forall nt, In nt (_tables ts) ->
             stamps ts r (fst nt)
             = negb (_is_system_table (snd nt)) && table_changed ts (snd nt)).
  { intros [n t] Hin. destruct (wf_registered _ _ _ Hwf Hin) as [Hget [Hname _]].
    unfold stamps, table_changed, recorded_md5. cbn [fst snd].
    now rewrite Hget, Hmeta, Hname. }
  revert Hall. generalize (_tables ts). intros l Hall.
  induction l as [|nt l IH]; [reflexivity|].
  cbn [filter existsb].
  rewrite <- (Hall nt (or_introl eq_refl)), <- IH
    by (intros x Hx; apply Hall; now right).
  destruct (_is_system_table (snd nt)) eqn:Hsys; cbn [Bool.eqb].
  - rewrite (Hall nt (or_introl eq_refl)), Hsys. reflexivity.
  - reflexivity.
Qed.

(** ** A whole save *)

Lemma meta_only_same_tables (ts ts1 : TableStore) :
  _tables ts1 = _tables ts -> meta_only ts ts1.
Proof.
  intros Heq. unfold meta_only. rewrite Heq.
  generalize (_tables ts). intros l.
  induction l; constructor; auto using same_but_rows_refl.
Qed.

Section SaveTheorems.
Variable utcnow : nat -> string.
Context {B : Type} {backend_of_B : Backend B}.

Lemma bump_version_inv (w w1 : world B) :
  bump_version w = (w1, Ok tt) ->
  exists r v',
    meta_get (store w) = Ok (Some r)
    /\ bumped (Py.get "version" r) = Some v'
    /\ w1 = set_store w (meta_put (store w) (Py.set "version" v' r)).
Proof.
  unfold bump_version.
  destruct (meta_get (store w)) as [[r|]|e]; try discriminate.
  destruct (Py.get "version" r) as [[ |b|z| | | ]|] eqn:Hv; try discriminate;
    intros [= <-]; exists r; eexists; (split; [reflexivity|]); rewrite Hv;
    split; reflexivity.
Qed.

(** A save that returns, on a well-formed store whose time of last change
    is a text [s]. The user tables end up with their checksums recorded.
    When none of them had changed, the version and the time of last change
    are what they were; otherwise the time of last change is a reading [k]
    of the clock made during the save, and the version is bumped unless that
    reading gives [s] again. *)
Lemma save_to_backend_inv (w w1 : world B) (s : string) :
  save_to_backend utcnow w = (w1, Ok tt) ->
  store_wf (store w) = true ->
  last_modified_of (store w) = Ok (VStr s) ->
  exists r r1,
    meta_get (store w) = Ok (Some r)
    /\ meta_get (store w1) = Ok (Some r1)
    /\ meta_only (store w) (store w1)
    /\ (forall n, In n (tables_where (store w) false) ->
          exists t cs, get_table (store w) n = Ok t
                       /\ content_checksum t = Ok cs
                       /\ row_md5 r1 n = VStr cs)
    /\ (if user_table_changed (store w)
        then exists k, ticks w < k
               /\ Py.get "last_modified" r1 = Some (VStr (utcnow k))
               /\ Py.get "version" r1 =
                    (if String.eqb s (utcnow k) then Py.get "version" r
                     else bumped (Py.get "version" r))
        else Py.get "last_modified" r1 = Some (VStr s)
             /\ Py.get "version" r1 = Py.get "version" r).
Proof.
  unfold save_to_backend. intros Hsave Hwf Hlm.
  apply mbind_inv in Hsave as [wa [[] [H1 Hsave]]].
  unfold modify in H1. injection H1 as <-.
  apply mbind_inv in Hsave as [wb [definition [H2 Hsave]]].
  unfold get_definition in H2. injection H2 as <- <-.
  apply mbind_inv in Hsave as [ws [[] [H3 Hsave]]].
  unfold modify in H3. injection H3 as H3.
  assert (Htabs : _tables (store ws) = _tables (store w)) by (now rewrite <- H3).
  assert (Hticks : ticks ws = ticks w) by (now rewrite <- H3).
  clear H3.
  apply mbind_inv in Hsave as [w0 [lm0 [H4 Hsave]]]. injection H4 as <- H4.
  apply mbind_inv in Hsave as [w0 [user_tables [H5 Hsave]]].
  unfold gets in H5. injection H5 as <- <-.
  apply mbind_inv in Hsave as [w0 [system_tables [H6 Hsave]]].
  unfold gets in H6. injection H6 as <- <-.
  apply mbind_inv in Hsave as [wd [[] [Huser Hsave]]].
  apply mbind_inv in Hsave as [w0 [lm1 [H7 Hsave]]]. injection H7 as <- H7.
  apply mbind_inv in Hsave as [we [[] [Hbump Hsave]]].
  apply mbind_inv in Hsave as [wf [[] [Hsys Hsave]]].
  unfold modify in Hsave. injection Hsave as <-.
  cbn [store set_backend].
  (* the store the loops start from holds the tables of [w] *)
  assert (Hmo_s : meta_only (store w) (store ws)) by now apply meta_only_same_tables.
  assert (Hwf_s : store_wf (store ws) = true) by now apply (meta_only_store_wf Hmo_s).
  assert (Husers : tables_where (store ws) false = tables_where (store w) false)
    by now apply meta_only_tables_where.
  apply meta_getitem_inv in H4 as [r [Hmeta_s Hlm0]].
  assert (Hmeta : meta_get (store w) = Ok (Some r)).
  { unfold meta_get, get_table in *. now rewrite <- Htabs. }
  assert (lm0 = VStr s).
  { unfold last_modified_of in Hlm. rewrite (meta_getitem_get _ "last_modified" Hmeta) in Hlm.
    rewrite Hlm0 in Hlm. congruence. }
  subst lm0.
  (* the user tables *)
  destruct (tables_where_wf _ false Hwf_s) as [Hnd_u Hreg_u].
  destruct (for_each_Table_save utcnow _ Huser Hnd_u Hreg_u Hmeta_s)
    as [ru [Hmeta_u [Hmo_u [Htk_u [Hver_u [_ [Hrec_u Hlm_u]]]]]]].
  rewrite (stamps_user_table_changed _ Hwf_s Hmeta_s) in Hlm_u.
  assert (Hchanged : user_table_changed (store ws) = user_table_changed (store w)).
  { unfold user_table_changed, table_changed, recorded_md5, meta_get, get_table.
    now rewrite Htabs. }
  rewrite Hchanged in Hlm_u.
  rewrite (meta_getitem_get _ "last_modified" Hmeta_u) in H7.
  (* the version *)
  assert (Hbumped : exists rv,
             meta_get (store we) = Ok (Some rv)
             /\ meta_only (store wd) (store we)
             /\ (forall n', row_md5 rv n' = row_md5 ru n')
             /\ Py.get "last_modified" rv = Py.get "last_modified" ru
             /\ Py.get "version" rv =
                  (if Py.eqb (VStr s) lm1 then Py.get "version" ru
                   else bumped (Py.get "version" ru))).
  { destruct (Py.eqb (VStr s) lm1); cbn [negb] in Hbump.
    - injection Hbump as <-. exists ru. split_and; auto using meta_only_refl.
    - apply bump_version_inv in Hbump as [r0 [v' [Hg0 [Hv' ->]]]].
      assert (r0 = ru) by congruence. subst r0.
      destruct (meta_step wd (Py.set "version" v' ru) Hmeta_u) as [Hg [Hmo _]].
      eexists. split; [exact Hg|]. split; [exact Hmo|]. split; [|split].
      + intros n'. apply row_md5_set_other. discriminate.
      + apply get_set_other. discriminate.
      + rewrite get_set_same. now symmetry. }
  destruct Hbumped as [rv [Hmeta_v [Hmo_v [Hmd5_v [Hlm_v Hver_v]]]]].
  (* the system tables *)
  assert (Hwf_v : store_wf (store we) = true).
  { apply (meta_only_store_wf Hmo_v). now apply (meta_only_store_wf Hmo_u). }
  assert (Hsys_names : tables_where (store we) true = tables_where (store ws) true).
  { rewrite (meta_only_tables_where true Hmo_v). now apply meta_only_tables_where. }
  destruct (tables_where_wf _ true Hwf_v) as [Hnd_s Hreg_s].
  rewrite <- Hsys_names in Hsys.
  destruct (for_each_Table_save utcnow _ Hsys Hnd_s Hreg_s Hmeta_v)
    as [r1 [Hmeta_1 [Hmo_1 [_ [Hver_1 [Hoth_1 [_ Hlm_1]]]]]]].
  assert (Hno_stamp : existsb (stamps (store we) rv) (tables_where (store we) true) = false).
  { apply not_true_is_false. intros Hex. apply existsb_exists in Hex as [n [Hn Hst]].
    apply tables_where_in in Hn as [t [Hin Hflag]].
    destruct (wf_registered _ _ _ Hwf_v Hin) as [Hget _].
    unfold stamps in Hst. rewrite Hget, Hflag in Hst. discriminate. }
  rewrite Hno_stamp in Hlm_1.
  exists r, r1. split; [exact Hmeta|]. split; [exact Hmeta_1|].
  split.
  { eapply meta_only_trans; [exact Hmo_s|].
    eapply meta_only_trans; [exact Hmo_u|].
    eapply meta_only_trans; [exact Hmo_v|exact Hmo_1]. }
  split.
  { intros n Hn. rewrite <- Husers in Hn.
    destruct (user_table_inv _ _ Hwf_s Hn) as [Hne Hnot_sys].
    destruct (Hrec_u n Hn Hne) as [t [cs [Ht [Hcs Hmd5]]]].
    exists t, cs. split; [|split; [exact Hcs|]].
    - unfold get_table in *. now rewrite <- Htabs.
    - rewrite Hoth_1, Hmd5_v; [exact Hmd5|].
      rewrite Hsys_names. exact Hnot_sys. }
  rewrite Hlm_1, Hlm_v, Hver_1, Hver_v, Hver_u.
  destruct (user_table_changed (store w)).
  - destruct Hlm_u as [k [Hk Hlmk]]. exists k. split; [lia|]. split; [exact Hlmk|].
    rewrite Hlmk in H7. injection H7 as <-. reflexivity.
  - rewrite Hlm_u, Hlm0 in H7. injection H7 as <-.
    split; [now rewrite Hlm_u|]. cbn [Py.eqb]. now rewrite String.eqb_refl.
Qed.

End SaveTheorems.

(** ** The version of the store *)

Lemma length_append (a b : string) :
  String.length (a ++ b) = String.length a + String.length b.
Proof. induction a as [|x a IH]; cbn; [reflexivity|now rewrite IH]. Qed.

Lemma append_inv_tail (a b c : string) : a ++ c = b ++ c -> a = b.
Proof.
  revert b. induction a as [|x a IH]; intros [|y b] Heq; cbn in Heq.
  - reflexivity.
  - exfalso. apply (f_equal String.length) in Heq. cbn in Heq.
    rewrite length_append in Heq. lia.
  - exfalso. apply (f_equal String.length) in Heq. cbn in Heq.
    rewrite length_append in Heq. lia.
  - injection Heq as -> Heq. f_equal. now apply IH.
Qed.

Lemma str_of_Z_inj (a b : Z) : Py.str_of_Z a = Py.str_of_Z b -> a = b.
Proof.
  assert (Hnil : forall z, Z.to_int z <> Decimal.Pos Decimal.Nil
                           /\ Z.to_int z <> Decimal.Neg Decimal.Nil).
  { intros [|p|p]; cbn; split; try discriminate;
      intros [= Hp]; exact (DecimalPos.Unsigned.to_uint_nonnil _ Hp). }
  unfold Py.str_of_Z. intros Heq.
  apply (f_equal NilZero.int_of_string) in Heq.
  rewrite !NilZero.isi in Heq by apply Hnil.
  injection Heq as Heq. apply (f_equal Z.of_int) in Heq.
  now rewrite !DecimalZ.of_to in Heq.
Qed.

(** The clock of the examples never gives the same text twice. *)
Lemma seconds_inj (a b : nat) : Examples.seconds a = Examples.seconds b -> a = b.
Proof.
  unfold Examples.seconds. cbn [append]. intros Heq.
  inversion Heq as [Htail].
  apply append_inv_tail, str_of_Z_inj in Htail. lia.
Qed.

Section VersionTheorems.
Variable utcnow : nat -> string.
Context {B : Type} {backend_of_B : Backend B}.

(** The version across a save whose clock does not repeat the stored
    reading: a save that returns, on a well-formed store whose version is
    the integer [z] and whose time of last change is the text [s], with a
    clock that does not read [s] again, leaves the version at [z + 1] when
    the checksum of at least one table that is not a system table differs
    from the recorded one, and at [z] when no such checksum differs. *)
Theorem version_after_save (w w1 : world B) (s : string) (z : Z) :
  store_wf (store w) = true ->
  last_modified_of (store w) = Ok (VStr s) ->
  version_of (store w) = Ok (VInt z) ->
  (forall k, ticks w < k -> utcnow k <> s) ->
  save_to_backend utcnow w = (w1, Ok tt) ->
  version_of (store w1)
  = Ok (VInt (if user_table_changed (store w) then z + 1 else z)).
Proof.
  intros Hwf Hlm Hver Hclock Hsave.
  destruct (@save_to_backend_inv utcnow B _ _ _ _ Hsave Hwf Hlm)
    as [r [r1 [Hmeta [Hmeta1 [_ [_ Hcase]]]]]].
  unfold version_of in *.
  rewrite (meta_getitem_get _ "version" Hmeta) in Hver.
  rewrite (meta_getitem_get _ "version" Hmeta1).
  destruct (Py.get "version" r) as [v|] eqn:Hv; [|discriminate].
  injection Hver as ->.
  destruct (user_table_changed (store w)).
  - destruct Hcase as [k [Hk [_ Hv1]]].
    destruct (String.eqb_spec s (utcnow k)) as [Heq|_].
    + exfalso. now apply (Hclock k Hk).
    + now rewrite Hv1.
  - destruct Hcase as [_ Hv1]. now rewrite Hv1.
Qed.

(** C3, amended: after two saves in a row of a well-formed store whose time
    of last change is a text, the second one has left the version of the
    store and the recorded checksum of every table that is not a system
    table as the first one had left them. *)
Theorem second_save_changes_nothing (w w1 w2 : world B) (s : string) :
  store_wf (store w) = true ->
  last_modified_of (store w) = Ok (VStr s) ->
  save_to_backend utcnow w = (w1, Ok tt) ->
  save_to_backend utcnow w1 = (w2, Ok tt) ->
  version_of (store w2) = version_of (store w1)
  /\ forall n, In n (tables_where (store w) false) ->
               recorded_md5 (store w2) n = recorded_md5 (store w1) n.
Proof.
  intros Hwf Hlm Hsave1 Hsave2.
  destruct (@save_to_backend_inv utcnow B _ _ _ _ Hsave1 Hwf Hlm)
    as [r [r1 [Hmeta [Hmeta1 [Hmo1 [Hrec1 Hcase1]]]]]].
  assert (Hwf1 : store_wf (store w1) = true) by exact (meta_only_store_wf Hmo1 Hwf).
  assert (Hlm1 : exists s1, last_modified_of (store w1) = Ok (VStr s1)).
  { unfold last_modified_of. rewrite (meta_getitem_get _ "last_modified" Hmeta1).
    destruct (user_table_changed (store w)).
    - destruct Hcase1 as [k [_ [-> _]]]. eauto.
    - destruct Hcase1 as [-> _]. eauto. }
  destruct Hlm1 as [s1 Hlm1].
  destruct (@save_to_backend_inv utcnow B _ _ _ _ Hsave2 Hwf1 Hlm1)
    as [r1' [r2 [Hmeta1' [Hmeta2 [Hmo2 [Hrec2 Hcase2]]]]]].
  assert (r1' = r1) by congruence. subst r1'.
  assert (Husers : tables_where (store w1) false = tables_where (store w) false)
    by exact (meta_only_tables_where false Hmo1).
  (* nothing has changed when the second save starts *)
  assert (Hsame : user_table_changed (store w1) = false).
  { rewrite <- (stamps_user_table_changed _ Hwf1 Hmeta1), Husers.
    apply not_true_is_false. intros Hex.
    apply existsb_exists in Hex as [n [Hn Hst]].
    destruct (Hrec1 n Hn) as [t [cs [Ht [Hcs Hmd5]]]].
    destruct (user_table_inv _ _ Hwf Hn) as [Hne _].
    unfold stamps in Hst. rewrite (meta_only_get_table Hmo1 Hne), Ht, Hcs, Hmd5 in Hst.
    cbn [Py.eqb] in Hst. rewrite String.eqb_refl, andb_false_r in Hst. discriminate. }
  rewrite Hsame in Hcase2. destruct Hcase2 as [_ Hver2]. split.
  - unfold version_of.
    rewrite (meta_getitem_get _ "version" Hmeta1), (meta_getitem_get _ "version" Hmeta2).
    now rewrite Hver2.
  - intros n Hn. unfold recorded_md5. rewrite Hmeta1, Hmeta2.
    destruct (Hrec1 n Hn) as [t [cs [Ht [Hcs Hmd5]]]].
    rewrite <- Husers in Hn.
    destruct (Hrec2 n Hn) as [t' [cs' [Ht' [Hcs' Hmd5']]]].
    rewrite Husers in Hn. destruct (user_table_inv _ _ Hwf Hn) as [Hne _].
    rewrite (meta_only_get_table Hmo1 Hne) in Ht'.
    assert (t' = t) by congruence. subst t'.
    assert (cs' = cs) by congruence. subst cs'.
    now rewrite Hmd5, Hmd5'.
Qed.

End VersionTheorems.

(** C2, at an input where the code departs from it: the store holds the
    table [users] with one row and no recorded checksum, and the clock reads
    during the save what it read when the store was created.  The checksum
    of [users] differs from the recorded one and the save returns, yet the
    version stays 1: the save compares the time of last change before and
    after the tables are written, where its comment says that the version
    is bumped if something changed. *)
Lemma version_kept_on_same_reading :
  user_table_changed (store (Examples.populated Examples.frozen)) = true
  /\ snd (save_to_backend Examples.frozen (Examples.populated Examples.frozen)) = Ok tt
  /\ version_of (store (Examples.populated Examples.frozen)) = Ok (VInt 1)
  /\ version_of (store (Examples.saved_once Examples.frozen)) = Ok (VInt 1).
Proof. vm_compute. repeat split. Qed.

Lemma version_after_save_witness :
  version_of (store (Examples.saved_once Examples.seconds))
  = Ok (VInt (if user_table_changed (store (Examples.populated Examples.seconds))
              then 1 + 1 else 1)).
Proof.
  apply (version_after_save Examples.seconds (Examples.populated Examples.seconds)
           (s := Examples.seconds 1)).
  - vm_compute. reflexivity.
  - vm_compute. reflexivity.
  - vm_compute. reflexivity.
  - intros k Hk Heq. apply seconds_inj in Heq.
    change (ticks (Examples.populated Examples.seconds)) with 2 in Hk. lia.
  - vm_compute. reflexivity.
Defined.

(** C3, as the specification words it, fails on the metadata table: its own
    recorded checksum is the hash of the metadata as written, which held the
    previous checksum, and here the second save records another one. *)
Lemma second_save_changes_meta_checksum :
  snd (save_to_backend Examples.seconds (Examples.populated Examples.seconds)) = Ok tt
  /\ snd (save_to_backend Examples.seconds (Examples.saved_once Examples.seconds)) = Ok tt
  /\ recorded_md5 (store (Examples.saved_twice Examples.seconds)) TS_META_TABLENAME
     <> recorded_md5 (store (Examples.saved_once Examples.seconds)) TS_META_TABLENAME.
Proof. vm_compute. repeat split. discriminate. Qed.

Lemma second_save_changes_nothing_witness :
  version_of (store (Examples.saved_twice Examples.seconds))
  = version_of (store (Examples.saved_once Examples.seconds))
  /\ forall n, In n (tables_where (store (Examples.populated Examples.seconds)) false) ->
               recorded_md5 (store (Examples.saved_twice Examples.seconds)) n
               = recorded_md5 (store (Examples.saved_once Examples.seconds)) n.
Proof.
  apply (second_save_changes_nothing Examples.seconds
           (Examples.populated Examples.seconds) (s := Examples.seconds 1)).
  - vm_compute. reflexivity.
  - vm_compute. reflexivity.
  - vm_compute. reflexivity.
  - vm_compute. reflexivity.
Defined.

(** ** Reading back what a save wrote *)

Lemma get_filename_set_rows (t : Table) (rows1 : dict row) (r : option row)
    (is_index_file : bool) :
  get_filename (set_rows t rows1) r is_index_file = get_filename t r is_index_file.
Proof. reflexivity. Qed.

Lemma file_names_set_rows (t : Table) (rows1 : dict row) :
  cls t = ClsSingleRowTable -> file_names (set_rows t rows1) = file_names t.
Proof.
  intros Hcls. unfold file_names, table_files. cbn [cls set_rows]. rewrite Hcls.
  rewrite get_filename_set_rows.
  destruct (get_filename t None false); reflexivity.
Qed.

Lemma names_of_meta_only (ts ts1 : TableStore) (r : row) (ns : list string) :
  meta_only ts ts1 -> meta_get ts = Ok (Some r) -> names_of ts1 ns = names_of ts ns.
Proof.
  intros Hmo Hmeta. unfold names_of.
  induction ns as [|n ns IH]; [reflexivity|]. cbn [flat_map]. rewrite IH. f_equal.
  destruct (string_dec n TS_META_TABLENAME) as [->|Hne].
  - destruct (meta_only_facts Hmo) as [_ [_ Hm]].
    unfold meta_get in Hmeta. unfold get_table in *.
    destruct (Py.get TS_META_TABLENAME (_tables ts)) as [mt|] eqn:Hmt; [|discriminate].
    destruct (Hm _ eq_refl) as [rows1 ->]. cbn [bind] in Hmeta.
    destruct (cls mt) eqn:Hcls; [discriminate|]. now apply file_names_set_rows.
  - now rewrite (meta_only_get_table Hmo Hne).
Qed.

Section ReadBack.
Context {B : Type} {backend_of_B : Backend B} {laws : BackendLaws B}.

Lemma load_write_all_other (files : list (string * string)) (b : B) (f : string) :
  ~ In f (map fst files) ->
  load_data (write_all files b) f = load_data b f.
Proof.
  revert b. induction files as [|[g d] files IH]; intros b Hn; [reflexivity|].
  unfold write_all in *. cbn [fold_left fst snd]. rewrite IH.
  - apply load_save_other. intros ->. apply Hn. now left.
  - intros Hin. apply Hn. now right.
Qed.

Lemma load_write_all (files : list (string * string)) (b : B) (f d : string) :
  NoDup (map fst files) -> In (f, d) files ->
  load_data (write_all files b) f = Ok d.
Proof.
  revert b. induction files as [|[g c] files IH]; intros b Hnd Hin; [contradiction|].
  cbn [map fst] in Hnd. inversion Hnd as [|? ? Hg Hfiles]; subst.
  unfold write_all in *. cbn [fold_left fst snd]. destruct Hin as [[= -> ->]|Hin].
  - fold (write_all files (save_data b f d)).
    rewrite (load_write_all_other _ _ _ Hg). apply load_save_same.
  - now apply IH.
Qed.

End ReadBack.

Section SaveWrites.
Variable utcnow : nat -> string.
Context {B : Type} {backend_of_B : Backend B}.

(** A loop of saves that returns wrote the files of its tables, one table
    after the other. *)
Lemma for_each_Table_save_files (ns : list string) :
  forall (w w1 : world B),
    for_each (Table_save utcnow) ns w = (w1, Ok tt) ->
    exists files,
      backend w1 = write_all files (backend w)
      /\ map fst files = names_of (store w) ns
      /\ meta_only (store w) (store w1)
      /\ forall n t, In n ns -> n <> TS_META_TABLENAME ->
           get_table (store w) n = Ok t ->
           exists fs, table_files t = Ok fs /\ incl fs files.
Proof.
  induction ns as [|n ns IH]; intros w w1 Hloop.
  - cbn in Hloop. injection Hloop as <-. exists []. split_and; auto using meta_only_refl.
    intros n t [].
  - cbn [for_each] in Hloop.
    apply mbind_inv in Hloop as [wa [[] [Hsave Hloop]]].
    apply (Table_save_inv utcnow) in Hsave
      as [t [cs [r0 [ra [Ht [Hsd [Hg0 [Hga [Hmo _]]]]]]]]].
    destruct (save_table_data_ok _ _ Hsd) as [_ [fs [Hfs Hb]]].
    destruct (IH wa w1 Hloop) as [files [Hb1 [Hnames [Hmo1 Hall]]]].
    exists (fs ++ files)%list. split_and.
    + rewrite write_all_app, <- Hb. exact Hb1.
    + rewrite map_app, Hnames, (names_of_meta_only ns Hmo Hg0).
      cbn [names_of flat_map]. rewrite Ht. unfold file_names. now rewrite Hfs.
    + eapply meta_only_trans; eassumption.
    + intros n' t' [<-|Hin] Hne Ht'.
      * exists fs. split; [congruence|]. now apply incl_appl.
      * rewrite <- (meta_only_get_table Hmo Hne) in Ht'.
        destruct (Hall n' t' Hin Hne Ht') as [fs' [Hfs' Hincl]].
        exists fs'. split; [exact Hfs'|]. now apply incl_appr.
Qed.

(** A save that returns leaves in the backend the definition and the files
    of the tables, written in the order of [store_file_names]. *)
Lemma save_to_backend_files (w w1 : world B) :
  save_to_backend utcnow w = (w1, Ok tt) ->
  exists files,
    backend w1 = commit_batch (write_all files (start_batch (backend w)))
    /\ map fst files = store_file_names (store w)
    /\ In (TS_DEF_FILENAME, Json.dumps (value_of_store (with_tableorder (store w)))) files
    /\ meta_only (store w) (store w1)
    /\ forall n t, In n (tables_where (store w) false) -> n <> TS_META_TABLENAME ->
         get_table (store w) n = Ok t ->
         exists fs, table_files t = Ok fs /\ incl fs files.
Proof.
  unfold save_to_backend. intros Hsave.
  apply mbind_inv in Hsave as [wa [[] [H1 Hsave]]].
  unfold modify in H1. injection H1 as <-.
  apply mbind_inv in Hsave as [wb [definition [H2 Hsave]]].
  unfold get_definition in H2. injection H2 as <- <-.
  apply mbind_inv in Hsave as [ws [[] [H3 Hsave]]].
  unfold modify in H3. injection H3 as H3.
  assert (Htabs : _tables (store ws) = _tables (store w)) by (now rewrite <- H3).
  assert (Hback : backend ws
                  = save_data (start_batch (backend w)) TS_DEF_FILENAME
                      (Json.dumps (value_of_store (with_tableorder (store w)))))
    by (now rewrite <- H3).
  clear H3.
  apply mbind_inv in Hsave as [w0 [lm0 [H4 Hsave]]]. injection H4 as <- H4.
  apply mbind_inv in Hsave as [w0 [user_tables [H5 Hsave]]].
  unfold gets in H5. injection H5 as <- <-.
  apply mbind_inv in Hsave as [w0 [system_tables [H6 Hsave]]].
  unfold gets in H6. injection H6 as <- <-.
  apply mbind_inv in Hsave as [wd [[] [Huser Hsave]]].
  apply mbind_inv in Hsave as [w0 [lm1 [H7 Hsave]]]. injection H7 as <- H7.
  apply mbind_inv in Hsave as [we [[] [Hbump Hsave]]].
  apply mbind_inv in Hsave as [wf [[] [Hsys Hsave]]].
  unfold modify in Hsave. injection Hsave as <-.
  cbn [store backend set_backend].
  assert (Hmo_s : meta_only (store w) (store ws)) by now apply meta_only_same_tables.
  assert (Hget_s : forall n, get_table (store ws) n = get_table (store w) n).
  { intros n. unfold get_table. now rewrite Htabs. }
  assert (Hwhere : forall flag, tables_where (store ws) flag = tables_where (store w) flag).
  { intros flag. unfold tables_where. now rewrite Htabs. }
  apply meta_getitem_inv in H4 as [r [Hmeta_s _]].
  apply meta_getitem_inv in H7 as [ru [Hmeta_u _]].
  destruct (for_each_Table_save_files _ _ Huser) as [fu [Hbu [Hnu [Hmo_u Hall_u]]]].
  assert (Hbumped : meta_only (store wd) (store we) /\ backend we = backend wd).
  { destruct (negb _).
    - apply bump_version_inv in Hbump as [r0 [v' [Hg0 [_ ->]]]].
      split; [apply meta_only_put|reflexivity].
    - injection Hbump as <-. split; [apply meta_only_refl|reflexivity]. }
  destruct Hbumped as [Hmo_v Hb_v].
  destruct (for_each_Table_save_files _ _ Hsys) as [fsys [Hbs [Hns [Hmo_1 _]]]].
  exists ((TS_DEF_FILENAME, Json.dumps (value_of_store (with_tableorder (store w))))
            :: fu ++ fsys)%list.
  split_and.
  - rewrite Hbs, Hb_v, Hbu, Hback. f_equal.
    change (write_all ?l ?b) with (write_all l b).
    unfold write_all at 3. cbn [fold_left fst snd].
    now rewrite <- write_all_app.
  - cbn [map fst]. unfold store_file_names. f_equal. rewrite map_app. f_equal.
    + rewrite Hnu, Hwhere. unfold names_of.
      apply flat_map_ext. intros n. now rewrite Hget_s.
    + rewrite Hns.
      rewrite (names_of_meta_only _ Hmo_v Hmeta_u).
      rewrite (names_of_meta_only _ Hmo_u Hmeta_s).
      rewrite Hwhere. unfold names_of. apply flat_map_ext. intros n. now rewrite Hget_s.
  - now left.
  - eapply meta_only_trans; [exact Hmo_s|].
    eapply meta_only_trans; [exact Hmo_u|].
    eapply meta_only_trans; [exact Hmo_v|exact Hmo_1].
  - intros n t Hn Hne Ht. rewrite <- Hwhere in Hn. rewrite <- Hget_s in Ht.
    destruct (Hall_u n t Hn Hne Ht) as [fs [Hfs Hincl]].
    exists fs. split; [exact Hfs|]. apply incl_tl. now apply incl_appl.
Qed.

End SaveWrites.

(** ** Decoding the definition of a store *)

Lemma strings_of_values_map (l : list string) :
  strings_of_values (map VStr l) = Ok l.
Proof. induction l as [|x l IH]; cbn; [reflexivity|]. now rewrite IH. Qed.

Lemma constraint_of_value_of (c : constraint) :
  constraint_of_value (value_of_constraint c) = Ok c.
Proof.
  destruct c as [f|f|f tn a]; cbn; unfold field_strings; cbn;
    now rewrite ?strings_of_values_map.
Qed.

Lemma constraints_of_values_map (cs : list constraint) :
  constraints_of_values (map value_of_constraint cs) = Ok cs.
Proof.
  induction cs as [|c cs IH]; [reflexivity|].
  cbn [map constraints_of_values]. now rewrite constraint_of_value_of, IH.
Qed.

Lemma update_table_dict_of (t0 t : Table) (d : row) :
  value_of_table t = VDict [("class", VStr (class_name (cls t))); ("dict", VDict d)] ->
  update_table_dict t0 d
  = Ok (mkTable (cls t0) (_table_name t) [] (_schema t) (_default_values t)
                (_pk_fields t) (_constraints t) (_table_store t0)
                (_group_by_fields t) (_subfolder t) (_is_system_table t)).
Proof.
  unfold value_of_table. intros [= <-].
  unfold update_table_dict, with_attr. cbn -[strings_of_value constraints_of_values].
  unfold strings_of_value, value_of_strings.
  rewrite strings_of_values_map, constraints_of_values_map. cbn.
  destruct (_group_by_fields t) as [g|]; destruct (_subfolder t) as [sub|]; cbn;
    rewrite ?strings_of_values_map; reflexivity.
Qed.

Section DefinitionFacts.
Variable check_schema : row -> value -> bool.
Variable utcnow : nat -> string.

Lemma SingleRowTable__init__cls (ts : TableStore) (name : string)
    (attached : bool) (tick : nat) (t : Table) :
  fst (SingleRowTable__init__ check_schema utcnow ts name attached tick) = Ok t ->
  cls t = ClsSingleRowTable /\ _table_store t = attached.
Proof.
  unfold SingleRowTable__init__, Table__init__.
  destruct (_ && _); [discriminate|].
  unfold SingleRowTable_add, Table_add.
  destruct (_get_default_values _ _ _) as [d n].
  destruct (_check_row _ _ _ _); cbn; [|discriminate].
  intros [= <-]. split; reflexivity.
Qed.

Lemma table_of_value_of (ts : TableStore) (name : string) (t t' : Table) (n : nat) :
  fst (table_of_value check_schema utcnow ts name (value_of_table t) n) = Ok t' ->
  t' = as_defined t.
Proof.
  unfold table_of_value.
  assert (Hv : exists d, value_of_table t
                 = VDict [("class", VStr (class_name (cls t))); ("dict", VDict d)])
    by (eexists; reflexivity).
  destruct Hv as [d Hv]. rewrite Hv. cbn [Py.get String.eqb Ascii.eqb Bool.eqb].
  cbn -[SingleRowTable__init__ Table__init__ update_table_dict].
  assert (Hmade : forall t0 : Table,
            cls t0 = cls t ->
            (t1 <- update_table_dict t0 d ;; Ok (set_table_store t1 true)) = Ok t' ->
            t' = as_defined t).
  { intros t0 Hcls. rewrite (update_table_dict_of t0 Hv). cbn. intros [= <-].
    unfold as_defined. rewrite Hcls. now destruct t. }
  destruct (cls t) eqn:Hcls; cbn -[SingleRowTable__init__ Table__init__ update_table_dict].
  - unfold Table__init__. destruct (_ && _); [discriminate|]. cbn [fst snd].
    apply Hmade. reflexivity.
  - destruct (SingleRowTable__init__ check_schema utcnow ts name true n) as [[t0|e] m] eqn:Hinit;
      cbn [fst snd]; [|discriminate].
    apply Hmade.
    apply (@SingleRowTable__init__cls ts name true n). now rewrite Hinit.
Qed.

Lemma fold_set_new {A C} (f : C -> A) (l : list (string * C)) (acc : dict A) :
  NoDup (keys acc ++ keys l)%list ->
  fold_left (fun a nt => Py.set (fst nt) (f (snd nt)) a) l acc
  = (acc ++ map (fun nt => (fst nt, f (snd nt))) l)%list.
Proof.
  revert acc. induction l as [|[k c] l IH]; intros acc Hnd.
  - cbn. now rewrite app_nil_r.
  - cbn [fold_left map fst snd].
    assert (Hk : ~ In k (keys acc)).
    { intros Hin. apply NoDup_remove_2 in Hnd. apply Hnd.
      apply in_or_app. now left. }
    assert (Hset : Py.set k (f c) acc = (acc ++ [(k, f c)])%list).
    { clear -Hk. induction acc as [|[k' v'] acc IH]; [reflexivity|].
      cbn in *. destruct (String.eqb_spec k k') as [->|Hne]; [tauto|].
      rewrite IH; tauto. }
    rewrite Hset, IH.
    + now rewrite <- app_assoc.
    + unfold keys in *. rewrite map_app. cbn [map fst]. rewrite <- app_assoc. exact Hnd.
Qed.

Lemma tables_of_values_of (ts : TableStore) (full l : list (string * Table)) :
  forall (acc : dict Table) (n : nat) (tabs : dict Table),
    NoDup (keys full) -> incl l full ->
    fst (tables_of_values check_schema utcnow ts (keys l)
           (map (fun nt => (fst nt, value_of_table (snd nt))) full) acc n) = Ok tabs ->
    tabs = fold_left (fun a nt => Py.set (fst nt) (as_defined (snd nt)) a) l acc.
Proof.
  induction l as [|[k t] l IH]; intros acc n tabs Hnd Hincl Hres.
  - cbn in Hres. now injection Hres as <-.
  - cbn [keys map fst tables_of_values] in Hres.
    assert (Hget : Py.get k (map (fun nt => (fst nt, value_of_table (snd nt))) full)
                   = Some (value_of_table t)).
    { apply in_get_nodup.
      - unfold keys in *. rewrite map_map. exact Hnd.
      - apply (in_map (fun nt => (fst nt, value_of_table (snd nt))) full (k, t)).
        apply Hincl. now left. }
    rewrite Hget in Hres.
    destruct (table_of_value check_schema utcnow ts k (value_of_table t) n)
      as [[t'|e] m] eqn:Hmade; cbn [fst snd] in Hres; [|discriminate].
    assert (t' = as_defined t).
    { apply (@table_of_value_of ts k t t' n). now rewrite Hmade. }
    subst t'. cbn [fold_left fst snd].
    apply (IH _ m); auto. intros x Hx. apply Hincl. now right.
Qed.

Context {B : Type} {backend_of_B : Backend B}.

(** Decoding the definition of [ts] gives the tables of [ts] as the
    definition describes them, under the same names and in the same order. *)
Lemma init_from_definition_of (ts : TableStore) (w w' : world B) :
  Json.loads (Json.dumps (value_of_store (with_tableorder ts)))
    = Some (value_of_store (with_tableorder ts)) ->
  NoDup (keys (_tables ts)) ->
  init_from_definition check_schema utcnow
    (Json.dumps (value_of_store (with_tableorder ts))) w = (w', Ok tt) ->
  _tables (store w') = map (fun nt => (fst nt, as_defined (snd nt))) (_tables ts)
  /\ backend w' = backend w.
Proof.
  intros Hcodec Hnd. unfold init_from_definition. rewrite Hcodec.
  unfold value_of_store. cbn [Py.get String.eqb Ascii.eqb Bool.eqb].
  cbn -[tables_of_values]. unfold keys at 1. fold (keys (_tables ts)).
  rewrite strings_of_values_map.
  destruct (tables_of_values _ _ _ _ _ _ _) as [[tabs|e] m] eqn:Hmade; cbn [fst snd];
    [|discriminate].
  intros [= <-]. cbn [store backend _tables]. split; [|reflexivity].
  assert (Htabs : tabs = fold_left (fun a nt => Py.set (fst nt) (as_defined (snd nt)) a)
                           (_tables ts) []).
  { apply (@tables_of_values_of (store w) (_tables ts) (_tables ts) [] (ticks w));
      auto using incl_refl. now rewrite Hmade. }
  rewrite Htabs. now rewrite fold_set_new.
Qed.

End DefinitionFacts.

(** ** Rows and their stored form *)

Lemma values_set_new {A} (k : string) (v : A) (d : dict A) :
  ~ In k (keys d) -> values (Py.set k v d) = (values d ++ [v])%list.
Proof.
  induction d as [|[k' v'] d IH]; simpl; [reflexivity|].
  destruct (String.eqb_spec k k') as [->|Hne]; simpl.
  - intros Hn. exfalso. apply Hn. now left.
  - intros Hn. rewrite IH; auto.
Qed.

Lemma NoDup_keys_set {A} (k : string) (v : A) (d : dict A) :
  NoDup (keys d) -> NoDup (keys (Py.set k v d)).
Proof.
  intros Hnd. destruct (in_dec string_dec k (keys d)) as [Hin|Hn].
  - now rewrite keys_set_in.
  - rewrite keys_set_new by exact Hn. apply NoDup_app; auto.
    + constructor; [intros []|constructor].
    + intros x Hx [<-|[]]. contradiction.
Qed.

Lemma NoDup_keys_update {A} (d e : dict A) :
  NoDup (keys d) -> NoDup (keys (Py.update d e)).
Proof.
  unfold Py.update. revert d. induction e as [|[k v] e IH]; intros d Hnd; [exact Hnd|].
  cbn [fold_left fst snd]. apply IH. now apply NoDup_keys_set.
Qed.

Lemma in_insert_sorted (x y : string) (l : list string) :
  In y (insert_sorted x l) <-> y = x \/ In y l.
Proof.
  induction l as [|z l IH]; simpl.
  - split; [intros [<-|[]]; now left|intros [->|[]]; now left].
  - destruct (String.leb x z); simpl; [split; intros [H|H]; auto|].
    rewrite IH. tauto.
Qed.

Lemma in_sorted (y : string) (l : list string) : In y (sorted l) <-> In y l.
Proof.
  induction l as [|x l IH]; simpl; [tauto|].
  rewrite in_insert_sorted, IH. split; intros [H|H]; auto.
Qed.

Lemma rows_sorted_in (t : Table) (r : row) :
  is_dict (_rows t) = true ->
  In r (rows_sorted t) <-> In r (values (_rows t)).
Proof.
  unfold is_dict. rewrite uniq_NoDup. intros Hnd. unfold rows_sorted.
  rewrite in_flat_map. split.
  - intros [k [_ Hin]]. destruct (Py.get k (_rows t)) as [r0|] eqn:Hget; [|contradiction].
    destruct Hin as [<-|[]]. apply get_Some_in in Hget.
    change r0 with (snd (k, r0)). now apply in_map.
  - unfold values. rewrite in_map_iff. intros [[k r0] [<- Hin]].
    exists k. split.
    + apply in_sorted. change k with (fst (k, r0)). now apply in_map.
    + rewrite (in_get_nodup _ _ _ Hnd Hin). now left.
Qed.

Lemma project_get (fields : list string) (r : row) :
  forall (acc p : row),
    project fields r acc = Ok p ->
    (forall k, Py.get k p = if str_in k fields then Py.get k r else Py.get k acc)
    /\ (NoDup (keys acc) -> NoDup (keys p))
    /\ issubset fields r = true.
Proof.
  induction fields as [|f fields IH]; intros acc p Hp.
  - injection Hp as <-. split_and; auto.
  - cbn [project] in Hp. destruct (Py.get f r) as [v|] eqn:Hf; [|discriminate].
    destruct (IH _ _ Hp) as [Hget [Hnd Hsub]]. split_and.
    + intros k. rewrite Hget. unfold str_in. cbn [existsb].
      destruct (existsb (String.eqb k) fields); [now rewrite orb_true_r|].
      rewrite orb_false_r. destruct (String.eqb_spec k f) as [->|Hne].
      * now rewrite get_set_same.
      * now rewrite get_set_other.
    + intros Hacc. apply Hnd. now apply NoDup_keys_set.
    + unfold issubset in *. cbn [forallb]. rewrite Hsub. unfold Py.mem. now rewrite Hf.
Qed.

Lemma same_row_refl (r : row) : same_row r r.
Proof. intros k. reflexivity. Qed.

Lemma same_row_trans (a b c : row) : same_row a b -> same_row b c -> same_row a c.
Proof. intros H1 H2 k. now rewrite H1. Qed.

Lemma same_row_mem (a b : row) (k : string) : same_row a b -> Py.mem k a = Py.mem k b.
Proof. intros H. unfold Py.mem. now rewrite H. Qed.

Lemma same_row_issubset (a b : row) (fields : list string) :
  same_row a b -> issubset fields a = issubset fields b.
Proof.
  intros H. unfold issubset. apply forallb_ext_in_strings. intros k _. now apply same_row_mem.
Qed.

(** The stored form of a row holds the same fields with the same values. *)
Lemma orderly_row_same (t : Table) (r o : row) :
  is_dict r = true -> orderly_row t r = Ok o ->
  same_row r o /\ is_dict o = true.
Proof.
  intros Hdict. unfold orderly_row.
  destruct (project (_pk_fields t) r []) as [p|e] eqn:Hp; [|discriminate].
  cbn [bind]. intros [= <-]. destruct (project_get _ _ _ Hp) as [Hget [Hnd _]]. split.
  - intros k. rewrite (get_update _ _ _ Hdict). destruct (Py.get k r) eqn:Hk; [reflexivity|].
    rewrite Hget, Hk. cbn. now destruct (str_in k (_pk_fields t)).
  - unfold is_dict. apply uniq_NoDup. apply NoDup_keys_update. apply Hnd. constructor.
Qed.

(** What [add] stores for a row that holds every field with a default is the
    row. *)
Lemma filled_same (t : Table) (r r' : row) :
  is_dict r = true -> issubset (keys (_default_values t)) r = true ->
  filled t r r' -> same_row r r'.
Proof.
  intros Hdict Hsub [d [Hkeys ->]] k. rewrite (get_update _ _ _ Hdict).
  destruct (Py.get k r) eqn:Hk; [reflexivity|]. symmetry. apply get_None_not_in.
  rewrite Hkeys. intros Hin.
  rewrite issubset_forall in Hsub. destruct (Hsub k Hin) as [v Hv]. congruence.
Qed.

Section FillFacts.
Variable utcnow : nat -> string.

Lemma resolve_defaults_keys (items : list (string * value)) :
  forall (d : row) (tick : nat),
    (forall k, In k (keys items) -> In k (keys d)) ->
    keys (fst (resolve_defaults utcnow items d tick)) = keys d.
Proof.
  induction items as [|[k v] items IH]; intros d tick Hin; [reflexivity|].
  assert (Hrest : forall k', In k' (keys items) -> In k' (keys d)).
  { intros k' Hk'. apply Hin. now right. }
  cbn [resolve_defaults]. destruct v; auto.
  destruct (_ && _); auto. rewrite IH.
  - apply keys_set_in. apply Hin. now left.
  - intros k' Hk'. rewrite keys_set_in; [auto|]. apply Hin. now left.
Qed.

Lemma get_default_values_keys (t : Table) (tick : nat) :
  keys (fst (_get_default_values utcnow t tick)) = keys (_default_values t).
Proof. unfold _get_default_values. apply resolve_defaults_keys. auto. Qed.

End FillFacts.

(** ** Loading the rows of a table *)

Lemma only_table_refl {B : Type} (n : string) (w : world B) : only_table n w w.
Proof. split; auto. Qed.

Lemma only_table_trans {B : Type} (n : string) (w1 w2 w3 : world B) :
  only_table n w1 w2 -> only_table n w2 w3 -> only_table n w1 w3.
Proof.
  intros [Hb1 Ht1] [Hb2 Ht2]. split; [congruence|].
  intros n' Hn'. now rewrite Ht2, Ht1.
Qed.

Section LoadFacts.
Variable check_schema : row -> value -> bool.
Variable utcnow : nat -> string.
Context {B : Type} {backend_of_B : Backend B}.

(** An [add] that returns stored the row, filled with the defaults: under a
    key that was free in a table, as the only row in a document table. *)
Lemma add_inv (ts : TableStore) (t : Table) (r r' : row) (tick : nat) :
  result (add check_schema utcnow ts t r false tick) = Ok r' ->
  filled t r r'
  /\ exists rows', self (add check_schema utcnow ts t r false tick) = set_rows t rows'
       /\ values rows' = match cls t with
                         | ClsTable => (values (_rows t) ++ [r'])%list
                         | ClsSingleRowTable => [r']
                         end.
Proof.
  unfold add.
  assert (HT : forall ts0 t0,
             result (Table_add check_schema utcnow ts0 t0 r false tick) = Ok r' ->
             filled t0 r r'
             /\ exists key, Py.mem key (_rows t0) = false
                  /\ self (Table_add check_schema utcnow ts0 t0 r false tick)
                     = set_rows t0 (Py.set key r' (_rows t0))).
  { intros ts0 t0. unfold Table_add.
    pose proof (get_default_values_keys utcnow t0 tick) as Hkeys.
    destruct (_get_default_values utcnow t0 tick) as [d n]. cbn [fst] in Hkeys.
    destruct (_check_row _ _ _ _) as [key|e] eqn:Hcheck; cbn [result self]; [|discriminate].
    intros [= <-]. split; [now exists d|]. exists key. split; [|reflexivity].
    unfold _check_row in Hcheck.
    destruct (check_constraints _ _ _ _); [|discriminate]. cbn [bind] in Hcheck.
    destruct (check_schema _ _); [|discriminate].
    destruct (_canonicalize_key _ _ _) as [k|]; [|discriminate]. cbn [bind] in Hcheck.
    destruct (Py.mem k (_rows t0)) eqn:Hmem; [discriminate|].
    cbn in Hcheck. now injection Hcheck as <-. }
  destruct (cls t) eqn:Hcls.
  - intros Hres. destruct (HT _ _ Hres) as [Hfill [key [Hmem ->]]].
    split; [exact Hfill|]. eexists. split; [reflexivity|].
    apply values_set_new. apply get_None_not_in. unfold Py.mem in Hmem.
    now destruct (Py.get key (_rows t)).
  - unfold SingleRowTable_add. intros Hres.
    destruct (HT _ _ Hres) as [Hfill [key [Hmem ->]]].
    split; [exact Hfill|]. exists [(key, r')]. split; reflexivity.
Qed.

(** A call of [add] on the table [tn] of the store that returns. *)
Lemma table_add_inv (tn : string) (r r' : row) (w w' : world B) (T : Table)
    (R : dict row) :
  table_add check_schema utcnow tn r false w = (w', Ok r') ->
  get_table (store w) tn = Ok (set_rows T R) ->
  filled T r r'
  /\ only_table tn w w'
  /\ exists R', get_table (store w') tn = Ok (set_rows T R')
       /\ values R' = match cls T with
                      | ClsTable => (values R ++ [r'])%list
                      | ClsSingleRowTable => [r']
                      end.
Proof.
  unfold table_add. intros Hadd Ht. rewrite Ht in Hadd.
  injection Hadd as <- Hres.
  destruct (add_inv _ _ _ _ Hres) as [Hfill [rows' [Hself Hvals]]].
  split; [exact Hfill|]. split; [|exists rows'; split].
  - split; [reflexivity|]. intros n' Hne. cbn [store _tables set_tables].
    unfold get_table. cbn [_tables set_tables]. now rewrite get_set_other.
  - cbn [store]. unfold get_table. cbn [_tables set_tables].
    now rewrite get_set_same, Hself.
  - exact Hvals.
Qed.

Lemma add_item_inv (tn : string) (v : value) (w w' : world B) (T : Table)
    (R : dict row) :
  add_item check_schema utcnow tn v w = (w', Ok tt) ->
  get_table (store w) tn = Ok (set_rows T R) ->
  exists r r',
    v = VDict r /\ filled T r r' /\ only_table tn w w'
    /\ exists R', get_table (store w') tn = Ok (set_rows T R')
         /\ values R' = match cls T with
                        | ClsTable => (values R ++ [r'])%list
                        | ClsSingleRowTable => [r']
                        end.
Proof.
  unfold add_item. intros Hadd Ht. destruct v as [ | | | | |l]; try discriminate.
  apply mbind_inv in Hadd as [wa [r' [Hadd Hret]]]. injection Hret as <-.
  destruct (table_add_inv _ _ _ Hadd Ht) as [Hfill [Honly HR]].
  exists l, r'. auto.
Qed.

(** A loop of [add] over decoded rows, in a table. *)
Lemma add_items_inv (tn : string) (T : Table) (rs : list row) :
  cls T = ClsTable ->
  forall (w w' : world B) (R : dict row),
    for_each (add_item check_schema utcnow tn) (map VDict rs) w = (w', Ok tt) ->
    get_table (store w) tn = Ok (set_rows T R) ->
    only_table tn w w'
    /\ exists R' rs', get_table (store w') tn = Ok (set_rows T R')
         /\ values R' = (values R ++ rs')%list
         /\ Forall2 (filled T) rs rs'.
Proof.
  intros Hcls. induction rs as [|r rs IH]; intros w w' R Hloop Ht.
  - injection Hloop as <-. split; [apply only_table_refl|].
    exists R, []. rewrite app_nil_r. auto.
  - cbn [map for_each] in Hloop.
    apply mbind_inv in Hloop as [wa [[] [Hadd Hloop]]].
    destruct (add_item_inv _ _ _ Hadd Ht) as [r0 [r' [[= <-] [Hfill [Honly [Ra [Hta Hva]]]]]]].
    rewrite Hcls in Hva.
    destruct (IH _ _ _ Hloop Hta) as [Honly' [R' [rs' [Ht' [Hv' Hall]]]]].
    split; [eapply only_table_trans; eassumption|].
    exists R', (r' :: rs'). split; [exact Ht'|]. split.
    + rewrite Hv', Hva, <- app_assoc. reflexivity.
    + now constructor.
Qed.

End LoadFacts.

(** ** A load touches one table *)

(** One step of a computation that reads the state and leaves it alone. *)
Ltac reads H x Hx :=
  let w0 := fresh "w0" in
  apply mbind_inv in H as [w0 [x [Hx H]]];
  unfold json_loads, lift, fetch_from_storage in Hx;
  injection Hx as <- Hx.

Section LoadFrame.
Variable check_schema : row -> value -> bool.
Variable utcnow : nat -> string.
Context {B : Type} {backend_of_B : Backend B}.

Lemma for_each_frame {A} (f : A -> M B unit) (n : string) (xs : list A) :
  (forall x w w', f x w = (w', Ok tt) -> only_table n w w') ->
  forall w w', for_each f xs w = (w', Ok tt) -> only_table n w w'.
Proof.
  intros Hf. induction xs as [|x xs IH]; intros w w' Hloop.
  - injection Hloop as <-. apply only_table_refl.
  - cbn [for_each] in Hloop. apply mbind_inv in Hloop as [wa [[] [Hx Hloop]]].
    eapply only_table_trans; eauto.
Qed.

Lemma add_item_frame (tn : string) (v : value) (w w' : world B) :
  add_item check_schema utcnow tn v w = (w', Ok tt) -> only_table tn w w'.
Proof.
  intros Hadd.
  destruct (get_table (store w) tn) as [t|e] eqn:Ht.
  - rewrite <- (set_rows_same t) in Ht.
    destruct (add_item_inv _ _ _ _ _ Hadd Ht) as [r [r' [_ [_ [Honly _]]]]]. exact Honly.
  - unfold add_item in Hadd. destruct v; try discriminate.
    apply mbind_inv in Hadd as [wa [r' [Hadd _]]].
    unfold table_add in Hadd. rewrite Ht in Hadd. discriminate.
Qed.

Lemma load_row_file_frame (tn : string) (pk : value) (w w' : world B) :
  load_row_file check_schema utcnow tn pk w = (w', Ok tt) -> only_table tn w w'.
Proof.
  unfold load_row_file. destruct pk; try discriminate. intros H.
  reads H t Ht.
  reads H fn Hfn.
  reads H data Hdata.
  reads H r Hr.
  now apply add_item_frame in H.
Qed.

Lemma load_group_file_frame (tn : string) (group_key : row) (w w' : world B) :
  load_group_file check_schema utcnow tn group_key w = (w', Ok tt) -> only_table tn w w'.
Proof.
  unfold load_group_file. intros H.
  reads H t Ht.
  reads H fn Hfn.
  reads H data Hdata.
  reads H rows Hrows.
  reads H items Hitems.
  revert H. apply for_each_frame. intros x wa wb. apply add_item_frame.
Qed.

(** [Table.load] changes nothing but the table it loads. *)
Lemma Table_load_frame (tn : string) (w w' : world B) :
  Table_load check_schema utcnow tn w = (w', Ok tt) -> only_table tn w w'.
Proof.
  unfold Table_load. intros H.
  reads H t0 Ht0.
  destruct (cls t0).
  - unfold Table__load_table_data in H.
    reads H t Ht.
    destruct (negb (truthy_fields (_group_by_fields t))).
    + reads H fn Hfn.
      reads H data Hdata.
      reads H rows Hrows.
      reads H items Hitems.
      revert H. apply for_each_frame. intros x wa wb. apply add_item_frame.
    + reads H fn Hfn.
      reads H data Hdata.
      reads H idx Hidx.
      reads H items Hitems.
      destruct (match _group_by_fields t with
                | Some g => list_string_eqb g (_pk_fields t)
                | None => false
                end).
      * revert H. apply for_each_frame. intros x wa wb. apply load_row_file_frame.
      * reads H kg Hkg.
        revert H. apply for_each_frame. intros x wa wb. apply load_group_file_frame.
  - unfold SingleRowTable__load_table_data in H.
    reads H t Ht.
    reads H fn Hfn.
    reads H data Hdata.
    reads H doc Hdoc.
    now apply add_item_frame in H.
Qed.

End LoadFrame.

(** ** What a load reads *)

Lemma row_files_docs (t : Table) (rs : list row) :
  row_files t rs = (docs <- row_docs t rs ;; Ok (map encode_doc docs)).
Proof.
  induction rs as [|r rs IH]; [reflexivity|]. cbn [row_files row_docs].
  destruct (get_filename t (Some r) false); [|reflexivity].
  destruct (orderly_row t r); [|reflexivity]. cbn [bind]. rewrite IH.
  destruct (row_docs t rs); reflexivity.
Qed.

Lemma group_files_docs (t : Table) (rowsets : list (list row)) :
  group_files t rowsets = (docs <- group_docs t rowsets ;; Ok (map encode_doc docs)).
Proof.
  induction rowsets as [|rowset rowsets IH]; [reflexivity|]. cbn [group_files group_docs].
  destruct (get_filename t (Some (hd [] rowset)) false); [|reflexivity].
  cbn [bind]. rewrite IH. destruct (group_docs t rowsets); reflexivity.
Qed.

(** The files of a table are its documents, encoded. *)
Lemma table_files_docs (t : Table) :
  table_files t = (docs <- table_docs t ;; Ok (map encode_doc docs)).
Proof.
  unfold table_files, table_docs. destruct (cls t).
  - destruct (truthy_fields (_group_by_fields t)).
    + assert (Hbody : forall body : res (list (string * value)),
                (b <- (d <- body ;; Ok (map encode_doc d)) ;;
                 index <- index_of t (rows_sorted t) ;;
                 fn <- get_filename t None true ;;
                 Ok (b ++ [(fn, Json.dumps (VList (map VDict index)))])%list)
                = (docs <- (b <- body ;;
                            index <- index_of t (rows_sorted t) ;;
                            fn <- get_filename t None true ;;
                            Ok (b ++ [(fn, VList (map VDict index))])%list) ;;
                   Ok (map encode_doc docs))).
      { intros [b|e]; [|reflexivity]. cbn [bind].
        destruct (index_of t (rows_sorted t)); [|reflexivity]. cbn [bind].
        destruct (get_filename t None true); [|reflexivity]. cbn [bind].
        now rewrite map_app. }
      destruct (match _group_by_fields t with
                | Some g => list_string_eqb g (_pk_fields t)
                | None => false
                end).
      * rewrite row_files_docs. apply Hbody.
      * rewrite <- Hbody. destruct (group_rows t (rows_sorted t) []); [|reflexivity].
        cbn [bind]. now rewrite group_files_docs.
    + destruct (orderly_rows t (rows_sorted t)); [|reflexivity]. cbn [bind].
      destruct (get_filename t None false); reflexivity.
  - destruct (get_filename t None false); reflexivity.
Qed.

Lemma get_filename_as_defined (t : Table) (R : dict row) (r : option row)
    (is_index_file : bool) :
  get_filename (set_rows (as_defined t) R) r is_index_file
  = get_filename t r is_index_file.
Proof. reflexivity. Qed.

(** The name of the file of a row depends on the row through the fields the
    table is grouped by. *)
Lemma get_filename_agree (t : Table) (g : list string) (a b : row) :
  _group_by_fields t = Some g ->
  (forall k, In k g -> Py.get k a = Py.get k b) ->
  a <> [] -> b <> [] ->
  get_filename t (Some a) false = get_filename t (Some b) false.
Proof.
  intros Hg Hagree Ha Hb. unfold get_filename. rewrite Hg.
  destruct a as [|ka a]; [contradiction|]. destruct b as [|kb b]; [contradiction|].
  cbn [truthy_row andb negb]. 
  assert (Hkey : _canonicalize_key t (ka :: a) true = _canonicalize_key t (kb :: b) true).
  { unfold _canonicalize_key. destruct (cls t); [|reflexivity].
    unfold Table__canonicalize_key. rewrite Hg. cbn [bind].
    now rewrite (issubset_agree _ _ _ Hagree), (key_parts_agree _ _ _ Hagree). }
  now rewrite Hkey.
Qed.

Lemma readable_tail {B : Type} {backend_of_B : Backend B} (b : B)
    (docs docs' : list (string * value)) :
  readable b docs -> incl docs' docs -> readable b docs'.
Proof. intros Hr Hincl f v Hin. apply Hr. now apply Hincl. Qed.

Section LoadRows.
Variable check_schema : row -> value -> bool.
Variable utcnow : nat -> string.
Context {B : Type} {backend_of_B : Backend B}.

(** Reading back a document the backend holds. *)
Lemma fetch_doc (w : world B) (docs : list (string * value)) (f data : string)
    (v v' : value) :
  readable (backend w) docs -> In (f, v) docs ->
  load_data (backend w) f = Ok data ->
  match Json.loads data with Some x => Ok x | None => Raise ValueError end = Ok v' ->
  v' = v.
Proof.
  intros Hread Hin Hload Hdec. destruct (Hread _ _ Hin) as [Hl Hc].
  rewrite Hl in Hload. injection Hload as <-. rewrite Hc in Hdec. congruence.
Qed.

(** A table kept in one file: a load adds its stored rows in their order. *)
Lemma Table_load_one_file (tn : string) (t : Table) (w w' : world B)
    (docs : list (string * value)) :
  Table_load check_schema utcnow tn w = (w', Ok tt) ->
  get_table (store w) tn = Ok (as_defined t) ->
  cls t = ClsTable -> truthy_fields (_group_by_fields t) = false ->
  table_docs t = Ok docs -> readable (backend w) docs ->
  exists rs t2,
    stored_rows t = Ok rs /\ get_table (store w') tn = Ok t2
    /\ Forall2 (filled t) rs (values (_rows t2)).
Proof.
  intros H Ht Hcls Hgb Hdocs Hread. unfold Table_load in H.
  reads H t0 Ht0. rewrite Ht in Ht0. injection Ht0 as <-.
  cbn [cls as_defined set_rows set_table_store] in H. rewrite Hcls in H.
  unfold Table__load_table_data in H.
  reads H t0 Ht0. rewrite Ht in Ht0. injection Ht0 as <-.
  cbn [_group_by_fields as_defined set_rows set_table_store] in H.
  rewrite Hgb in H. cbn [negb] in H.
  reads H fn Hfn. change (get_filename t None false = Ok fn) in Hfn.
  reads H data Hdata. reads H rows Hrows. reads H items Hitems.
  unfold table_docs, stored_rows in *. rewrite Hcls, Hgb in *. cbn [andb].
  destruct (orderly_rows t (rows_sorted t)) as [ors|e]; [|discriminate].
  cbn [bind] in Hdocs. rewrite Hfn in Hdocs. injection Hdocs as <-.
  assert (rows = VList (map VDict ors)).
  { eapply fetch_doc; eauto. now left. }
  subst rows. injection Hitems as <-.
  change (as_defined t) with (set_rows (as_defined t) []) in Ht.
  destruct (@add_items_inv check_schema utcnow B tn (as_defined t) ors Hcls w w' [] H Ht)
    as [_ [R' [rs' [Ht' [Hv Hall]]]]].
  exists ors, (set_rows (as_defined t) R'). split; [reflexivity|].
  split; [exact Ht'|]. cbn [_rows set_rows]. rewrite Hv. exact Hall.
Qed.

(** A document table: a load stores its document. *)
Lemma Table_load_document (tn : string) (t : Table) (w w' : world B)
    (docs : list (string * value)) :
  Table_load check_schema utcnow tn w = (w', Ok tt) ->
  get_table (store w) tn = Ok (as_defined t) ->
  cls t = ClsSingleRowTable ->
  table_docs t = Ok docs -> readable (backend w) docs ->
  exists rs t2,
    stored_rows t = Ok rs /\ get_table (store w') tn = Ok t2
    /\ Forall2 (filled t) rs (values (_rows t2)).
Proof.
  intros H Ht Hcls Hdocs Hread. unfold Table_load in H.
  reads H t0 Ht0. rewrite Ht in Ht0. injection Ht0 as <-.
  cbn [cls as_defined set_rows set_table_store] in H. rewrite Hcls in H.
  unfold SingleRowTable__load_table_data in H.
  reads H t0 Ht0. rewrite Ht in Ht0. injection Ht0 as <-.
  reads H fn Hfn. change (get_filename t None false = Ok fn) in Hfn.
  reads H data Hdata. reads H doc Hdoc.
  unfold table_docs, stored_rows in *. rewrite Hcls in *.
  rewrite Hfn in Hdocs. injection Hdocs as <-.
  match type of Hread with
  | readable _ [(_, VDict ?d)] => set (the_doc := d) in *
  end.
  assert (doc = VDict the_doc).
  { eapply fetch_doc; eauto. now left. }
  subst doc.
  change (as_defined t) with (set_rows (as_defined t) []) in Ht.
  destruct (@add_item_inv check_schema utcnow B tn _ w w' (as_defined t) [] H Ht)
    as [r [r' [[= <-] [Hfill [_ [R' [Ht' Hv]]]]]]].
  cbn [cls as_defined set_rows set_table_store] in Hv. rewrite Hcls in Hv.
  exists [the_doc], (set_rows (as_defined t) R'). split; [reflexivity|].
  split; [exact Ht'|]. cbn [_rows set_rows]. rewrite Hv. now repeat constructor.
Qed.

End LoadRows.

Lemma issubset_nonempty (g : list string) (a : row) :
  truthy_fields (Some g) = true -> issubset g a = true -> a <> [].
Proof.
  intros Hg Hsub ->. destruct g as [|k g]; [discriminate|].
  unfold issubset in Hsub. cbn in Hsub. discriminate.
Qed.

Lemma orderly_rows_Forall2 (t : Table) (rs ors : list row) :
  orderly_rows t rs = Ok ors -> Forall2 (fun r o => orderly_row t r = Ok o) rs ors.
Proof.
  revert ors. induction rs as [|r rs IH]; intros ors H.
  - injection H as <-. constructor.
  - cbn [orderly_rows] in H. destruct (orderly_row t r) as [o|] eqn:Ho; [|discriminate].
    cbn [bind] in H. destruct (orderly_rows t rs) as [os|]; [|discriminate].
    injection H as <-. constructor; auto.
Qed.

Section LoadRowFiles.
Variable check_schema : row -> value -> bool.
Variable utcnow : nat -> string.
Context {B : Type} {backend_of_B : Backend B}.

(** A table kept one row per file: the loop over the index adds the stored
    rows in their order. *)
Lemma load_row_files_inv (tn : string) (t : Table) (g : list string) :
  cls t = ClsTable ->
  _group_by_fields t = Some g -> truthy_fields (Some g) = true -> g = _pk_fields t ->
  forall (rows : list row) (w w' : world B) (R : dict row)
         (docs : list (string * value)) (idx : list row),
    row_docs t rows = Ok docs -> index_of t rows = Ok idx ->
    readable (backend w) docs ->
    for_each (load_row_file check_schema utcnow tn) (map VDict idx) w = (w', Ok tt) ->
    get_table (store w) tn = Ok (set_rows (as_defined t) R) ->
    exists ors R' rs',
      orderly_rows t rows = Ok ors
      /\ get_table (store w') tn = Ok (set_rows (as_defined t) R')
      /\ values R' = (values R ++ rs')%list
      /\ Forall2 (filled t) ors rs'.
Proof.
  intros Hcls Hg Htruthy Hpk.
  induction rows as [|r rows IH]; intros w w' R docs idx Hdocs Hidx Hread H Ht.
  - injection Hidx as <-. injection H as <-.
    exists [], R, []. rewrite app_nil_r. split_and; auto.
  - cbn [row_docs index_of orderly_rows] in *.
    destruct (get_filename t (Some r) false) as [fn|] eqn:Hfn; [|discriminate].
    destruct (orderly_row t r) as [o|] eqn:Ho; [|discriminate].
    destruct (row_docs t rows) as [docs'|] eqn:Hdocs'; [|discriminate].
    injection Hdocs as <-.
    destruct (project (_pk_fields t) r []) as [p|] eqn:Hp; [|discriminate].
    destruct (index_of t rows) as [idx'|] eqn:Hidx'; [|discriminate].
    injection Hidx as <-. cbn [bind map for_each] in *.
    apply mbind_inv in H as [wa [[] [Hfile H]]].
    unfold load_row_file in Hfile.
    reads Hfile t0 Ht0. rewrite Ht in Ht0. injection Ht0 as <-.
    reads Hfile fn' Hfn'. rewrite get_filename_as_defined in Hfn'.
    destruct (project_get _ _ _ Hp) as [Hget [_ Hsub]].
    assert (Hagree : forall k, In k g -> Py.get k p = Py.get k r).
    { intros k Hk. rewrite Hget. rewrite Hpk in Hk.
      assert (Hin : str_in k (_pk_fields t) = true).
      { apply existsb_exists. exists k. split; [exact Hk|apply String.eqb_refl]. }
      now rewrite Hin. }
    rewrite <- Hpk in Hsub.
    assert (Hsubp : issubset g p = true) by now rewrite (issubset_agree _ _ _ Hagree).
    rewrite (@get_filename_agree t g p r Hg Hagree
               (@issubset_nonempty g p Htruthy Hsubp) (@issubset_nonempty g r Htruthy Hsub))
      in Hfn'.
    assert (fn' = fn) by congruence. subst fn'.
    reads Hfile data Hdata. reads Hfile v Hv.
    assert (v = VDict o).
    { eapply fetch_doc; eauto. now left. }
    subst v.
    destruct (@add_item_inv check_schema utcnow B tn _ w wa (as_defined t) R Hfile Ht)
      as [r0 [r' [[= <-] [Hfill [[Hback _] [Ra [Hta Hva]]]]]]].
    cbn [cls as_defined set_rows set_table_store] in Hva. rewrite Hcls in Hva.
    assert (Hread' : readable (backend wa) docs').
    { rewrite Hback. apply (readable_tail Hread). now apply incl_tl, incl_refl. }
    destruct (IH wa w' Ra docs' idx' eq_refl eq_refl Hread' H Hta)
      as [ors [R' [rs' [Hors [Ht' [Hv' Hall]]]]]].
    rewrite Hors. exists (o :: ors), R', (r' :: rs').
    split; [reflexivity|]. split; [exact Ht'|]. split; [|constructor; assumption].
    rewrite Hv', Hva, <- app_assoc. reflexivity.
Qed.

(** A table kept one row per file: a load adds its stored rows. *)
Lemma Table_load_row_files (tn : string) (t : Table) (g : list string)
    (w w' : world B) (docs : list (string * value)) :
  Table_load check_schema utcnow tn w = (w', Ok tt) ->
  get_table (store w) tn = Ok (as_defined t) ->
  cls t = ClsTable ->
  _group_by_fields t = Some g -> truthy_fields (Some g) = true -> g = _pk_fields t ->
  table_docs t = Ok docs -> readable (backend w) docs ->
  exists rs t2,
    stored_rows t = Ok rs /\ get_table (store w') tn = Ok t2
    /\ Forall2 (filled t) rs (values (_rows t2)).
Proof.
  intros H Ht Hcls Hg Htruthy Hpk Hdocs Hread. unfold Table_load in H.
  reads H t0 Ht0. rewrite Ht in Ht0. injection Ht0 as <-.
  cbn [cls as_defined set_rows set_table_store] in H. rewrite Hcls in H.
  unfold Table__load_table_data in H.
  reads H t0 Ht0. rewrite Ht in Ht0. injection Ht0 as <-.
  cbn [_group_by_fields _pk_fields as_defined set_rows set_table_store] in H.
  unfold table_docs, stored_rows in *. rewrite Hcls, Hg, Htruthy in *.
  assert (Heqb : list_string_eqb g (_pk_fields t) = true) by now apply list_string_eqb_eq.
  rewrite Heqb in *. cbn [negb andb] in *.
  reads H fn Hfn. change (get_filename t None true = Ok fn) in Hfn.
  reads H data Hdata. reads H v Hv. reads H items Hitems.
  destruct (row_docs t (rows_sorted t)) as [body|] eqn:Hbody; [|discriminate].
  cbn [bind] in Hdocs.
  destruct (index_of t (rows_sorted t)) as [idx|] eqn:Hidx; [|discriminate].
  cbn [bind] in Hdocs. rewrite Hfn in Hdocs. injection Hdocs as <-.
  assert (v = VList (map VDict idx)).
  { eapply fetch_doc; eauto. apply in_or_app. right. now left. }
  subst v. injection Hitems as <-.
  change (as_defined t) with (set_rows (as_defined t) []) in Ht.
  assert (Hread' : readable (backend w) body).
  { apply (readable_tail Hread). now apply incl_appl, incl_refl. }
  destruct (@load_row_files_inv tn t g Hcls Hg Htruthy Hpk (rows_sorted t) w w' []
              body idx Hbody Hidx Hread' H Ht)
    as [ors [R' [rs' [Hors [Ht' [Hv' Hall]]]]]].
  exists ors, (set_rows (as_defined t) R'). split; [exact Hors|].
  split; [exact Ht'|]. cbn [_rows set_rows]. now rewrite Hv'.
Qed.

End LoadRowFiles.

(** ** Tables kept in groups *)

Lemma canonicalize_group_subset (t : Table) (g : list string) (a : row) (key : string) :
  cls t = ClsTable -> _group_by_fields t = Some g ->
  _canonicalize_key t a true = Ok key -> issubset g a = true.
Proof.
  intros Hcls Hg. unfold _canonicalize_key, Table__canonicalize_key.
  rewrite Hcls, Hg. cbn [bind]. destruct (issubset g a); [reflexivity|discriminate].
Qed.

Lemma canonicalize_group_agree (t : Table) (g : list string) (a b : row) :
  _group_by_fields t = Some g ->
  (forall k, In k g -> Py.get k a = Py.get k b) ->
  _canonicalize_key t a true = _canonicalize_key t b true.
Proof.
  intros Hg Hagree. unfold _canonicalize_key. destruct (cls t); [|reflexivity].
  unfold Table__canonicalize_key. rewrite Hg. cbn [bind].
  now rewrite (issubset_agree _ _ _ Hagree), (key_parts_agree _ _ _ Hagree).
Qed.

(** The name of the file of a group depends on the row it is asked for
    through the group key of that row. *)
Lemma get_filename_key (t : Table) (g : list string) (a b : row) (key : string) :
  cls t = ClsTable -> _group_by_fields t = Some g -> truthy_fields (Some g) = true ->
  _canonicalize_key t a true = Ok key -> _canonicalize_key t b true = Ok key ->
  get_filename t (Some a) false = get_filename t (Some b) false.
Proof.
  intros Hcls Hg Htruthy Ha Hb.
  pose proof (@issubset_nonempty g a Htruthy (@canonicalize_group_subset t g a key Hcls Hg Ha)) as Hna.
  pose proof (@issubset_nonempty g b Htruthy (@canonicalize_group_subset t g b key Hcls Hg Hb)) as Hnb.
  unfold get_filename. rewrite Hg.
  destruct a as [|ka a]; [contradiction|]. destruct b as [|kb b]; [contradiction|].
  cbn [truthy_row andb negb]. now rewrite Ha, Hb.
Qed.

Lemma group_entry_set (t : Table) (key : string) (q d : row) :
  _canonicalize_key t q true = Ok key -> _canonicalize_key t d true = Ok key ->
  forall (acck : dict row) (accg : dict (list row)),
    Forall2 (group_entry t) acck accg ->
    Forall2 (group_entry t) (Py.set key q acck)
      (Py.set key ((match Py.get key accg with
                    | Some l => l
                    | None => []
                    end) ++ [d])%list accg).
Proof.
  intros Hq Hd acck accg Hall.
  induction Hall as [|[k1 q1] [k2 l2] acck accg [Hk [Hq1 [Hne Hl2]]] Hall IH].
  - cbn [Py.set Py.get]. constructor; [|constructor]. unfold group_entry. cbn [fst snd].
    split; [reflexivity|]. split; [exact Hq|]. split; [discriminate|].
    intros o [<-|[]]. exact Hd.
  - cbn [fst snd] in *. subst k2. cbn [Py.set Py.get].
    destruct (String.eqb_spec key k1) as [->|Hneq].
    + constructor; [|exact Hall]. unfold group_entry. cbn [fst snd].
      split; [reflexivity|]. split; [exact Hq|]. split.
      * intros Happ. apply app_eq_nil in Happ as [_ Happ]. discriminate.
      * intros o Ho. apply in_app_or in Ho as [Ho|[<-|[]]]; auto.
    + constructor; [|exact IH]. unfold group_entry. cbn [fst snd]. auto.
Qed.

Lemma in_concat_set_append {A} (key : string) (d o : A) (acc : dict (list A)) :
  In o (List.concat (values (Py.set key ((match Py.get key acc with
                                         | Some l => l
                                         | None => []
                                         end) ++ [d])%list acc)))
  <-> In o (List.concat (values acc)) \/ o = d.
Proof.
  induction acc as [|[k l] acc IH].
  - cbn. split; [intros [<-|[]]; now right|intros [[]| ->]; now left].
  - cbn [Py.set Py.get]. destruct (String.eqb key k).
    + cbn [values map snd List.concat]. rewrite !in_app_iff. cbn [In].
      split; [intros [[H|[<-|[]]]|H]|intros [[H|H]| ->]]; auto.
    + cbn [values map snd List.concat] in *. rewrite !in_app_iff, IH. tauto.
Qed.

(** The groups hold the stored form of every row, and nothing else. *)
Lemma group_rows_in (t : Table) (rs : list row) :
  forall (acc group : dict (list row)),
    group_rows t rs acc = Ok group ->
    forall o, In o (List.concat (values group))
              <-> In o (List.concat (values acc))
                  \/ exists r, In r rs /\ orderly_row t r = Ok o.
Proof.
  induction rs as [|r rs IH]; intros acc group H o.
  - injection H as <-. split; [now left|]. intros [H|[r [[] _]]]. exact H.
  - cbn [group_rows] in H.
    destruct (_canonicalize_key t r true) as [key|]; [|discriminate].
    destruct (orderly_row t r) as [d|] eqn:Hd; [|discriminate]. cbn [bind] in H.
    rewrite (IH _ _ H o), in_concat_set_append. split.
    + intros [[Hin| ->]|[r' [Hin Ho]]]; [now left|right|right].
      * exists r. split; [now left|exact Hd].
      * exists r'. split; [now right|exact Ho].
    + intros [Hin|[r' [[<-|Hin] Ho]]]; [now left; left| |].
      * left. right. congruence.
      * right. now exists r'.
Qed.

(** The groups a load rebuilds from the index are the groups of the save,
    entry by entry. *)
Lemma groups_match (t : Table) (g : list string) :
  cls t = ClsTable -> _group_by_fields t = Some g ->
  forall (rows idx : list row) (acck kg : dict row) (accg group : dict (list row)),
    Forall (fun r => is_dict r = true) rows ->
    index_of t rows = Ok idx ->
    group_rows t rows accg = Ok group ->
    key_groups_of t (map VDict idx) acck = Ok kg ->
    Forall2 (group_entry t) acck accg ->
    Forall2 (group_entry t) kg group.
Proof.
  intros Hcls Hg.
  induction rows as [|r rows IH]; intros idx acck kg accg group Hdict Hidx Hgroup Hkg Hall.
  - injection Hidx as <-. injection Hgroup as <-. injection Hkg as <-. exact Hall.
  - cbn [index_of group_rows] in *.
    destruct (project (_pk_fields t) r []) as [p|] eqn:Hp; [|discriminate].
    destruct (index_of t rows) as [idx'|] eqn:Hidx'; [|discriminate].
    injection Hidx as <-. cbn [bind map key_groups_of] in *.
    destruct (_canonicalize_key t r true) as [key|] eqn:Hkey; [|discriminate].
    destruct (orderly_row t r) as [d|] eqn:Hd; [|discriminate]. cbn [bind] in *.
    destruct (_canonicalize_key t p true) as [key'|] eqn:Hkey'; [|discriminate].
    cbn [bind] in *.
    inversion Hdict as [|? ? Hr Hrows]; subst.
    destruct (project_get _ _ _ Hp) as [Hget _].
    pose proof (@canonicalize_group_subset t g p key' Hcls Hg Hkey') as Hsubp.
    assert (Hagree : forall k, In k g -> Py.get k p = Py.get k r).
    { intros k Hk. rewrite issubset_forall in Hsubp. destruct (Hsubp k Hk) as [v Hv].
      rewrite Hget in *. destruct (str_in k (_pk_fields t)); [reflexivity|discriminate]. }
    assert (key' = key).
    { rewrite (@canonicalize_group_agree t g p r Hg Hagree) in Hkey'. congruence. }
    subst key'.
    destruct (@orderly_row_same t r d Hr Hd) as [Hsame _].
    assert (Hkd : _canonicalize_key t d true = Ok key).
    { rewrite <- Hkey. apply (@canonicalize_group_agree t g d r Hg).
      intros k _. symmetry. apply Hsame. }
    apply (IH idx' _ kg _ group Hrows eq_refl Hgroup Hkg).
    now apply group_entry_set.
Qed.

Lemma key_groups_of_as_defined (t : Table) (idx : list value) :
  forall acc, key_groups_of (as_defined t) idx acc = key_groups_of t idx acc.
Proof.
  induction idx as [|v idx IH]; intros acc; [reflexivity|].
  cbn [key_groups_of]. destruct v as [ | | | | |l]; try reflexivity.
  change (_canonicalize_key (as_defined t) l true) with (_canonicalize_key t l true).
  destruct (_canonicalize_key t l true); [|reflexivity]. cbn [bind]. apply IH.
Qed.

Section LoadGroups.
Variable check_schema : row -> value -> bool.
Variable utcnow : nat -> string.
Context {B : Type} {backend_of_B : Backend B}.

(** A table kept in groups: the loop over the rebuilt groups adds the rows of
    the groups of the save, group after group. *)
Lemma load_group_files_inv (tn : string) (t : Table) (g : list string) :
  cls t = ClsTable -> _group_by_fields t = Some g -> truthy_fields (Some g) = true ->
  forall (kg : dict row) (group : dict (list row)),
    Forall2 (group_entry t) kg group ->
    forall (w w' : world B) (R : dict row) (docs : list (string * value)),
      group_docs t (values group) = Ok docs ->
      readable (backend w) docs ->
      for_each (load_group_file check_schema utcnow tn) (values kg) w = (w', Ok tt) ->
      get_table (store w) tn = Ok (set_rows (as_defined t) R) ->
      exists R' rs',
        get_table (store w') tn = Ok (set_rows (as_defined t) R')
        /\ values R' = (values R ++ rs')%list
        /\ Forall2 (filled t) (List.concat (values group)) rs'.
Proof.
  intros Hcls Hg Htruthy kg group Hall.
  induction Hall as [|[k1 q] [k2 l] kg group [Hk [Hq [Hne Hl]]] Hall IH];
    intros w w' R docs Hdocs Hread H Ht.
  - injection H as <-. exists R, []. rewrite app_nil_r.
    split; [exact Ht|]. split; [reflexivity|constructor].
  - cbn [fst snd] in *. subst k2.
    cbn [values map snd group_docs for_each List.concat] in *.
    destruct (get_filename t (Some (hd [] l)) false) as [fn|] eqn:Hfn; [|discriminate].
    cbn [bind] in Hdocs.
    destruct (group_docs t (map snd group)) as [docs'|] eqn:Hdocs'; [|discriminate].
    injection Hdocs as <-.
    apply mbind_inv in H as [wa [[] [Hfile H]]].
    unfold load_group_file in Hfile.
    reads Hfile t0 Ht0. rewrite Ht in Ht0. injection Ht0 as <-.
    reads Hfile fn' Hfn'. rewrite get_filename_as_defined in Hfn'.
    assert (Hhd : _canonicalize_key t (hd [] l) true = Ok k1).
    { apply Hl. destruct l; [contradiction|]. now left. }
    rewrite (@get_filename_key t g q (hd [] l) k1 Hcls Hg Htruthy Hq Hhd) in Hfn'.
    assert (fn' = fn) by congruence. subst fn'.
    reads Hfile data Hdata. reads Hfile v Hv. reads Hfile items Hitems.
    assert (v = VList (map VDict l)).
    { eapply fetch_doc; eauto. now left. }
    subst v. injection Hitems as <-.
    destruct (@add_items_inv check_schema utcnow B tn (as_defined t) l Hcls w wa R Hfile Ht)
      as [[Hback _] [Ra [rs1 [Hta [Hva Hall1]]]]].
    assert (Hread' : readable (backend wa) docs').
    { rewrite Hback. apply (readable_tail Hread). now apply incl_tl, incl_refl. }
    destruct (IH wa w' Ra docs' Hdocs' Hread' H Hta) as [R' [rs2 [Ht' [Hv' Hall2]]]].
    exists R', (rs1 ++ rs2)%list. split; [exact Ht'|]. split.
    + rewrite Hv', Hva, <- app_assoc. reflexivity.
    + now apply Forall2_app.
Qed.

(** A table kept in groups: a load adds its stored rows. *)
Lemma Table_load_groups (tn : string) (t : Table) (g : list string)
    (w w' : world B) (docs : list (string * value)) :
  Table_load check_schema utcnow tn w = (w', Ok tt) ->
  get_table (store w) tn = Ok (as_defined t) ->
  cls t = ClsTable ->
  _group_by_fields t = Some g -> truthy_fields (Some g) = true -> g <> _pk_fields t ->
  Forall (fun r => is_dict r = true) (rows_sorted t) ->
  table_docs t = Ok docs -> readable (backend w) docs ->
  exists rs t2,
    stored_rows t = Ok rs /\ get_table (store w') tn = Ok t2
    /\ Forall2 (filled t) rs (values (_rows t2)).
Proof.
  intros H Ht Hcls Hg Htruthy Hpk Hdict Hdocs Hread. unfold Table_load in H.
  reads H t0 Ht0. rewrite Ht in Ht0. injection Ht0 as <-.
  cbn [cls as_defined set_rows set_table_store] in H. rewrite Hcls in H.
  unfold Table__load_table_data in H.
  reads H t0 Ht0. rewrite Ht in Ht0. injection Ht0 as <-.
  cbn [_group_by_fields _pk_fields as_defined set_rows set_table_store] in H.
  unfold table_docs, stored_rows in *. rewrite Hcls, Hg, Htruthy in *.
  assert (Heqb : list_string_eqb g (_pk_fields t) = false).
  { apply not_true_is_false. intros Heq. now apply list_string_eqb_eq in Heq. }
  rewrite Heqb in *. cbn [negb andb] in *.
  reads H fn Hfn. change (get_filename t None true = Ok fn) in Hfn.
  reads H data Hdata. reads H v Hv. reads H items Hitems.
  destruct (group_rows t (rows_sorted t) []) as [group|] eqn:Hgroup; [|discriminate].
  cbn [bind] in Hdocs.
  destruct (group_docs t (values group)) as [body|] eqn:Hbody; [|discriminate].
  cbn [bind] in Hdocs.
  destruct (index_of t (rows_sorted t)) as [idx|] eqn:Hidx; [|discriminate].
  cbn [bind] in Hdocs. rewrite Hfn in Hdocs. injection Hdocs as <-.
  assert (v = VList (map VDict idx)).
  { eapply fetch_doc; eauto. apply in_or_app. right. now left. }
  subst v. injection Hitems as <-.
  reads H kg Hkg.
  rewrite key_groups_of_as_defined in Hkg.
  pose proof (@groups_match t g Hcls Hg (rows_sorted t) idx [] kg [] group
                Hdict Hidx Hgroup Hkg (Forall2_nil _)) as Hmatch.
  change (as_defined t) with (set_rows (as_defined t) []) in Ht.
  assert (Hread' : readable (backend w) body).
  { apply (readable_tail Hread). now apply incl_appl, incl_refl. }
  destruct (@load_group_files_inv tn t g Hcls Hg Htruthy kg group Hmatch w w' []
              body Hbody Hread' H Ht)
    as [R' [rs' [Ht' [Hv' Hall]]]].
  exists (List.concat (values group)), (set_rows (as_defined t) R').
  split; [reflexivity|]. split; [exact Ht'|]. cbn [_rows set_rows]. now rewrite Hv'.
Qed.

End LoadGroups.

(** ** The rows a load leaves in a table *)

Lemma Forall2_in_l {A C} (P : A -> C -> Prop) (l : list A) (l' : list C) (x : A) :
  Forall2 P l l' -> In x l -> exists y, In y l' /\ P x y.
Proof.
  intros H. induction H as [|a c l l' Hac H IH]; intros Hin; [contradiction|].
  destruct Hin as [<-|Hin].
  - exists c. split; [now left|exact Hac].
  - destruct (IH Hin) as [y [Hy Hxy]]. exists y. split; [now right|exact Hxy].
Qed.

Lemma Forall2_in_r {A C} (P : A -> C -> Prop) (l : list A) (l' : list C) (y : C) :
  Forall2 P l l' -> In y l' -> exists x, In x l /\ P x y.
Proof.
  intros H. induction H as [|a c l l' Hac H IH]; intros Hin; [contradiction|].
  destruct Hin as [<-|Hin].
  - exists a. split; [now left|exact Hac].
  - destruct (IH Hin) as [x [Hx Hxy]]. exists x. split; [now right|exact Hxy].
Qed.

Lemma group_rows_orderly (t : Table) (rs : list row) :
  forall (acc group : dict (list row)),
    group_rows t rs acc = Ok group ->
    forall r, In r rs -> exists o, orderly_row t r = Ok o.
Proof.
  induction rs as [|r rs IH]; intros acc group H r' Hin; [contradiction|].
  cbn [group_rows] in H.
  destruct (_canonicalize_key t r true) as [key|]; [|discriminate].
  destruct (orderly_row t r) as [d|] eqn:Hd; [|discriminate]. cbn [bind] in H.
  destruct Hin as [<-|Hin]; [now exists d|]. now apply (IH _ _ H).
Qed.

Lemma table_wf_inv (t : Table) :
  table_wf t = true ->
  is_dict (_rows t) = true
  /\ (forall r, In r (values (_rows t)) ->
        is_dict r = true /\ issubset (keys (_default_values t)) r = true)
  /\ (cls t = ClsSingleRowTable -> exists k doc, _rows t = [(k, doc)]).
Proof.
  unfold table_wf. intros H.
  apply andb_prop in H as [H Hone]. apply andb_prop in H as [Hdict Hall].
  split; [exact Hdict|]. split.
  - intros r Hin. unfold values in Hin. apply in_map_iff in Hin as [[k r0] [<- Hin]].
    rewrite forallb_forall in Hall. specialize (Hall _ Hin).
    now apply andb_prop in Hall.
  - intros Hcls. rewrite Hcls in Hone.
    destruct (_rows t) as [|[k doc] [|x l]]; try discriminate. now exists k, doc.
Qed.

(** The stored rows of a table are its rows: each in its stored form, which
    holds the same fields with the same values. *)
Lemma stored_rows_spec (t : Table) (rs : list row) :
  table_wf t = true -> stored_rows t = Ok rs ->
  (forall o, In o rs ->
     exists r, In r (values (_rows t)) /\ same_row r o /\ is_dict o = true)
  /\ (forall r, In r (values (_rows t)) -> exists o, In o rs /\ same_row r o).
Proof.
  intros Hwf Hrs. destruct (table_wf_inv _ Hwf) as [Hdict [Hrows Hone]].
  unfold stored_rows in Hrs. destruct (cls t) eqn:Hcls.
  - assert (Hspec : (forall o, In o rs ->
                       exists r, In r (rows_sorted t) /\ orderly_row t r = Ok o)
                    /\ (forall r, In r (rows_sorted t) ->
                          exists o, In o rs /\ orderly_row t r = Ok o)).
    { destruct (_ && _).
      - destruct (group_rows t (rows_sorted t) []) as [group|] eqn:Hgroup; [|discriminate].
        injection Hrs as <-. split.
        + intros o Ho. apply (group_rows_in _ _ _ Hgroup) in Ho as [[]|Ho]. exact Ho.
        + intros r Hr. destruct (group_rows_orderly _ _ _ Hgroup _ Hr) as [o Ho].
          exists o. split; [|exact Ho]. apply (group_rows_in _ _ _ Hgroup).
          right. now exists r.
      - apply orderly_rows_Forall2 in Hrs. split.
        + intros o Ho.
          exact (@Forall2_in_r _ _ (fun r o => orderly_row t r = Ok o) _ _ o Hrs Ho).
        + intros r Hr.
          exact (@Forall2_in_l _ _ (fun r o => orderly_row t r = Ok o) _ _ r Hrs Hr). }
    destruct Hspec as [Hfrom Hto]. split.
    + intros o Ho. destruct (Hfrom o Ho) as [r [Hr Hro]].
      apply (rows_sorted_in t r Hdict) in Hr. destruct (Hrows r Hr) as [Hd _].
      destruct (@orderly_row_same t r o Hd Hro) as [Hsame Hdo].
      exists r. auto.
    + intros r Hr. destruct (Hrows r Hr) as [Hd _].
      apply (rows_sorted_in t r Hdict) in Hr. destruct (Hto r Hr) as [o [Ho Hro]].
      destruct (@orderly_row_same t r o Hd Hro) as [Hsame _].
      exists o. auto.
  - destruct (Hone eq_refl) as [k [doc Heq]].
    unfold SingleRowTable_get in Hrs. rewrite Heq in *. cbn in Hrs. injection Hrs as <-.
    cbn [values map snd] in *. split.
    + intros o [<-|[]]. exists doc. split; [now left|]. split; [apply same_row_refl|].
      apply Hrows. now left.
    + intros r [<-|[]]. exists doc. split; [now left|apply same_row_refl].
Qed.

(** Filled with the defaults, the stored rows are the rows of the table. *)
Lemma stored_rows_same (t : Table) (rs rs' : list row) :
  table_wf t = true -> stored_rows t = Ok rs -> Forall2 (filled t) rs rs' ->
  same_rows (values (_rows t)) rs'.
Proof.
  intros Hwf Hrs Hall. destruct (stored_rows_spec _ Hwf Hrs) as [Hfrom Hto].
  destruct (table_wf_inv _ Hwf) as [_ [Hrows _]].
  assert (Hfill : forall o r', In o rs -> filled t o r' ->
            exists r, In r (values (_rows t)) /\ same_row r r').
  { intros o r' Ho Hf. destruct (Hfrom o Ho) as [r [Hr [Hsame Hdo]]].
    exists r. split; [exact Hr|]. apply (same_row_trans Hsame).
    apply (@filled_same t o r' Hdo); [|exact Hf].
    rewrite <- (same_row_issubset _ Hsame). now apply Hrows. }
  split.
  - intros r Hr. destruct (Hto r Hr) as [o [Ho Hsame]].
    destruct (@Forall2_in_l _ _ _ _ _ o Hall Ho) as [r' [Hr' Hf]].
    exists r'. split; [exact Hr'|]. apply (same_row_trans Hsame).
    destruct (Hfrom o Ho) as [r0 [Hr0 [Hsame0 Hdo]]].
    apply (@filled_same t o r' Hdo); [|exact Hf].
    rewrite <- (same_row_issubset _ Hsame0). now apply Hrows.
  - intros r' Hr'. destruct (@Forall2_in_r _ _ _ _ _ r' Hall Hr') as [o [Ho Hf]].
    destruct (Hfill o r' Ho Hf) as [r [Hr Hsame]]. now exists r.
Qed.

Section LoadTables.
Variable check_schema : row -> value -> bool.
Variable utcnow : nat -> string.
Context {B : Type} {backend_of_B : Backend B}.

(** A load of a table that returns, from a backend that holds the documents
    of the table: the table ends up with its stored rows, filled with the
    defaults. *)
Lemma Table_load_rows (tn : string) (t : Table) (w w' : world B)
    (docs : list (string * value)) :
  Table_load check_schema utcnow tn w = (w', Ok tt) ->
  get_table (store w) tn = Ok (as_defined t) ->
  table_wf t = true ->
  table_docs t = Ok docs -> readable (backend w) docs ->
  exists rs t2,
    stored_rows t = Ok rs /\ get_table (store w') tn = Ok t2
    /\ Forall2 (filled t) rs (values (_rows t2)).
Proof.
  intros H Ht Hwf Hdocs Hread. destruct (table_wf_inv _ Hwf) as [Hdict [Hrows _]].
  destruct (cls t) eqn:Hcls.
  - destruct (truthy_fields (_group_by_fields t)) eqn:Htruthy.
    + destruct (_group_by_fields t) as [g|] eqn:Hg; [|discriminate].
      destruct (list_eq_dec string_dec g (_pk_fields t)) as [Hpk|Hpk].
      * eapply Table_load_row_files; eauto.
      * eapply Table_load_groups; eauto.
        apply Forall_forall. intros r Hr. apply (rows_sorted_in t r Hdict) in Hr.
        now apply Hrows.
    + eapply Table_load_one_file; eauto.
  - eapply Table_load_document; eauto.
Qed.

(** The loads of other tables leave a table and the backend alone. *)
Lemma for_each_Table_load_other (tn : string) (names : list string) :
  ~ In tn names ->
  forall (w w' : world B),
    for_each (Table_load check_schema utcnow) names w = (w', Ok tt) ->
    backend w' = backend w /\ get_table (store w') tn = get_table (store w) tn.
Proof.
  intros Hn. induction names as [|n names IH]; intros w w' H.
  - injection H as <-. auto.
  - cbn [for_each] in H. apply mbind_inv in H as [wa [[] [Hload H]]].
    apply Table_load_frame in Hload as [Hb Hother].
    destruct (IH (fun Hin => Hn (or_intror Hin)) wa w' H) as [Hb' Ht'].
    split; [congruence|]. rewrite Ht'. apply Hother.
    intros ->. apply Hn. now left.
Qed.

(** A loop of loads that returns, over names without repetition: the table
    [tn] of the list ends up with its stored rows, filled with the defaults. *)
Lemma for_each_Table_load (tn : string) (t : Table) (docs : list (string * value))
    (names : list string) :
  table_wf t = true -> table_docs t = Ok docs ->
  NoDup names -> In tn names ->
  forall (w w' : world B),
    for_each (Table_load check_schema utcnow) names w = (w', Ok tt) ->
    get_table (store w) tn = Ok (as_defined t) ->
    readable (backend w) docs ->
    exists rs t2,
      stored_rows t = Ok rs /\ get_table (store w') tn = Ok t2
      /\ Forall2 (filled t) rs (values (_rows t2)).
Proof.
  intros Hwf Hdocs Hnd. induction Hnd as [|n names Hn Hnd IH]; intros Hin w w' H Ht Hread;
    [contradiction|].
  cbn [for_each] in H. apply mbind_inv in H as [wa [[] [Hload H]]].
  destruct (string_dec n tn) as [->|Hne].
  - destruct (@Table_load_rows tn t w wa docs Hload Ht Hwf Hdocs Hread)
      as [rs [t2 [Hrs [Ht2 Hall]]]].
    destruct (@for_each_Table_load_other tn names Hn wa w' H) as [_ Hsame].
    exists rs, t2. rewrite Hsame. auto.
  - destruct Hin as [Heq|Hin]; [contradiction|].
    apply Table_load_frame in Hload as [Hb Hother].
    apply (IH Hin wa w' H).
    + rewrite Hother; [exact Ht|]. intros ->. now apply Hne.
    + now rewrite Hb.
Qed.

End LoadTables.

(** ** The round trip *)

Section RoundTrip.
Variable check_schema : row -> value -> bool.
Variable utcnow : nat -> string.
Context {B : Type} {backend_of_B : Backend B} {laws : BackendLaws B}.

Lemma _add_metatable_backend (w w' : world B) :
  _add_metatable check_schema utcnow w = (w', Ok tt) -> backend w' = backend w.
Proof.
  unfold _add_metatable. intros H.
  apply mbind_inv in H as [wa [meta [Hadd H]]].
  assert (Ha : backend wa = backend w).
  { unfold add_table in Hadd. destruct (fst _); [|discriminate].
    now injection Hadd as <- _. }
  apply mbind_inv in H as [wb [[] [Hput H]]].
  unfold put_table, modify in Hput. injection Hput as <-.
  injection H as <- _. exact Ha.
Qed.

(** What a save that returns left in the backend can be read back: the
    definition of the store, and the documents of every user table. *)
Lemma saved_files_held (w w1 : world B) :
  store_wf (store w) = true -> files_distinct (store w) = true ->
  save_to_backend utcnow w = (w1, Ok tt) ->
  load_data (backend w1) TS_DEF_FILENAME
    = Ok (Json.dumps (value_of_store (with_tableorder (store w))))
  /\ forall n t, In (n, t) (_tables (store w)) -> _is_system_table t = false ->
       exists docs, table_docs t = Ok docs
         /\ forall f v, In (f, v) docs -> load_data (backend w1) f = Ok (Json.dumps v).
Proof.
  intros Hwf Hdist Hsave.
  destruct (save_to_backend_files utcnow _ Hsave) as [files [Hb1 [Hnames [Hdef [_ Hdocs]]]]].
  assert (Hnodup : NoDup (map fst files)).
  { rewrite Hnames. apply uniq_NoDup. exact Hdist. }
  assert (Hheld : forall f d, In (f, d) files -> load_data (backend w1) f = Ok d).
  { intros f d Hfd. rewrite Hb1, load_commit. now apply load_write_all. }
  split; [now apply Hheld|].
  intros n t Hin Huser.
  destruct (wf_registered _ _ _ Hwf Hin) as [Hget _].
  assert (Hn : In n (tables_where (store w) false)).
  { apply tables_where_in. now exists t. }
  destruct (user_table_inv _ _ Hwf Hn) as [Hne _].
  destruct (Hdocs n t Hn Hne Hget) as [fs [Hfs Hincl]].
  rewrite table_files_docs in Hfs.
  destruct (table_docs t) as [docs|]; [|discriminate]. injection Hfs as <-.
  exists docs. split; [reflexivity|]. intros f v Hfv. apply Hheld, Hincl.
  change (f, Json.dumps v) with (encode_doc (f, v)). now apply in_map.
Qed.

End RoundTrip.

Section RoundTripTheorem.
Variable check_schema : row -> value -> bool.
Variable utcnow : nat -> string.
Context {B : Type} {backend_of_B : Backend B} {laws : BackendLaws B}.

(** A new store loaded from a backend: the metadata table is made, the
    definition is read and decoded, and the tables it names are loaded. *)
Lemma TableStore__init__inv (w1 w2 : world B) :
  TableStore__init__ check_schema utcnow true w1 = (w2, Ok tt) ->
  exists (wb wc : world B) (definition : string),
    backend wb = backend w1
    /\ load_data (backend wb) TS_DEF_FILENAME = Ok definition
    /\ init_from_definition check_schema utcnow definition wb = (wc, Ok tt)
    /\ exists wd, backend wd = backend wc /\ _tables (store wd) = _tables (store wc)
         /\ for_each (Table_load check_schema utcnow) (keys (_tables (store wc))) wd
            = (w2, Ok tt).
Proof.
  unfold TableStore__init__. intros Hload.
  apply mbind_inv in Hload as [wa [[] [H1 Hload]]].
  unfold modify in H1. injection H1 as <-.
  apply mbind_inv in Hload as [wb [[] [Hmeta Hload]]].
  apply _add_metatable_backend in Hmeta.
  unfold load_from_backend in Hload.
  apply mbind_inv in Hload as [w0 [definition [Hdefn Hload]]].
  unfold fetch_from_storage in Hdefn. injection Hdefn as <- Hdefn.
  apply mbind_inv in Hload as [wc [[] [Hinit Hload]]].
  apply mbind_inv in Hload as [wd [[] [H2 Hload]]].
  unfold modify in H2.
  apply mbind_inv in Hload as [we [names [H3 Hload]]].
  unfold gets in H3.
  exists wb, wc, definition. split; [exact Hmeta|]. split; [exact Hdefn|].
  split; [exact Hinit|]. exists wd.
  assert (Hwd : wd = set_store wc (mkTableStore (_tables (store wc))
                                     (_tableorder (store wc))
                                     (backend_str (backend wc)))) by congruence.
  assert (Hwe : we = wd) by congruence.
  assert (Hnames : names = keys (_tables (store wd))) by congruence.
  subst we names. split; [now rewrite Hwd|]. split; [now rewrite Hwd|].
  rewrite Hwd in Hload at 1. exact Hload.
Qed.

(** A store that is well formed and whose files all have different names is
    saved, and a new store is loaded from the backend of the save; both
    calls return, the backend gives back what was saved and the coder gives
    back the documents of the save. Then every table that is not a system
    table, whose rows are dicts stored under distinct keys and hold every
    field the table has a default for -- one row for a document table -- is
    found under its name in the new store with the same set of rows, field
    order ignored. *)
Lemma round_trip_rows (w w1 w2 : world B) (n : string) (t : Table) :
  store_wf (store w) = true ->
  files_distinct (store w) = true ->
  codec_ok (store w) ->
  save_to_backend utcnow w = (w1, Ok tt) ->
  TableStore__init__ check_schema utcnow true w1 = (w2, Ok tt) ->
  In (n, t) (_tables (store w)) ->
  _is_system_table t = false ->
  table_wf t = true ->
  exists t2, get_table (store w2) n = Ok t2
             /\ same_rows (values (_rows t)) (values (_rows t2)).
Proof.
  intros Hwf Hdist Hcodec Hsave Hload Hin Huser Htwf.
  destruct (store_wf_inv _ Hwf) as [Hnd _].
  destruct (wf_registered _ _ _ Hwf Hin) as [Hget _].
  destruct (@saved_files_held utcnow B _ _ w w1 Hwf Hdist Hsave) as [Hdef Hheld].
  destruct (Hheld n t Hin Huser) as [docs [Hdocs Hfiles]].
  unfold codec_ok, store_docs in Hcodec.
  rewrite Forall_forall in Hcodec.
  destruct (@TableStore__init__inv w1 w2 Hload)
    as [wb [wc [definition [Hmeta [Hdefn [Hinit [wd [Hbd [Htd Hloop]]]]]]]]].
  rewrite Hmeta, Hdef in Hdefn.
  assert (Hdefinition :
            definition = Json.dumps (value_of_store (with_tableorder (store w))))
    by congruence.
  subst definition.
  destruct (@init_from_definition_of check_schema utcnow B (store w) wb wc
              (Hcodec _ (or_introl eq_refl)) Hnd Hinit)
    as [Htabs Hbc].
  assert (Hkeys : keys (_tables (store wc)) = keys (_tables (store w))).
  { rewrite Htabs. unfold keys. rewrite map_map. reflexivity. }
  rewrite Hkeys in Hloop.
  assert (Hread : readable (backend wd) docs).
  { intros f v Hfv. split.
    - rewrite Hbd, Hbc, Hmeta. now apply Hfiles.
    - apply Hcodec. right. apply in_flat_map. exists n. split.
      + apply tables_where_in. now exists t.
      + rewrite Hget, Hdocs. change v with (snd (f, v)). now apply in_map. }
  assert (Hstart : get_table (store wd) n = Ok (as_defined t)).
  { unfold get_table. rewrite Htd, Htabs.
    rewrite (@in_get_nodup _ _ n (as_defined t)); [reflexivity| |].
    - unfold keys in *. now rewrite map_map.
    - apply (in_map (fun nt => (fst nt, as_defined (snd nt))) _ (n, t)). exact Hin. }
  assert (Hname : In n (keys (_tables (store w)))).
  { change n with (fst (n, t)). now apply in_map. }
  destruct (@for_each_Table_load check_schema utcnow B _ n t docs _ Htwf Hdocs Hnd Hname
              wd w2 Hloop Hstart Hread)
    as [rs [t2 [Hrs [Ht2 Hall]]]].
  exists t2. split; [exact Ht2|]. exact (@stored_rows_same t rs _ Htwf Hrs Hall).
Qed.

End RoundTripTheorem.

(** The memory backend gives back what was saved. *)
Lemma MemoryBackendLaws : BackendLaws (list (string * string)).
Proof.
  split.
  - intros b f d. cbn. now rewrite get_set_same.
  - intros b f g d Hne. cbn. now rewrite get_set_other.
  - reflexivity.
Qed.

(** C1, as the specification words it, fails on a table that was given a
    default after a row was added. The row of [users] has no [role]; the
    store is saved and loaded into a new store, both calls return, and there
    the row has the default [role], because a load adds every row again and
    adding fills in the defaults. *)
Lemma defaults_appear_on_reload :
  save_to_backend Examples.seconds (Examples.late_default Examples.seconds)
    = (Examples.late_default_saved Examples.seconds, Ok tt)
  /\ TableStore__init__ Examples.accept_all Examples.seconds true
       (Examples.late_default_saved Examples.seconds)
     = (Examples.late_default_loaded Examples.seconds, Ok tt)
  /\ Examples.rows_of (store (Examples.late_default Examples.seconds)) "users"
     = [[("id", VStr "u1"); ("name", VStr "Ann")]]
  /\ Examples.rows_of (store (Examples.late_default_loaded Examples.seconds)) "users"
     = [[("role", VStr "guest"); ("id", VStr "u1"); ("name", VStr "Ann")]]
  /\ ~ same_rows
         (Examples.rows_of (store (Examples.late_default Examples.seconds)) "users")
         (Examples.rows_of (store (Examples.late_default_loaded Examples.seconds)) "users").
Proof.
  assert (Hbefore :
            Examples.rows_of (store (Examples.late_default Examples.seconds)) "users"
            = [[("id", VStr "u1"); ("name", VStr "Ann")]])
    by (vm_compute; reflexivity).
  assert (Hafter :
            Examples.rows_of (store (Examples.late_default_loaded Examples.seconds)) "users"
            = [[("role", VStr "guest"); ("id", VStr "u1"); ("name", VStr "Ann")]])
    by (vm_compute; reflexivity).
  split; [vm_compute; reflexivity|]. split; [vm_compute; reflexivity|].
  split; [exact Hbefore|]. split; [exact Hafter|].
  rewrite Hbefore, Hafter. intros [Hto _].
  destruct (Hto _ (or_introl eq_refl)) as [r' [[<-|[]] Hsame]].
  specialize (Hsame "role"). discriminate.
Qed.

Section RoundTrip.
Variable check_schema : row -> value -> bool.
Variable utcnow : nat -> string.
Context {B : Type} {backend_of_B : Backend B} {laws : BackendLaws B}.

(** C1, amended: a store whose tables are registered once under their own
    names, the metadata table among them, and whose files all have different
    names is saved, and a new store is loaded from the backend of the save;
    both calls return, the backend gives back what was saved and the coder
    gives back the documents of the save. Then every table of the store
    that is not a system table, whose rows are dicts stored under distinct
    keys and hold every field the table has a default for -- one row for a
    document table -- is found under its name in the new store with the same
    set of rows, field order ignored. *)
Theorem round_trip_store (w w1 w2 : world B) :
  store_wf (store w) = true ->
  files_distinct (store w) = true ->
  codec_ok (store w) ->
  save_to_backend utcnow w = (w1, Ok tt) ->
  TableStore__init__ check_schema utcnow true w1 = (w2, Ok tt) ->
  forall (n : string) (t : Table),
    In (n, t) (_tables (store w)) ->
    _is_system_table t = false ->
    table_wf t = true ->
    exists t2, get_table (store w2) n = Ok t2
               /\ same_rows (values (_rows t)) (values (_rows t2)).
Proof.
  intros Hwf Hdist Hcodec Hsave Hload n t Hin Huser Htwf.
  exact (@round_trip_rows check_schema utcnow B backend_of_B laws
           w w1 w2 n t Hwf Hdist Hcodec Hsave Hload Hin Huser Htwf).
Qed.

End RoundTrip.

Lemma round_trip_store_witness :
  forallb (fun nt => negb (_is_system_table (snd nt)) && table_wf (snd nt))
          (filter (fun nt => negb (_is_system_table (snd nt)))
                  (_tables (store (Examples.populated Examples.seconds)))) = true
  /\ exists t2,
       get_table (store (Examples.reloaded Examples.seconds)) "users" = Ok t2
       /\ same_rows (values (_rows (Examples.populated_users Examples.seconds)))
                    (values (_rows t2)).
Proof.
  split; [vm_compute; reflexivity|].
  apply (@round_trip_store Examples.accept_all Examples.seconds
           (list (string * string)) MemoryBackend MemoryBackendLaws
           (Examples.populated Examples.seconds) (Examples.saved_once Examples.seconds)
           (Examples.reloaded Examples.seconds)).
  - vm_compute; reflexivity.
  - vm_compute; reflexivity.
  - unfold codec_ok.
    repeat (apply Forall_cons; [vm_compute; reflexivity|]). apply Forall_nil.
  - vm_compute; reflexivity.
  - vm_compute; reflexivity.
  - vm_compute. right. left. reflexivity.
  - vm_compute; reflexivity.
  - vm_compute; reflexivity.
Defined.

(** * More properties *)

(** ** Adding, fetching and removing rows *)

Lemma get_del_same {A} (k : string) (d : dict A) :
  NoDup (keys d) -> Py.get k (Py.del k d) = None.
Proof.
  induction d as [|[k' v'] d IH]; intros Hnd; [reflexivity|].
  cbn in Hnd. inversion Hnd as [|? ? Hk Hd]; subst. cbn [Py.del].
  destruct (String.eqb_spec k k') as [->|Hne].
  - now apply get_None_not_in.
  - cbn [Py.get]. destruct (String.eqb_spec k k'); [contradiction|auto].
Qed.

Lemma get_del_other {A} (k k' : string) (d : dict A) :
  k <> k' -> Py.get k (Py.del k' d) = Py.get k d.
Proof.
  intros Hne. induction d as [|[k2 v2] d IH]; [reflexivity|]. cbn [Py.del Py.get].
  destruct (String.eqb_spec k' k2) as [->|Hne2].
  - destruct (String.eqb_spec k k2); [contradiction|reflexivity].
  - cbn [Py.get]. destruct (String.eqb_spec k k2); [reflexivity|exact IH].
Qed.

Lemma in_del {A} (k : string) (x : string * A) (d : dict A) :
  In x (Py.del k d) -> In x d.
Proof.
  induction d as [|[k' v'] d IH]; [auto|]. cbn [Py.del].
  destruct (String.eqb k k'); [now right|]. intros [<-|Hin]; [now left|right; auto].
Qed.

Lemma NoDup_keys_del {A} (k : string) (d : dict A) :
  NoDup (keys d) -> NoDup (keys (Py.del k d)).
Proof.
  induction d as [|[k' v'] d IH]; intros Hnd; [exact Hnd|].
  cbn in Hnd. inversion Hnd as [|? ? Hk Hd]; subst. cbn [Py.del].
  destruct (String.eqb k k'); [exact Hd|]. cbn. constructor; [|auto].
  intros Hin. apply Hk. unfold keys in *. apply in_map_iff in Hin as [x [Hx Hin]].
  apply in_del in Hin. rewrite <- Hx. now apply in_map.
Qed.

Section RowFacts.
Variable check_schema : row -> value -> bool.
Variable utcnow : nat -> string.

(** [Table.add], case by case on what [_check_row] says of the candidate. *)
Lemma Table_add_cases (ts : TableStore) (t : Table) (r : row) (check_only : bool)
    (tick : nat) :
  match _check_row check_schema ts t (candidate utcnow t r tick) with
  | Ok key =>
      result (Table_add check_schema utcnow ts t r check_only tick)
        = Ok (candidate utcnow t r tick)
      /\ self (Table_add check_schema utcnow ts t r check_only tick)
         = (if check_only then t
            else set_rows t (Py.set key (candidate utcnow t r tick) (_rows t)))
  | Raise e =>
      result (Table_add check_schema utcnow ts t r check_only tick) = Raise e
      /\ self (Table_add check_schema utcnow ts t r check_only tick) = t
  end.
Proof.
  unfold Table_add, candidate.
  destruct (_get_default_values utcnow t tick) as [d n]. cbn [fst].
  destruct (_check_row check_schema ts t (Py.update d r)); [|auto].
  destruct check_only; auto.
Qed.

Lemma check_row_key (ts : TableStore) (t : Table) (c : row) (key : string) :
  _check_row check_schema ts t c = Ok key ->
  _canonicalize_key t c false = Ok key /\ Py.get key (_rows t) = None.
Proof.
  unfold _check_row.
  destruct (check_constraints _ _ _ _); [|discriminate]. cbn [bind].
  destruct (check_schema _ _); [|discriminate].
  destruct (_canonicalize_key t c false) as [k|]; [|discriminate]. cbn [bind].
  unfold Py.mem. destruct (Py.get k (_rows t)) eqn:Hget; [discriminate|].
  cbn. intros [= <-]. auto.
Qed.

Lemma check_row_taken (ts : TableStore) (t : Table) (c r0 : row) (key : string) :
  _canonicalize_key t c false = Ok key -> Py.get key (_rows t) = Some r0 ->
  is_Ok (_check_row check_schema ts t c) = false.
Proof.
  intros Hkey Hget. unfold _check_row.
  destruct (check_constraints _ _ _ _); [|reflexivity]. cbn [bind].
  destruct (check_schema _ _); [|reflexivity]. rewrite Hkey. cbn [bind].
  unfold Py.mem. now rewrite Hget.
Qed.

(** The candidate row holds the fields of the row it is built from. *)
Lemma candidate_get (t : Table) (r : row) (tick : nat) (f : string) (v : value) :
  is_dict r = true -> Py.get f r = Some v ->
  Py.get f (candidate utcnow t r tick) = Some v.
Proof.
  intros Hdict Hget. unfold candidate. rewrite (get_update _ _ _ Hdict). now rewrite Hget.
Qed.

Lemma candidate_key (t : Table) (r : row) (tick : nat) :
  cls t = ClsTable -> is_dict r = true -> issubset (_pk_fields t) r = true ->
  _canonicalize_key t (candidate utcnow t r tick) false = _canonicalize_key t r false.
Proof.
  intros Hcls Hdict Hsub. unfold _canonicalize_key. rewrite Hcls.
  apply Table__canonicalize_key_agree. intros k Hk.
  rewrite issubset_forall in Hsub. destruct (Hsub k Hk) as [v Hv].
  rewrite Hv. now apply candidate_get.
Qed.

(** X2: a row that [Table.add] stored is what [get] returns for it, and for
    every key mapping that agrees with it on the primary-key fields; [find]
    without criteria lists it. *)
Theorem add_then_get (ts : TableStore) (t : Table) (r r' : row) (tick : nat) :
  cls t = ClsTable ->
  result (add check_schema utcnow ts t r false tick) = Ok r' ->
  (forall pk, (forall k, In k (_pk_fields t) -> Py.get k pk = Py.get k r') ->
     Table_get (self (add check_schema utcnow ts t r false tick)) (Some pk)
     = Ok (Some r'))
  /\ In r' (find (self (add check_schema utcnow ts t r false tick)) None).
Proof.
  intros Hcls. unfold add. rewrite Hcls.
  pose proof (Table_add_cases ts t r false tick) as Hcases.
  destruct (_check_row check_schema ts t (candidate utcnow t r tick)) as [key|e] eqn:Hcheck;
    destruct Hcases as [Hres Hself]; rewrite Hres, Hself; [|discriminate].
  intros [= <-]. destruct (check_row_key _ _ _ Hcheck) as [Hkey _]. split.
  - intros pk Hagree. unfold Table_get.
    change (_canonicalize_key (set_rows t ?x) pk false)
      with (_canonicalize_key t pk false).
    assert (Hpk : _canonicalize_key t pk false = Ok key).
    { rewrite <- Hkey. unfold _canonicalize_key. rewrite Hcls.
      now apply Table__canonicalize_key_agree. }
    rewrite Hpk. cbn [bind _rows set_rows]. now rewrite get_set_same.
  - unfold find. cbn [_rows set_rows].
    change (candidate utcnow t r tick) with (snd (key, candidate utcnow t r tick)) at 1.
    apply in_map. apply get_Some_in. apply get_set_same.
Qed.

(** X3: [Table.add] never replaces a row: when [get] finds a row under the
    primary key of the new row, the call fails and leaves the table as it
    was. *)
Theorem add_existing_key_fails (ts : TableStore) (t : Table) (r r0 : row)
    (check_only : bool) (tick : nat) :
  cls t = ClsTable -> is_dict r = true ->
  Table_get t (Some r) = Ok (Some r0) ->
  is_Ok (result (add check_schema utcnow ts t r check_only tick)) = false
  /\ self (add check_schema utcnow ts t r check_only tick) = t.
Proof.
  intros Hcls Hdict Hget. unfold add. rewrite Hcls.
  unfold Table_get in Hget.
  destruct (_canonicalize_key t r false) as [key|] eqn:Hkey; [|discriminate].
  cbn [bind] in Hget. injection Hget as Hget.
  assert (Hsub : issubset (_pk_fields t) r = true).
  { unfold _canonicalize_key in Hkey. rewrite Hcls in Hkey.
    rewrite Table__canonicalize_key_cases in Hkey.
    destruct (issubset (_pk_fields t) r); [reflexivity|discriminate]. }
  rewrite <- (candidate_key t r tick Hcls Hdict Hsub) in Hkey.
  pose proof (check_row_taken ts t _ Hkey Hget) as Htaken.
  pose proof (Table_add_cases ts t r check_only tick) as Hcases.
  destruct (_check_row check_schema ts t (candidate utcnow t r tick)) as [k|e];
    [discriminate|].
  destruct Hcases as [-> ->]. auto.
Qed.

(** X4: every row of a table stays stored under its own canonical key
    through [add], whatever the call does, and through [remove]. *)
Theorem rows_keyed_kept (ts : TableStore) (t : Table) (r pk : row)
    (check_only : bool) (tick : nat) :
  rows_keyed t ->
  rows_keyed (self (add check_schema utcnow ts t r check_only tick))
  /\ rows_keyed (fst (remove t pk)).
Proof.
  intros [Hdict Hkeyed]. split.
  - assert (HT : forall ts0 t0,
               rows_keyed t0 ->
               rows_keyed (self (Table_add check_schema utcnow ts0 t0 r check_only tick))).
    { intros ts0 t0 [Hd0 Hk0].
      pose proof (Table_add_cases ts0 t0 r check_only tick) as Hcases.
      destruct (_check_row check_schema ts0 t0 (candidate utcnow t0 r tick))
        as [key|e] eqn:Hcheck; destruct Hcases as [_ ->]; [|now split].
      destruct check_only; [now split|].
      destruct (check_row_key _ _ _ Hcheck) as [Hkey Hfree]. split.
      - cbn [_rows set_rows]. unfold is_dict in *. apply uniq_NoDup.
        apply NoDup_keys_set. now apply uniq_NoDup.
      - cbn [_rows set_rows]. intros k r1 Hin.
        change (_canonicalize_key (set_rows t0 ?x) r1 false)
          with (_canonicalize_key t0 r1 false).
        apply in_set in Hin as [[-> ->]|Hin]; auto. }
    unfold add. destruct (cls t) eqn:Hcls.
    + apply HT. now split.
    + unfold SingleRowTable_add.
      assert (Hempty : rows_keyed (set_rows t [])).
      { split; [reflexivity|]. intros k r1 []. }
      destruct check_only; cbn [self]; now apply HT.
  - unfold remove. destruct (_canonicalize_key t pk false) as [k|]; [|now split].
    destruct (Py.mem k (_rows t)); [|now split]. cbn [fst]. split.
    + cbn [_rows set_rows]. unfold is_dict in *. apply uniq_NoDup.
      apply NoDup_keys_del. now apply uniq_NoDup.
    + cbn [_rows set_rows]. intros k1 r1 Hin.
      change (_canonicalize_key (set_rows t ?x) r1 false)
        with (_canonicalize_key t r1 false).
      apply Hkeyed. eapply in_del. exact Hin.
Qed.

End RowFacts.

(** X5: in a table whose rows are stored under their canonical keys, [get]
    called with a row of the table returns that row. *)
Theorem rows_keyed_get (t : Table) (r : row) :
  cls t = ClsTable -> rows_keyed t -> In r (values (_rows t)) ->
  Table_get t (Some r) = Ok (Some r).
Proof.
  intros _ [Hdict Hkeyed] Hin. unfold values in Hin.
  apply in_map_iff in Hin as [[k r0] [<- Hin]]. cbn [snd].
  unfold Table_get. rewrite (Hkeyed _ _ Hin). cbn [bind].
  unfold is_dict in Hdict. apply uniq_NoDup in Hdict.
  now rewrite (in_get_nodup _ _ _ Hdict Hin).
Qed.

(** X6: [remove] takes out the row of the key and no other: afterwards [get]
    finds nothing under that key and what it found before under any other;
    a key without a row makes [remove] raise [KeyError] and leaves the table
    as it was. *)
Theorem remove_then_get (t : Table) (pk : row) :
  cls t = ClsTable -> is_dict (_rows t) = true ->
  (forall t', remove t pk = (t', Ok tt) ->
     Table_get t' (Some pk) = Ok None
     /\ forall pk2, (exists k2, _canonicalize_key t pk2 false = Ok k2
                                /\ _canonicalize_key t pk false <> Ok k2) ->
          Table_get t' (Some pk2) = Table_get t (Some pk2))
  /\ (Table_get t (Some pk) = Ok None -> remove t pk = (t, Raise KeyError)).
Proof.
  intros Hcls Hdict. unfold is_dict in Hdict. apply uniq_NoDup in Hdict.
  unfold remove, Table_get. split.
  - intros t'. destruct (_canonicalize_key t pk false) as [k|] eqn:Hk; [|discriminate].
    destruct (Py.mem k (_rows t)); [|discriminate]. intros [= <-].
    change (_canonicalize_key (set_rows t ?x) ?y false)
      with (_canonicalize_key t y false).
    rewrite Hk. cbn [bind _rows set_rows]. split.
    + now rewrite get_del_same.
    + intros pk2 [k2 [Hk2 Hne]]. rewrite Hk2. cbn [bind _rows set_rows].
      rewrite get_del_other; [reflexivity|]. intros ->. now apply Hne.
  - destruct (_canonicalize_key t pk false) as [k|]; [|discriminate].
    cbn [bind]. intros [= Hget]. unfold Py.mem. now rewrite Hget.
Qed.

(** ** Defaults *)

Section DefaultFacts.
Variable check_schema : row -> value -> bool.
Variable utcnow : nat -> string.


Lemma add_result (ts : TableStore) (t : Table) (r r' : row) (check_only : bool)
    (tick : nat) :
  result (add check_schema utcnow ts t r check_only tick) = Ok r' ->
  r' = candidate utcnow t r tick.
Proof.
  assert (HT : forall ts0 t0,
             result (Table_add check_schema utcnow ts0 t0 r check_only tick) = Ok r' ->
             r' = candidate utcnow t0 r tick).
  { intros ts0 t0. pose proof (Table_add_cases check_schema utcnow ts0 t0 r check_only tick)
      as Hcases.
    destruct (_check_row check_schema ts0 t0 (candidate utcnow t0 r tick));
      destruct Hcases as [-> _]; [|discriminate]. now intros [= <-]. }
  unfold add. destruct (cls t); [apply HT|].
  unfold SingleRowTable_add. destruct check_only; cbn [result]; [discriminate|].
  intros Hres. apply HT in Hres. exact Hres.
Qed.


End DefaultFacts.

(** ** Declaring keys *)

Lemma constraint_eqb_refl (c : constraint) : constraint_eqb c c = true.
Proof.
  assert (Hl : forall l, list_string_eqb l l = true)
    by (intros l; now apply list_string_eqb_eq).
  destruct c; cbn; rewrite ?Hl, ?String.eqb_refl; reflexivity.
Qed.

(** X8: declaring the same primary key a second time changes nothing, and a
    declaration never drops a constraint the table holds: the constraint of
    an earlier primary key stays. *)
Theorem add_primary_key_again (t : Table) (fields : string) :
  add_primary_key (add_primary_key t fields) fields = add_primary_key t fields
  /\ forall c, In c (_constraints t) -> In c (_constraints (add_primary_key t fields)).
Proof.
  unfold add_primary_key. cbn [_pk_fields set_pk_fields _constraints]. split.
  - destruct (existsb (constraint_eqb (primary_key (sorted (split fields))))
                      (_constraints t)) eqn:Hex.
    + cbn [_constraints set_pk_fields]. rewrite Hex. reflexivity.
    + cbn [_constraints set_pk_fields set_constraints _pk_fields].
      rewrite existsb_app. cbn [existsb]. rewrite constraint_eqb_refl.
      rewrite orb_true_r. reflexivity.
  - intros c Hin.
    destruct (existsb _ _); cbn [_constraints set_pk_fields set_constraints]; auto.
    apply in_or_app. now left.
Qed.

(** ** File names *)

Lemma append_inv_head (a b c : string) : a ++ b = a ++ c -> b = c.
Proof. induction a as [|x a IH]; cbn; [auto|]. intros [= H]. auto. Qed.

(** X9: within a table, two rows are written to the same file only when
    they have the same group key. *)
Theorem get_filename_injective (t : Table) (a b : row) (fn : string) :
  a <> [] -> b <> [] ->
  get_filename t (Some a) false = Ok fn ->
  get_filename t (Some b) false = Ok fn ->
  _canonicalize_key t a true = _canonicalize_key t b true.
Proof.
  intros Ha Hb. unfold get_filename.
  destruct a as [|ka a]; [contradiction|]. destruct b as [|kb b]; [contradiction|].
  destruct (negb _); [|discriminate]. destruct (negb _); [|discriminate].
  set (prefix := match _subfolder t with
                 | Some sub => if truthy_str (Some sub) then sub ++ "/" ++ _table_name t
                               else _table_name t
                 | None => _table_name t
                 end).
  destruct (_canonicalize_key t (ka :: a) true) as [k1|]; [|discriminate].
  destruct (_canonicalize_key t (kb :: b) true) as [k2|]; [|discriminate].
  cbn [bind]. intros [= <-] [= Heq]. f_equal.
  apply append_inv_tail in Heq. apply append_inv_head in Heq.
  now injection Heq as ->.
Qed.

(** ** Foreign keys on insertion *)

Section ReferenceFacts.
Variable check_schema : row -> value -> bool.
Variable utcnow : nat -> string.



(** X11: a successful [add] to a document table leaves it with that row and
    no other; the table the constructor returns holds one empty row. *)
Theorem document_holds_one_row (ts : TableStore) (t : Table) (r r' : row)
    (tick : nat) :
  cls t = ClsSingleRowTable ->
  result (add check_schema utcnow ts t r false tick) = Ok r' ->
  _rows (self (add check_schema utcnow ts t r false tick)) = [("", r')]
  /\ SingleRowTable_get (self (add check_schema utcnow ts t r false tick)) = Some r'.
Proof.
  intros Hcls Hres.
  pose proof (@SingleRowTable_add_replaces check_schema utcnow ts t r r' tick Hcls Hres)
    as Hrows.
  split; [exact Hrows|]. unfold SingleRowTable_get. now rewrite Hrows.
Qed.

End ReferenceFacts.

(** ** The metadata of a table *)

Section MetadataFacts.
Variable utcnow : nat -> string.
Context {B : Type} {backend_of_B : Backend B}.

(** X12: [get_table_metadata] creates the record of a name once: called
    again, it returns the same record and changes nothing. *)
Theorem get_table_metadata_again (name : string) (w w1 : world B) (i : nat) :
  get_table_metadata name w = (w1, Ok i) ->
  get_table_metadata name w1 = (w1, Ok i).
Proof.
  intros Hfirst.
  destruct (get_table_metadata_inv _ _ Hfirst)
    as [r [entries [Hmeta [Htabs [[Hfound ->]|[Hnone [-> ->]]]]]]].
  - exact Hfirst.
  - unfold get_table_metadata. cbn [store set_store].
    pose proof (meta_get_put _ (Py.set "tables" (VList (entries ++ [zeroed_record name])) r)
                  Hmeta) as Hmeta1.
    rewrite (meta_getitem_get _ "tables" Hmeta1), get_set_same.
    rewrite find_table_meta_app, Hnone. cbn. rewrite String.eqb_refl. reflexivity.
Qed.


(** X14: a save that returns leaves every table but the metadata table as
    it was, under the same names in the same order; of the metadata table it
    changes the rows at most. *)
Theorem save_changes_metadata_only (w w1 : world B) :
  save_to_backend utcnow w = (w1, Ok tt) ->
  keys (_tables (store w1)) = keys (_tables (store w))
  /\ (forall n, n <> TS_META_TABLENAME ->
        get_table (store w1) n = get_table (store w) n)
  /\ (forall mt, get_table (store w) TS_META_TABLENAME = Ok mt ->
        exists rows1, get_table (store w1) TS_META_TABLENAME = Ok (set_rows mt rows1)).
Proof.
  intros Hsave.
  destruct (save_to_backend_files utcnow _ Hsave) as [files [_ [_ [_ [Hmo _]]]]].
  destruct (meta_only_facts Hmo) as [Hkeys [Hother Hmeta]].
  split; [exact Hkeys|]. split.
  - intros n Hne. unfold get_table. now rewrite Hother.
  - intros mt. unfold get_table.
    destruct (Py.get TS_META_TABLENAME (_tables (store w))) as [m|] eqn:Hm; [|discriminate].
    intros [= ->]. destruct (Hmeta _ eq_refl) as [rows1 ->]. now exists rows1.
Qed.

(** After a save that returns, the checksum recorded for every table that is
    not a system table is the checksum of its content. *)
Lemma save_records_content (w w1 : world B) (s : string) :
  store_wf (store w) = true ->
  last_modified_of (store w) = Ok (VStr s) ->
  save_to_backend utcnow w = (w1, Ok tt) ->
  user_table_changed (store w1) = false.
Proof.
  intros Hwf Hlm Hsave.
  destruct (@save_to_backend_inv utcnow B _ _ _ _ Hsave Hwf Hlm)
    as [r [r1 [Hmeta [Hmeta1 [Hmo1 [Hrec1 _]]]]]].
  assert (Hwf1 : store_wf (store w1) = true) by exact (meta_only_store_wf Hmo1 Hwf).
  rewrite <- (stamps_user_table_changed _ Hwf1 Hmeta1),
    (meta_only_tables_where false Hmo1).
  apply not_true_is_false. intros Hex.
  apply existsb_exists in Hex as [n [Hn Hst]].
  destruct (Hrec1 n Hn) as [t [cs [Ht [Hcs Hmd5]]]].
  destruct (user_table_inv _ _ Hwf Hn) as [Hne _].
  unfold stamps in Hst. rewrite (meta_only_get_table Hmo1 Hne), Ht, Hcs, Hmd5 in Hst.
  cbn [Py.eqb] in Hst. rewrite String.eqb_refl, andb_false_r in Hst. discriminate.
Qed.

(** X15: a save never lowers the version of the store and raises it by one
    at most. *)
Theorem version_step (w w1 : world B) (s : string) (z : Z) :
  store_wf (store w) = true ->
  last_modified_of (store w) = Ok (VStr s) ->
  version_of (store w) = Ok (VInt z) ->
  save_to_backend utcnow w = (w1, Ok tt) ->
  exists z', version_of (store w1) = Ok (VInt z') /\ (z <= z' <= z + 1)%Z.
Proof.
  intros Hwf Hlm Hver Hsave.
  destruct (@save_to_backend_inv utcnow B _ _ _ _ Hsave Hwf Hlm)
    as [r [r1 [Hmeta [Hmeta1 [_ [_ Hcase]]]]]].
  unfold version_of in *.
  rewrite (meta_getitem_get _ "version" Hmeta) in Hver.
  rewrite (meta_getitem_get _ "version" Hmeta1).
  destruct (Py.get "version" r) as [v|] eqn:Hv; [|discriminate].
  injection Hver as ->.
  destruct (user_table_changed (store w)).
  - destruct Hcase as [k [_ [_ Hv1]]]. rewrite Hv1.
    destruct (String.eqb s (utcnow k)); cbn [bumped].
    + exists z. split; [reflexivity|lia].
    + exists (z + 1)%Z. split; [reflexivity|lia].
  - destruct Hcase as [_ Hv1]. rewrite Hv1. exists z. split; [reflexivity|lia].
Qed.

(** X16: after [refresh_metadata] returns, the checksum recorded for every
    table that is not a system table is the checksum of its content, and the
    backend of the state is the one it was. *)
Theorem refresh_metadata_up_to_date (b : B) (w w1 : world B) (s : string) :
  store_wf (store w) = true ->
  last_modified_of (store w) = Ok (VStr s) ->
  refresh_metadata utcnow (Ok b) w = (w1, Ok tt) ->
  user_table_changed (store w1) = false /\ backend w1 = backend w.
Proof.
  intros Hwf Hlm. unfold refresh_metadata.
  destruct (save_to_backend utcnow (set_backend w b)) as [w0 res0] eqn:Hsave.
  cbn [fst snd]. intros [= <- ->]. cbn [store backend set_backend]. split; [|reflexivity].
  now apply (@save_records_content (set_backend w b) w0 s).
Qed.

End MetadataFacts.

(** ** Building a store *)

Lemma forallb_set {A} (p : string * A -> bool) (k : string) (v : A) (d : dict A) :
  forallb p d = true -> p (k, v) = true ->
  (forall k' v', String.eqb k k' = true -> p (k', v') = true -> p (k', v) = true) ->
  forallb p (Py.set k v d) = true.
Proof.
  intros Hall Hnew Hsame. induction d as [|[k' v'] d IH]; cbn.
  - now rewrite Hnew.
  - cbn in Hall. apply andb_prop in Hall as [Hhd Htl].
    destruct (String.eqb k k') eqn:Hk; cbn.
    + now rewrite (Hsame k' v' Hk Hhd), Htl.
    + now rewrite Hhd, IH.
Qed.

Section StoreFacts.
Variable check_schema : row -> value -> bool.
Variable utcnow : nat -> string.
Context {B : Type} {backend_of_B : Backend B}.

(** X17: a store constructed without a backend is well formed; it holds the
    metadata table and no other, at version 1, created at the first reading
    of the clock and last modified at the second. *)
Theorem new_store_is_well_formed (w w' : world B) :
  TableStore__init__ check_schema utcnow false w = (w', Ok tt) ->
  store_wf (store w') = true
  /\ keys (_tables (store w')) = [TS_META_TABLENAME]
  /\ tables (store w') = []
  /\ version_of (store w') = Ok (VInt 1)
  /\ meta_getitem (store w') "created_on" = Ok (VStr (utcnow (ticks w)))
  /\ last_modified_of (store w') = Ok (VStr (utcnow (S (ticks w))))
  /\ backend w' = backend w.
Proof.
  unfold TableStore__init__, _add_metatable, add_table, put_table, modify, mbind, ret.
  cbn [store set_store ticks _tables set_tables].
  unfold SingleRowTable__init__. cbn [Table__init__ startswith String.prefix negb andb
                                     TS_META_TABLENAME].
  cbn. 
  destruct (check_schema [] (VDict [])); cbn; [|discriminate].
  destruct (check_schema _ meta_schema); cbn; [|discriminate].
  intros [= <-]. cbn. repeat split; reflexivity.
Qed.

(** A table just made bears the name it was made under and is not a system
    table. *)
Lemma made_table_name (ts : TableStore) (n : string) (single : bool) (tick : nat)
    (t : Table) :
  fst (if single
       then SingleRowTable__init__ check_schema utcnow ts n true tick
       else (Table__init__ ClsTable n true, tick)) = Ok t ->
  _table_name t = n /\ _is_system_table t = false
  /\ _rows t = (if single then [("", [])] else []).
Proof.
  destruct single.
  - intros Hmade. pose proof (SingleRowTable__init__one_row _ _ _ _ _ _ Hmade) as Hrows.
    revert Hmade. unfold SingleRowTable__init__, Table__init__.
    destruct (_ && _); [discriminate|].
    unfold SingleRowTable_add, Table_add.
    destruct (_get_default_values _ _ _) as [d k].
    destruct (_check_row _ _ _ _); cbn; [|discriminate].
    intros [= <-]. auto.
  - cbn [fst]. unfold Table__init__. destruct (_ && _); [discriminate|].
    intros [= <-]. auto.
Qed.

(** X18: [add_table] registers the new table under its name and leaves the
    other tables alone; the store stays well formed, unless the name is that
    of the metadata table. A table registered under the name before is
    replaced by the new, empty one. *)
Theorem add_table_keeps_store (n : string) (single : bool) (w w' : world B)
    (t : Table) :
  store_wf (store w) = true ->
  n <> TS_META_TABLENAME ->
  add_table check_schema utcnow n single w = (w', Ok t) ->
  store_wf (store w') = true
  /\ get_table (store w') n = Ok t
  /\ _rows t = (if single then [("", [])] else [])
  /\ (forall n', n' <> n -> get_table (store w') n' = get_table (store w) n')
  /\ backend w' = backend w.
Proof.
  intros Hwf Hne. unfold add_table.
  pose proof (made_table_name (store w) n single (ticks w)) as Hmade.
  destruct (fst _) as [t0|e]; [|discriminate].
  destruct (Hmade t0 eq_refl) as [Hname [Hsys Hrows]].
  intros [= <- <-]. cbn [store backend].
  unfold get_table. cbn [_tables set_tables]. split; [|split; [|split; [|split]]].
  - unfold store_wf in *. cbn [_tables set_tables].
    apply andb_prop in Hwf as [Hwf Hmeta]. apply andb_prop in Hwf as [Hdict Hnames].
    rewrite get_set_other by (intros H; apply Hne; now symmetry). rewrite Hmeta.
    apply andb_true_intro. split; [|reflexivity].
    apply andb_true_intro. split.
    + unfold is_dict in *. apply uniq_NoDup. apply NoDup_keys_set. now apply uniq_NoDup.
    + apply forallb_set; [exact Hnames| |].
      * cbn. rewrite Hname. apply String.eqb_refl.
      * intros k' v' Hk _. cbn. apply String.eqb_eq in Hk. subst k'.
        rewrite Hname. apply String.eqb_refl.
  - now rewrite get_set_same.
  - exact Hrows.
  - intros n' Hn'. now rewrite get_set_other.
  - reflexivity.
Qed.

(** X19: in a well-formed store, the property [tables] holds a table under
    a name exactly when the store holds it under that name and it is not a
    system table; the metadata table is never among them. *)
Theorem tables_are_user_tables (ts : TableStore) (n : string) (t : Table) :
  store_wf ts = true ->
  (Py.get n (tables ts) = Some t
   <-> get_table ts n = Ok t /\ _is_system_table t = false)
  /\ Py.get TS_META_TABLENAME (tables ts) = None.
Proof.
  intros Hwf. destruct (store_wf_inv _ Hwf) as [Hnd [_ [m [Hm Hsys]]]].
  assert (Hfilter : forall k, Py.get k (tables ts)
                              = match Py.get k (_tables ts) with
                                | Some x => if _is_system_table x then None else Some x
                                | None => None
                                end).
  { intros k. unfold tables. revert Hnd. generalize (_tables ts). intros l.
    induction l as [|[k' x] l IH]; intros Hnd; [reflexivity|].
    cbn in Hnd. inversion Hnd as [|? ? Hk Hl]; subst. cbn [filter snd Py.get].
    destruct (String.eqb_spec k k') as [->|Hne].
    - destruct (_is_system_table x); cbn [negb Py.get].
      + rewrite (IH Hl). apply get_None_not_in in Hk. now rewrite Hk.
      + now rewrite String.eqb_refl.
    - destruct (_is_system_table x); cbn [negb Py.get]; [now apply IH|].
      destruct (String.eqb_spec k k'); [contradiction|now apply IH]. }
  split.
  - rewrite Hfilter. unfold get_table.
    destruct (Py.get n (_tables ts)) as [x|]; [|split; [discriminate|intros [[=] _]]].
    destruct (_is_system_table x) eqn:Hx; split.
    + discriminate.
    + intros [[= ->] Hf]. congruence.
    + intros [= ->]. auto.
    + now intros [[= ->] _].
  - now rewrite Hfilter, Hm, Hsys.
Qed.

(** X20: decoding the definition that [get_definition] returns gives every
    table of the store under its name, in the same order, with its
    attributes and constraints and without rows; the backend is not touched.
    The coder is assumed to give the definition back. *)
Theorem definition_round_trip (w0 w0' w w' : world B) (d : string) :
  is_dict (_tables (store w0)) = true ->
  get_definition w0 = (w0', Ok d) ->
  Json.loads d = Some (value_of_store (store w0')) ->
  init_from_definition check_schema utcnow d w = (w', Ok tt) ->
  keys (_tables (store w')) = keys (_tables (store w0))
  /\ (forall n t, get_table (store w0) n = Ok t ->
        get_table (store w') n = Ok (as_defined t))
  /\ backend w' = backend w.
Proof.
  intros Hdict Hdef Hcodec Hinit. unfold is_dict in Hdict. apply uniq_NoDup in Hdict.
  unfold get_definition in Hdef. injection Hdef as <- <-. cbn [store set_store] in Hcodec.
  destruct (@init_from_definition_of check_schema utcnow B (store w0) w w'
              Hcodec Hdict Hinit) as [Htabs Hb].
  split; [|split; [|exact Hb]].
  - rewrite Htabs. unfold keys. now rewrite map_map.
  - intros n t. unfold get_table. rewrite Htabs.
    destruct (Py.get n (_tables (store w0))) as [x|] eqn:Hx; [|discriminate].
    intros [= ->]. apply get_Some_in in Hx.
    rewrite (@in_get_nodup _ _ n (as_defined t)); [reflexivity| |].
    + unfold keys in *. now rewrite map_map.
    + exact (in_map (fun nt => (fst nt, as_defined (snd nt))) _ (n, t) Hx).
Qed.

End StoreFacts.

(** ** Saving and loading *)

Section CopyFacts.
Variable check_schema : row -> value -> bool.
Variable utcnow : nat -> string.
Context {B : Type} {backend_of_B : Backend B} {laws : BackendLaws B}.

(** X1: round trip. A store that is well formed and whose files all have
    different names is saved, and a new store is loaded from the backend of
    the save; both calls return, the backend gives back what was saved and
    the coder gives back the documents of the save. Then every table that
    is not a system table, whose rows are dicts stored under distinct keys
    and hold every field the table has a default for -- one row for a
    document table -- is found under its name in the new store with the same
    set of rows, field order ignored. *)
Theorem round_trip_user_table (w w1 w2 : world B) (n : string) (t : Table) :
  store_wf (store w) = true ->
  files_distinct (store w) = true ->
  codec_ok (store w) ->
  save_to_backend utcnow w = (w1, Ok tt) ->
  TableStore__init__ check_schema utcnow true w1 = (w2, Ok tt) ->
  In (n, t) (_tables (store w)) ->
  _is_system_table t = false ->
  table_wf t = true ->
  exists t2, get_table (store w2) n = Ok t2
             /\ same_rows (values (_rows t)) (values (_rows t2)).
Proof. apply (@round_trip_rows check_schema utcnow B backend_of_B laws). Qed.

(** X21: [copy_table_store] returns a store in which every such table of
    the original is found under its name with the same set of rows, under
    the same conditions; the backend of the state is the one it was. *)
Theorem copy_table_store_rows (b : B) (w w' : world B) (copy : TableStore)
    (n : string) (t : Table) :
  store_wf (store w) = true ->
  files_distinct (store w) = true ->
  codec_ok (store w) ->
  copy_table_store check_schema utcnow (Ok b) w = (w', Ok copy) ->
  In (n, t) (_tables (store w)) ->
  _is_system_table t = false ->
  table_wf t = true ->
  (exists t2, get_table copy n = Ok t2
              /\ same_rows (values (_rows t)) (values (_rows t2)))
  /\ backend w' = backend w.
Proof.
  intros Hwf Hdist Hcodec Hcopy Hin Huser Htwf. unfold copy_table_store in Hcopy.
  destruct (save_to_backend utcnow (set_backend w b)) as [w1 [[]|e]] eqn:Hsave;
    cbn [fst snd] in Hcopy; [|discriminate].
  destruct (TableStore__init__ check_schema utcnow true w1) as [w2 [[]|e]] eqn:Hload;
    cbn [fst snd bind] in Hcopy; [|discriminate].
  injection Hcopy as <- <-. cbn [backend]. split; [|reflexivity].
  exact (@round_trip_rows check_schema utcnow B backend_of_B laws
           (set_backend w b) w1 w2 n t Hwf Hdist Hcodec Hsave Hload Hin Huser Htwf).
Qed.

(** X22: a load of a table that returns changes no other table of the
    store and writes nothing to the backend. *)
Theorem load_touches_one_table (tn : string) (w w' : world B) :
  Table_load check_schema utcnow tn w = (w', Ok tt) ->
  backend w' = backend w
  /\ forall n, n <> tn -> get_table (store w') n = get_table (store w) n.
Proof. intros Hload. exact (Table_load_frame _ _ _ _ Hload). Qed.

End CopyFacts.

(** ** The stored form of a row *)

Lemma mem_set_other {A} (k k' : string) (v : A) (d : dict A) :
  k <> k' -> Py.mem k (Py.set k' v d) = Py.mem k d.
Proof. intros Hne. unfold Py.mem. now rewrite get_set_other. Qed.

Lemma keys_update {A} (e : dict A) :
  forall d : dict A,
    NoDup (keys e) ->
    keys (Py.update d e)
    = (keys d ++ filter (fun k => negb (Py.mem k d)) (keys e))%list.
Proof.
  unfold Py.update. induction e as [|[k v] e IH]; intros d Hnd.
  - cbn. now rewrite app_nil_r.
  - change (keys ((k, v) :: e)) with (k :: keys e) in *.
    inversion Hnd as [|? ? Hk He]; subst. cbn [fold_left fst snd filter].
    rewrite (IH _ He).
    assert (Hfilter : filter (fun k0 => negb (Py.mem k0 (Py.set k v d))) (keys e)
                      = filter (fun k0 => negb (Py.mem k0 d)) (keys e)).
    { apply filter_ext_in. intros k0 Hk0. rewrite mem_set_other; [reflexivity|].
      intros ->. contradiction. }
    rewrite Hfilter. unfold Py.mem at 2. destruct (Py.get k d) as [x|] eqn:Hget; cbn [negb].
    + rewrite keys_set_in; [reflexivity|].
      apply get_Some_in in Hget. change k with (fst (k, x)). now apply in_map.
    + rewrite keys_set_new by now apply get_None_not_in.
      now rewrite <- app_assoc.
Qed.

Lemma project_keys (fields : list string) (r : row) :
  forall acc p : row,
    NoDup (keys acc ++ fields)%list ->
    project fields r acc = Ok p -> keys p = (keys acc ++ fields)%list.
Proof.
  induction fields as [|f fields IH]; intros acc p Hnd Hp.
  - injection Hp as <-. now rewrite app_nil_r.
  - cbn [project] in Hp. destruct (Py.get f r) as [v|]; [|discriminate].
    assert (Hf : ~ In f (keys acc)).
    { intros Hin. apply NoDup_remove_2 in Hnd. apply Hnd. apply in_or_app. now left. }
    assert (Hnd' : NoDup (keys (Py.set f v acc) ++ fields)%list).
    { rewrite keys_set_new by exact Hf. now rewrite <- app_assoc. }
    rewrite (IH _ _ Hnd' Hp), keys_set_new by exact Hf. now rewrite <- app_assoc.
Qed.

(** X23: the stored form of a row lists the primary-key fields first, in the
    order of their declaration, then the other fields in the order the row
    has them, and holds the same values; a row that lacks a primary-key field
    has none, the attempt raises [KeyError]. *)
Theorem orderly_row_order (t : Table) (r : row) :
  is_dict r = true -> NoDup (_pk_fields t) ->
  match orderly_row t r with
  | Ok o =>
      keys o = (_pk_fields t
                ++ filter (fun k => negb (str_in k (_pk_fields t))) (keys r))%list
      /\ forall k, Py.get k o = Py.get k r
  | Raise e => e = KeyError /\ issubset (_pk_fields t) r = false
  end.
Proof.
  intros Hdict Hpk. destruct (orderly_row t r) as [o|e] eqn:Ho.
  - destruct (orderly_row_same t r Hdict Ho) as [Hsame _].
    split; [|intros k; symmetry; apply Hsame].
    unfold orderly_row in Ho.
    destruct (project (_pk_fields t) r []) as [p|] eqn:Hp; [|discriminate].
    injection Ho as <-. unfold is_dict in Hdict. apply uniq_NoDup in Hdict.
    rewrite (keys_update r p Hdict), (project_keys _ _ [] Hpk Hp). cbn [keys map app].
    f_equal. apply filter_ext. intros k. f_equal.
    destruct (project_get _ _ _ Hp) as [Hget [_ Hsub]].
    unfold Py.mem. rewrite Hget. unfold str_in.
    destruct (existsb (String.eqb k) (_pk_fields t)) eqn:Hin; [|reflexivity].
    apply existsb_exists in Hin as [k' [Hk' Heq]]. apply String.eqb_eq in Heq. subst k'.
    rewrite issubset_forall in Hsub. destruct (Hsub k Hk') as [v ->]. reflexivity.
  - unfold orderly_row in Ho.
    destruct (project (_pk_fields t) r []) as [p|e'] eqn:Hp; [discriminate|].
    cbn [bind] in Ho. injection Ho as <-. clear Hpk. revert Hp.
    generalize (@nil (string * value)).
    induction (_pk_fields t) as [|f fields IH]; intros acc Hp; [discriminate|].
    cbn [project] in Hp. unfold issubset. cbn [forallb]. unfold Py.mem.
    destruct (Py.get f r).
    + destruct (IH _ Hp) as [He Hsub]. split; [exact He|]. exact Hsub.
    + split; [congruence|reflexivity].
Qed.

(** ** Documents *)

Section DocumentItems.
Variable check_schema : row -> value -> bool.
Variable utcnow : nat -> string.

(** X24: after a successful [add] to a document table, indexing the table
    by a field of the added row gives the value the row has for it; after a
    failed [add] the table has no row, and indexing it raises [TypeError]. *)
Theorem document_getitem (ts : TableStore) (t : Table) (r : row) (tick : nat) :
  cls t = ClsSingleRowTable -> is_dict r = true ->
  (forall r' f v,
     result (add check_schema utcnow ts t r false tick) = Ok r' ->
     Py.get f r = Some v ->
     SingleRowTable__getitem__ (self (add check_schema utcnow ts t r false tick)) f
     = Ok v)
  /\ (forall e f,
        result (add check_schema utcnow ts t r false tick) = Raise e ->
        SingleRowTable__getitem__ (self (add check_schema utcnow ts t r false tick)) f
        = Raise TypeError).
Proof.
  intros Hcls Hdict. split.
  - intros r' f v Hres Hget.
    pose proof (@SingleRowTable_add_replaces check_schema utcnow ts t r r' tick Hcls Hres)
      as Hrows.
    unfold SingleRowTable__getitem__, SingleRowTable_get. rewrite Hrows. cbn [values map snd].
    apply add_result in Hres. subst r'.
    now rewrite (candidate_get utcnow t r tick f Hdict Hget).
  - intros e f Hres.
    pose proof (@SingleRowTable_add_failed check_schema utcnow ts t r tick e Hcls Hres)
      as Hrows.
    unfold SingleRowTable__getitem__, SingleRowTable_get. now rewrite Hrows.
Qed.

End DocumentItems.

(** ** What a save leaves in the backend *)

Section SavedFiles.
Variable utcnow : nat -> string.
Context {B : Type} {backend_of_B : Backend B} {laws : BackendLaws B}.

(** X25: after a save that returns, of a well-formed store whose files all
    have different names, to a backend that gives back what was saved, the
    backend holds the definition of the store under ['#tsdef.json'] and, for
    every table that is not a system table, each of its documents, encoded,
    under the name of its file. *)
Theorem saved_files_can_be_read (w w1 : world B) :
  store_wf (store w) = true -> files_distinct (store w) = true ->
  save_to_backend utcnow w = (w1, Ok tt) ->
  load_data (backend w1) TS_DEF_FILENAME
    = Ok (Json.dumps (value_of_store (with_tableorder (store w))))
  /\ forall n t, In (n, t) (_tables (store w)) -> _is_system_table t = false ->
       exists docs, table_docs t = Ok docs
         /\ forall f v, In (f, v) docs -> load_data (backend w1) f = Ok (Json.dumps v).
Proof. apply (@saved_files_held utcnow B backend_of_B laws). Qed.

End SavedFiles.

(** ** The properties at work *)

Lemma add_then_get_witness :
  Table_get (self (add Examples.accept_all Examples.seconds Examples.shop Examples.users
                       [("id", VStr "u1"); ("name", VStr "Ann")] false 0))
            (Some [("id", VStr "u1")])
  = Ok (Some [("id", VStr "u1"); ("name", VStr "Ann")]).
Proof.
  apply (@add_then_get Examples.accept_all Examples.seconds Examples.shop Examples.users
           [("id", VStr "u1"); ("name", VStr "Ann")]
           [("id", VStr "u1"); ("name", VStr "Ann")] 0).
  - reflexivity.
  - reflexivity.
  - intros k [<-|[]]. reflexivity.
Defined.

Lemma add_existing_key_fails_witness :
  is_Ok (result (add Examples.accept_all Examples.seconds Examples.shop
                     Examples.users_with_ann [("id", VStr "u1")] false 0)) = false
  /\ self (add Examples.accept_all Examples.seconds Examples.shop
               Examples.users_with_ann [("id", VStr "u1")] false 0)
     = Examples.users_with_ann.
Proof.
  apply (@add_existing_key_fails Examples.accept_all Examples.seconds Examples.shop
           Examples.users_with_ann [("id", VStr "u1")]
           [("id", VStr "u1"); ("email", VStr "ann@example.org")] false 0).
  - reflexivity.
  - reflexivity.
  - reflexivity.
Defined.

Lemma users_with_ann_keyed : rows_keyed Examples.users_with_ann.
Proof.
  split; [reflexivity|]. intros k r [[= <- <-]|[]]. reflexivity.
Qed.

Lemma rows_keyed_kept_witness :
  rows_keyed (self (add Examples.accept_all Examples.seconds Examples.shop
                        Examples.users_with_ann
                        [("id", VStr "u2"); ("email", VStr "bob@example.org")] false 0))
  /\ rows_keyed (fst (remove Examples.users_with_ann [("id", VStr "u1")])).
Proof.
  apply (@rows_keyed_kept Examples.accept_all Examples.seconds Examples.shop
           Examples.users_with_ann
           [("id", VStr "u2"); ("email", VStr "bob@example.org")]
           [("id", VStr "u1")] false 0).
  exact users_with_ann_keyed.
Defined.

Lemma rows_keyed_get_witness :
  Table_get Examples.users_with_ann
            (Some [("id", VStr "u1"); ("email", VStr "ann@example.org")])
  = Ok (Some [("id", VStr "u1"); ("email", VStr "ann@example.org")]).
Proof.
  apply (@rows_keyed_get Examples.users_with_ann
           [("id", VStr "u1"); ("email", VStr "ann@example.org")]).
  - reflexivity.
  - exact users_with_ann_keyed.
  - simpl. auto.
Defined.

Lemma remove_then_get_witness :
  Table_get (fst (remove Examples.two_users [("id", VStr "u1")])) (Some [("id", VStr "u1")])
  = Ok None
  /\ Table_get (fst (remove Examples.two_users [("id", VStr "u1")]))
               (Some [("id", VStr "u2")])
     = Table_get Examples.two_users (Some [("id", VStr "u2")]).
Proof.
  destruct (@remove_then_get Examples.two_users [("id", VStr "u1")]) as [Hremoved _].
  - reflexivity.
  - reflexivity.
  - destruct (Hremoved (fst (remove Examples.two_users [("id", VStr "u1")])) eq_refl)
      as [Hgone Hkept].
    split; [exact Hgone|]. apply Hkept. exists "u2". split; [reflexivity|discriminate].
Defined.


Lemma get_filename_injective_witness :
  _canonicalize_key Examples.users_by_row [("id", VStr "u1"); ("name", VStr "Ann")] true
  = _canonicalize_key Examples.users_by_row [("id", VStr "u1")] true.
Proof.
  apply (@get_filename_injective Examples.users_by_row
           [("id", VStr "u1"); ("name", VStr "Ann")] [("id", VStr "u1")]
           "users.u1.json").
  - discriminate.
  - discriminate.
  - reflexivity.
  - reflexivity.
Defined.


Lemma document_holds_one_row_witness :
  _rows (self (add Examples.accept_all Examples.seconds Examples.empty_store
                   Examples.document [("title", VStr "notes")] false 0))
  = [("", [("title", VStr "notes")])]
  /\ SingleRowTable_get
       (self (add Examples.accept_all Examples.seconds Examples.empty_store
                  Examples.document [("title", VStr "notes")] false 0))
     = Some [("title", VStr "notes")].
Proof.
  apply (@document_holds_one_row Examples.accept_all Examples.seconds
           Examples.empty_store Examples.document [("title", VStr "notes")]
           [("title", VStr "notes")] 0).
  - reflexivity.
  - reflexivity.
Defined.

Lemma document_getitem_witness :
  SingleRowTable__getitem__
    (self (add Examples.accept_all Examples.seconds Examples.empty_store
               Examples.document [("title", VStr "notes")] false 0)) "title"
  = Ok (VStr "notes").
Proof.
  destruct (@document_getitem Examples.accept_all Examples.seconds Examples.empty_store
              Examples.document [("title", VStr "notes")] 0) as [Hfound _].
  - reflexivity.
  - reflexivity.
  - apply (Hfound [("title", VStr "notes")]); reflexivity.
Defined.

Lemma orderly_row_order_witness :
  match orderly_row Examples.users [("name", VStr "Ann"); ("id", VStr "u1")] with
  | Ok o =>
      keys o = (["id"] ++ filter (fun k => negb (str_in k ["id"])) ["name"; "id"])%list
      /\ forall k, Py.get k o = Py.get k [("name", VStr "Ann"); ("id", VStr "u1")]
  | Raise e =>
      e = KeyError
      /\ issubset ["id"] [("name", VStr "Ann"); ("id", VStr "u1")] = false
  end.
Proof.
  apply (@orderly_row_order Examples.users [("name", VStr "Ann"); ("id", VStr "u1")]).
  - reflexivity.
  - repeat constructor; simpl; tauto.
Defined.

Lemma get_table_metadata_again_witness :
  get_table_metadata "users"
    (fst (get_table_metadata "users" (Examples.populated Examples.seconds)))
  = (fst (get_table_metadata "users" (Examples.populated Examples.seconds)), Ok 0).
Proof.
  apply (@get_table_metadata_again (list (string * string)) "users"
           (Examples.populated Examples.seconds)).
  vm_compute. reflexivity.
Defined.


Lemma save_changes_metadata_only_witness :
  keys (_tables (store (Examples.saved_once Examples.seconds)))
  = keys (_tables (store (Examples.populated Examples.seconds)))
  /\ get_table (store (Examples.saved_once Examples.seconds)) "users"
     = get_table (store (Examples.populated Examples.seconds)) "users".
Proof.
  destruct (@save_changes_metadata_only Examples.seconds (list (string * string))
              MemoryBackend (Examples.populated Examples.seconds)
              (Examples.saved_once Examples.seconds)) as [Hkeys [Hother _]].
  - vm_compute. reflexivity.
  - split; [exact Hkeys|]. apply Hother. discriminate.
Defined.

Lemma version_step_witness :
  exists z', version_of (store (Examples.saved_once Examples.seconds)) = Ok (VInt z')
             /\ (1 <= z' <= 1 + 1)%Z.
Proof.
  apply (@version_step Examples.seconds (list (string * string)) MemoryBackend
           (Examples.populated Examples.seconds) (Examples.saved_once Examples.seconds)
           (Examples.seconds 1) 1).
  - vm_compute. reflexivity.
  - vm_compute. reflexivity.
  - vm_compute. reflexivity.
  - vm_compute. reflexivity.
Defined.

Lemma refresh_metadata_up_to_date_witness :
  user_table_changed
    (store (fst (refresh_metadata Examples.seconds (Ok [])
                   (Examples.populated Examples.seconds)))) = false
  /\ backend (fst (refresh_metadata Examples.seconds (Ok [])
                     (Examples.populated Examples.seconds)))
     = backend (Examples.populated Examples.seconds).
Proof.
  apply (@refresh_metadata_up_to_date Examples.seconds (list (string * string))
           MemoryBackend [] (Examples.populated Examples.seconds) _ (Examples.seconds 1)).
  - vm_compute. reflexivity.
  - vm_compute. reflexivity.
  - vm_compute. reflexivity.
Defined.

Lemma new_store_is_well_formed_witness :
  store_wf (store (fst (TableStore__init__ Examples.accept_all Examples.seconds false
                          Examples.start))) = true
  /\ version_of (store (fst (TableStore__init__ Examples.accept_all Examples.seconds false
                               Examples.start))) = Ok (VInt 1).
Proof.
  destruct (@new_store_is_well_formed Examples.accept_all Examples.seconds
              (list (string * string)) MemoryBackend Examples.start
              (fst (TableStore__init__ Examples.accept_all Examples.seconds false
                      Examples.start)))
    as [Hwf [_ [_ [Hversion _]]]].
  - vm_compute. reflexivity.
  - split; [exact Hwf|exact Hversion].
Defined.

Lemma add_table_keeps_store_witness :
  store_wf (store (fst (add_table Examples.accept_all Examples.seconds "orders" false
                          (Examples.populated Examples.seconds)))) = true
  /\ get_table (store (fst (add_table Examples.accept_all Examples.seconds "orders" false
                              (Examples.populated Examples.seconds)))) "users"
     = get_table (store (Examples.populated Examples.seconds)) "users".
Proof.
  destruct (@add_table_keeps_store Examples.accept_all Examples.seconds
              (list (string * string)) "orders" false
              (Examples.populated Examples.seconds)
              (fst (add_table Examples.accept_all Examples.seconds "orders" false
                      (Examples.populated Examples.seconds)))
              (mkTable ClsTable "orders" [] (VDict []) [] [] [] true None None false))
    as [Hwf [_ [_ [Hother _]]]].
  - vm_compute. reflexivity.
  - discriminate.
  - vm_compute. reflexivity.
  - split; [exact Hwf|]. apply Hother. discriminate.
Defined.

Lemma tables_are_user_tables_witness :
  (Py.get "users" (tables (store (Examples.populated Examples.seconds)))
     = Some (Examples.populated_users Examples.seconds)
   <-> get_table (store (Examples.populated Examples.seconds)) "users"
         = Ok (Examples.populated_users Examples.seconds)
       /\ _is_system_table (Examples.populated_users Examples.seconds) = false)
  /\ Py.get TS_META_TABLENAME (tables (store (Examples.populated Examples.seconds)))
     = None.
Proof.
  apply (@tables_are_user_tables (store (Examples.populated Examples.seconds)) "users"
           (Examples.populated_users Examples.seconds)).
  vm_compute. reflexivity.
Defined.

Lemma definition_round_trip_witness :
  keys (_tables (store (fst (init_from_definition Examples.accept_all Examples.seconds
                               (Json.dumps (value_of_store
                                  (with_tableorder
                                     (store (Examples.populated Examples.seconds)))))
                               Examples.start))))
  = keys (_tables (store (Examples.populated Examples.seconds))).
Proof.
  destruct (@definition_round_trip Examples.accept_all Examples.seconds
              (list (string * string))
              (Examples.populated Examples.seconds)
              (fst (get_definition (Examples.populated Examples.seconds)))
              Examples.start
              (fst (init_from_definition Examples.accept_all Examples.seconds
                      (Json.dumps (value_of_store
                         (with_tableorder (store (Examples.populated Examples.seconds)))))
                      Examples.start))
              (Json.dumps (value_of_store
                 (with_tableorder (store (Examples.populated Examples.seconds))))))
    as [Hkeys _].
  - vm_compute. reflexivity.
  - reflexivity.
  - vm_compute. reflexivity.
  - vm_compute. reflexivity.
  - exact Hkeys.
Defined.

Lemma round_trip_user_table_witness :
  exists t2,
    get_table (store (Examples.reloaded Examples.seconds)) "users" = Ok t2
    /\ same_rows (values (_rows (Examples.populated_users Examples.seconds)))
                 (values (_rows t2)).
Proof.
  apply (@round_trip_user_table Examples.accept_all Examples.seconds
           (list (string * string)) MemoryBackend MemoryBackendLaws
           (Examples.populated Examples.seconds) (Examples.saved_once Examples.seconds)
           (Examples.reloaded Examples.seconds) "users"
           (Examples.populated_users Examples.seconds)).
  - vm_compute; reflexivity.
  - vm_compute; reflexivity.
  - unfold codec_ok.
    repeat (apply Forall_cons; [vm_compute; reflexivity|]). apply Forall_nil.
  - vm_compute; reflexivity.
  - vm_compute; reflexivity.
  - vm_compute. right. left. reflexivity.
  - vm_compute; reflexivity.
  - vm_compute; reflexivity.
Defined.

Lemma copy_table_store_rows_witness :
  (exists t2,
     get_table (store (Examples.reloaded Examples.seconds)) "users" = Ok t2
     /\ same_rows (values (_rows (Examples.populated_users Examples.seconds)))
                  (values (_rows t2)))
  /\ backend (fst (copy_table_store Examples.accept_all Examples.seconds (Ok [])
                     (Examples.populated Examples.seconds)))
     = backend (Examples.populated Examples.seconds).
Proof.
  apply (@copy_table_store_rows Examples.accept_all Examples.seconds
           (list (string * string)) MemoryBackend MemoryBackendLaws []
           (Examples.populated Examples.seconds)
           (fst (copy_table_store Examples.accept_all Examples.seconds (Ok [])
                   (Examples.populated Examples.seconds)))
           (store (Examples.reloaded Examples.seconds)) "users"
           (Examples.populated_users Examples.seconds)).
  - vm_compute; reflexivity.
  - vm_compute; reflexivity.
  - unfold codec_ok.
    repeat (apply Forall_cons; [vm_compute; reflexivity|]). apply Forall_nil.
  - vm_compute; reflexivity.
  - vm_compute. right. left. reflexivity.
  - vm_compute; reflexivity.
  - vm_compute; reflexivity.
Defined.

Lemma load_touches_one_table_witness :
  backend (fst (Table_load Examples.accept_all Examples.seconds "users"
                  (Examples.unloaded Examples.seconds)))
  = backend (Examples.unloaded Examples.seconds)
  /\ get_table (store (fst (Table_load Examples.accept_all Examples.seconds "users"
                              (Examples.unloaded Examples.seconds)))) TS_META_TABLENAME
     = get_table (store (Examples.unloaded Examples.seconds)) TS_META_TABLENAME.
Proof.
  destruct (@load_touches_one_table Examples.accept_all Examples.seconds
              (list (string * string)) MemoryBackend "users"
              (Examples.unloaded Examples.seconds)
              (fst (Table_load Examples.accept_all Examples.seconds "users"
                      (Examples.unloaded Examples.seconds))))
    as [Hbackend Hother].
  - vm_compute. reflexivity.
  - split; [exact Hbackend|]. apply Hother. discriminate.
Defined.

Lemma saved_files_can_be_read_witness :
  load_data (backend (Examples.saved_once Examples.seconds)) TS_DEF_FILENAME
  = Ok (Json.dumps (value_of_store
          (with_tableorder (store (Examples.populated Examples.seconds))))).
Proof.
  apply (@saved_files_can_be_read Examples.seconds (list (string * string))
           MemoryBackend MemoryBackendLaws
           (Examples.populated Examples.seconds) (Examples.saved_once Examples.seconds)).
  - vm_compute. reflexivity.
  - vm_compute. reflexivity.
  - vm_compute. reflexivity.
Defined.

(** ** Dry runs and defaults of documents *)

Section DryRunFacts.
Variable check_schema : row -> value -> bool.
Variable utcnow : nat -> string.

(** X26: on a table, [add] with [check_only] gives the verdict of a real
    [add], the row or the exception, and leaves the table as it was. *)
Theorem check_only_is_dry_run (ts : TableStore) (t : Table) (r : row) (tick : nat) :
  cls t = ClsTable ->
  result (add check_schema utcnow ts t r true tick)
  = result (add check_schema utcnow ts t r false tick)
  /\ self (add check_schema utcnow ts t r true tick) = t.
Proof.
  intros Hcls. unfold add. rewrite Hcls.
  pose proof (Table_add_cases check_schema utcnow ts t r true tick) as Hdry.
  pose proof (Table_add_cases check_schema utcnow ts t r false tick) as Hreal.
  destruct (_check_row check_schema ts t (candidate utcnow t r tick));
    destruct Hdry as [-> ->]; destruct Hreal as [-> _]; auto.
Qed.

(** X27: giving a document table its defaults resets the document: when the
    call returns, the table holds the defaults, resolved, and nothing of
    what the document held before. *)
Theorem document_defaults_reset (ts : TableStore) (t : Table) (d : row) (tick : nat) :
  cls t = ClsSingleRowTable ->
  result (add_default_values check_schema utcnow ts t d tick) = Ok tt ->
  _rows (self (add_default_values check_schema utcnow ts t d tick))
  = [("", fst (_get_default_values utcnow (set_default_values t d) tick))].
Proof.
  intros Hcls. unfold add_default_values. cbn [cls set_default_values]. rewrite Hcls.
  cbn [result self].
  destruct (result (SingleRowTable_add check_schema utcnow ts (set_default_values t d)
                      [] false tick)) as [r'|e] eqn:Hres; [|discriminate].
  intros _.
  assert (Hadd : result (add check_schema utcnow ts (set_default_values t d) [] false tick)
                 = Ok r').
  { unfold add. cbn [cls set_default_values]. now rewrite Hcls. }
  pose proof (@SingleRowTable_add_replaces check_schema utcnow ts (set_default_values t d)
                [] r' tick Hcls Hadd) as Hrows.
  unfold add in Hrows. cbn [cls set_default_values] in Hrows. rewrite Hcls in Hrows.
  rewrite Hrows. apply add_result in Hadd. subst r'. reflexivity.
Qed.

End DryRunFacts.

Lemma check_only_is_dry_run_witness :
  result (add Examples.accept_all Examples.seconds Examples.shop Examples.users_with_ann
              [("id", VStr "u2"); ("email", VStr "bob@example.org")] true 0)
  = result (add Examples.accept_all Examples.seconds Examples.shop Examples.users_with_ann
                [("id", VStr "u2"); ("email", VStr "bob@example.org")] false 0)
  /\ self (add Examples.accept_all Examples.seconds Examples.shop Examples.users_with_ann
               [("id", VStr "u2"); ("email", VStr "bob@example.org")] true 0)
     = Examples.users_with_ann.
Proof.
  apply (@check_only_is_dry_run Examples.accept_all Examples.seconds Examples.shop
           Examples.users_with_ann
           [("id", VStr "u2"); ("email", VStr "bob@example.org")] 0).
  reflexivity.
Defined.

Lemma document_defaults_reset_witness :
  _rows (self (add_default_values Examples.accept_all Examples.seconds
                 Examples.empty_store
                 (set_rows Examples.document [("", [("title", VStr "notes")])])
                 [("lang", VStr "en")] 0))
  = [("", fst (_get_default_values Examples.seconds
                 (set_default_values
                    (set_rows Examples.document [("", [("title", VStr "notes")])])
                    [("lang", VStr "en")]) 0))].
Proof.
  apply (@document_defaults_reset Examples.accept_all Examples.seconds
           Examples.empty_store
           (set_rows Examples.document [("", [("title", VStr "notes")])])
           [("lang", VStr "en")] 0).
  - reflexivity.
  - reflexivity.
Defined.
